(** * OnyxInventory: the M-Pesa payment views, the gateway service and the
      stock bookkeeping of [pos_app], as Rocq functions.

    Sources: [pos_app/services/mpesa_service.py] (class [MPesaService]),
    [pos_app/views.py] ([get_cart], [add_to_cart], [get_cart_items],
    [remove_from_cart], [checkout], [initiate_mpesa_payment],
    [mpesa_callback], [check_payment_status]), [pos_app/models.py]
    ([Product], [StockMovement], [Cart], [CartItem], [Sale], [MPesaPayment])
    and [pos_app/admin.py] (the colour of [ProductAdmin.status_display]).

    Conventions of the embedding.
    - A value decoded by [json.loads] is a [json]; Python's [None] is [JNull].
      Strings are ASCII strings.
    - A finite Python float is an exact rational ([FFinite]); the rounding
      and the range of the binary64 format are outside the model: every
      integer converts to a float.
    - A raised exception is a value of [exn]; code that can raise returns
      [exn + A].  Views run in the monad [M]: database and network log are
      threaded, an exception leaves the writes made before it in place.
    - The ORM is a store of attribute values: every table is a finite map
      from primary key to row, [save] writes the attributes of the object,
      [create] inserts under a fresh key.  What [pos_app/models.py] declares
      of the columns is enforced: [create] refuses a second row with the
      same [MPesaPayment.checkout_request_id] or the same [Sale.cart], and
      [create] and [save] refuse [None] in a column without [null=True].
      The conversion of attribute values to column types (widths, digits)
      belongs to the database and is not modelled.
    - Library functions whose text is not part of the repository
      ([float] and [str] on the values noted below, [datetime.strptime],
      [base64.b64encode], the conversion of a lookup value to a primary key)
      are fields of the record [Runtime], over which the views are
      parameterised; [int] on a string is a parameter of the cart views. *)

From Stdlib Require Import ZArith QArith String Ascii List Lia.
From stdpp Require Import base option gmap strings list fin_maps pretty.

Open Scope Z_scope.
Set Warnings "-register-all".

(** ** Python values *)

Inductive pyfloat : Type :=
| FFinite (q : Q)
| FInf (negative : bool)
| FNan.

Inductive json : Type :=
| JNull
| JBool (b : bool)
| JInt (z : Z)
| JFloat (f : pyfloat)
| JStr (s : string)
| JList (l : list json)
| JObj (kv : list (string * json)).

Record datetime : Type := mkDatetime {
  dt_year : Z; dt_month : Z; dt_day : Z;
  dt_hour : Z; dt_minute : Z; dt_second : Z
}.

(** ** Exceptions *)

(** The exception classes the code can meet.  [ValueError (Some m)] is raised
    by the repository with message [m]; [ValueError None] by a builtin.
    [RequestsJSONDecodeError] is the error of [response.json()], a
    [RequestException] and a [ValueError] at once (requests 2.27 and later);
    [PlainException] is [raise Exception(...)], its message without the text
    of the cause. *)
Inductive exn : Type :=
| ValueError (msg : option string)
| JSONDecodeError
| UnicodeDecodeError
| TypeError
| AttributeError
| KeyError
| OverflowError
| RequestException
| RequestsJSONDecodeError
| DoesNotExist
| MultipleObjectsReturned
| IntegrityError
| PlainException (msg : string).

(** [isinstance(e, ValueError)]: the decoding errors are subclasses. *)
Definition is_ValueError (e : exn) : bool :=
  match e with
  | ValueError _ | JSONDecodeError | UnicodeDecodeError
  | RequestsJSONDecodeError => true
  | _ => false
  end.

(** [isinstance(e, requests.exceptions.RequestException)]. *)
Definition is_RequestException (e : exn) : bool :=
  match e with
  | RequestException | RequestsJSONDecodeError => true
  | _ => false
  end.

(** [isinstance(e, json.JSONDecodeError)]. *)
Definition is_JSONDecodeError (e : exn) : bool :=
  match e with
  | JSONDecodeError | RequestsJSONDecodeError => true
  | _ => false
  end.

Definition exc (A : Type) : Type := (exn + A)%type.

Definition exc_bind {A B : Type} (c : exc A) (k : A -> exc B) : exc B :=
  match c with
  | inl e => inl e
  | inr a => k a
  end.

Declare Scope exc_scope.
Delimit Scope exc_scope with exc.
Notation "'let*' x ':=' c 'in' k" := (exc_bind c (fun x => k))
  (at level 10, x name, c at level 100, k at level 200) : exc_scope.

(** ** Strings *)

Definition chars (s : string) : list ascii := list_ascii_of_string s.
Definition of_chars (l : list ascii) : string := string_of_list_ascii l.

(** [str.isdigit] on an ASCII character. *)
Definition isdigit (c : ascii) : bool :=
  let n := nat_of_ascii c in (48 <=? n)%nat && (n <=? 57)%nat.

(** [str.isspace] on an ASCII character: tab to carriage return, the four
    separators and the blank. *)
Definition isspace (c : ascii) : bool :=
  let n := nat_of_ascii c in
  ((9 <=? n)%nat && (n <=? 13)%nat) || ((28 <=? n)%nat && (n <=? 32)%nat).

Definition str_filter (f : ascii -> bool) (s : string) : string :=
  of_chars (List.filter f (chars s)).

Definition startswith (s prefix : string) : bool := String.prefix prefix s.

(** [s[n:]] and [s[:n]]. *)
Definition str_drop (n : nat) (s : string) : string := of_chars (drop n (chars s)).
Definition str_take (n : nat) (s : string) : string := of_chars (take n (chars s)).

Fixpoint lstrip_chars (l : list ascii) : list ascii :=
  match l with
  | c :: l' => if isspace c then lstrip_chars l' else l
  | [] => []
  end.

(** [s.strip()]. *)
Definition strip (s : string) : string :=
  of_chars (rev (lstrip_chars (rev (lstrip_chars (chars s))))).

(** [s.zfill(width)]: zeros after a leading sign. *)
Definition zfill (width : nat) (s : string) : string :=
  let n := String.length s in
  let zeros := of_chars (replicate (width - n) "0"%char) in
  match s with
  | String c rest =>
      if (Ascii.eqb c "+" || Ascii.eqb c "-")%bool
      then String c (zeros +:+ rest)
      else zeros +:+ s
  | EmptyString => zeros
  end.

(** ** The gateway client: phone normalisation *)

(** [MPesaService.format_phone_number], from the digits filter on; the
    argument is [str(phone)]. *)
Definition format_phone_number (phone : string) : exc string :=
  let phone := str_filter isdigit phone in
  if startswith phone "0" then inr ("254" +:+ str_drop 1 phone)
  else if startswith phone "254" then inr phone
  else if (String.length phone =? 9)%nat && startswith phone "7"
       then inr ("254" +:+ phone)
  else inl (ValueError (Some ("Invalid phone number format: " +:+ phone))).

(** ** The Python runtime *)

(** Library functions outside the repository.  [None] stands for the
    [ValueError] the function raises. *)
Record Runtime : Type := mkRuntime {
  (** [float(s)] on a [str]. *)
  float_of_str : string -> option pyfloat;
  (** [str(x)] on a [float]. *)
  str_of_float : pyfloat -> string;
  (** [str(x)] on a [list] or a [dict]. *)
  str_of_container : json -> string;
  (** [datetime.strptime(s, "%Y%m%d%H%M%S")]. *)
  strptime_compact : string -> option datetime;
  (** [base64.b64encode(s.encode()).decode()]. *)
  b64encode : string -> string;
  (** The ORM's conversion of the value of an [id=] lookup to a key. *)
  pk_of_json : json -> exc Z
}.

(** Truth value of a Python object, as [if x] and [not x] test it. *)
Definition truthy (v : json) : bool :=
  match v with
  | JNull => false
  | JBool b => b
  | JInt z => negb (z =? 0)
  | JFloat (FFinite q) => negb (Qeq_bool q 0)
  | JFloat _ => true
  | JStr s => negb (String.eqb s "")
  | JList l => match l with [] => false | _ => true end
  | JObj kv => match kv with [] => false | _ => true end
  end.

(** [x == 0] for a decoded value [x]: numbers compare by value, [False] is
    the integer 0, everything else differs from 0. *)
Definition eq_zero (v : json) : bool :=
  match v with
  | JInt z => z =? 0
  | JBool b => negb b
  | JFloat (FFinite q) => Qeq_bool q 0
  | _ => false
  end.

(** [x == s] for a string literal [s]. *)
Definition eq_str (v : json) (s : string) : bool :=
  match v with
  | JStr t => String.eqb t s
  | _ => false
  end.

(** [x is not None]. *)
Definition not_none (v : json) : bool :=
  match v with
  | JNull => false
  | _ => true
  end.

Fixpoint assoc (k : string) (kv : list (string * json)) : option json :=
  match kv with
  | [] => None
  | (k', v) :: rest => if String.eqb k' k then Some v else assoc k rest
  end.

(** [d.get(k, default)]; only a [dict] has the method.  A decoded object
    lists each key once. *)
Definition py_get (d : json) (k : string) (default : json) : exc json :=
  match d with
  | JObj kv => inr (match assoc k kv with Some v => v | None => default end)
  | _ => inl AttributeError
  end.

(** [d[k]] with a string key. *)
Definition py_getitem (d : json) (k : string) : exc json :=
  match d with
  | JObj kv => match assoc k kv with Some v => inr v | None => inl KeyError end
  | _ => inl TypeError
  end.

(** The items a [for] loop draws from a decoded value. *)
Definition py_iter (v : json) : exc (list json) :=
  match v with
  | JList l => inr l
  | JStr s => inr (map (fun c => JStr (String c EmptyString)) (chars s))
  | JObj kv => inr (map (fun p => JStr (fst p)) kv)
  | _ => inl TypeError
  end.

(** [x[:n]]: strings and lists have slices. *)
Definition py_prefix (n : nat) (v : json) : exc json :=
  match v with
  | JStr s => inr (JStr (str_take n s))
  | JList l => inr (JList (take n l))
  | _ => inl TypeError
  end.

(** [x.strip()]: only a [str] has the method. *)
Definition py_strip (v : json) : exc string :=
  match v with
  | JStr s => inr (strip s)
  | _ => inl AttributeError
  end.

(** Truncation toward zero, [int(x)] on a float. *)
Definition int_of_float (f : pyfloat) : exc Z :=
  match f with
  | FFinite q => inr (Z.quot (Qnum q) (Zpos (Qden q)))
  | FInf _ => inl OverflowError
  | FNan => inl (ValueError None)
  end.

(** [x <= 0] on a float. *)
Definition float_le_zero (f : pyfloat) : bool :=
  match f with
  | FFinite q => Qle_bool q 0
  | FInf negative => negative
  | FNan => false
  end.

Section Python.
Context (R : Runtime).

(** [str(x)]. *)
Definition py_str (v : json) : string :=
  match v with
  | JNull => "None"
  | JBool true => "True"
  | JBool false => "False"
  | JInt z => pretty z
  | JFloat f => str_of_float R f
  | JStr s => s
  | JList _ | JObj _ => str_of_container R v
  end.

(** [float(x)]. *)
Definition py_float (v : json) : exc pyfloat :=
  match v with
  | JInt z => inr (FFinite (inject_Z z))
  | JBool b => inr (FFinite (inject_Z (if b then 1 else 0)))
  | JFloat f => inr f
  | JStr s => match float_of_str R s with
              | Some f => inr f
              | None => inl (ValueError None)
              end
  | JNull | JList _ | JObj _ => inl TypeError
  end.

End Python.

(** ** Models ([pos_app/models.py]) *)

(** [MPesaPayment.PAYMENT_STATUS]. *)
Inductive PaymentStatus : Type := pending | successful | failed | cancelled.

Module MPesaPayment.
Record t : Type := mk {
  sale : option Z;
  phone_number : string;
  amount : pyfloat;
  checkout_request_id : json;
  merchant_request_id : json;
  mpesa_receipt_number : string;
  transaction_date : option datetime;
  status : PaymentStatus;
  result_code : string;
  result_description : json;
  created_at : Z;
  updated_at : Z
}.

Definition set_sale (v : option Z) (p : t) : t :=
  mk v (phone_number p) (amount p) (checkout_request_id p) (merchant_request_id p)
     (mpesa_receipt_number p) (transaction_date p) (status p) (result_code p)
     (result_description p) (created_at p) (updated_at p).
Definition set_amount (v : pyfloat) (p : t) : t :=
  mk (sale p) (phone_number p) v (checkout_request_id p) (merchant_request_id p)
     (mpesa_receipt_number p) (transaction_date p) (status p) (result_code p)
     (result_description p) (created_at p) (updated_at p).
Definition set_mpesa_receipt_number (v : string) (p : t) : t :=
  mk (sale p) (phone_number p) (amount p) (checkout_request_id p) (merchant_request_id p)
     v (transaction_date p) (status p) (result_code p)
     (result_description p) (created_at p) (updated_at p).
Definition set_transaction_date (v : option datetime) (p : t) : t :=
  mk (sale p) (phone_number p) (amount p) (checkout_request_id p) (merchant_request_id p)
     (mpesa_receipt_number p) v (status p) (result_code p)
     (result_description p) (created_at p) (updated_at p).
(** The three assignments both branches of the callback start with. *)
Definition set_result (s : PaymentStatus) (code : string) (desc : json) (p : t) : t :=
  mk (sale p) (phone_number p) (amount p) (checkout_request_id p) (merchant_request_id p)
     (mpesa_receipt_number p) (transaction_date p) s code desc
     (created_at p) (updated_at p).
(** [updated_at] is [auto_now]: every [save] stamps it. *)
Definition set_updated_at (v : Z) (p : t) : t :=
  mk (sale p) (phone_number p) (amount p) (checkout_request_id p) (merchant_request_id p)
     (mpesa_receipt_number p) (transaction_date p) (status p) (result_code p)
     (result_description p) (created_at p) v.

(** [is_successful]. *)
Definition is_successful (p : t) : bool :=
  match status p with successful => true | _ => false end.

(** The columns are declared without [null=True], [sale] and
    [transaction_date] apart: the database refuses a row with [None] in one
    of them.  Of those columns [checkout_request_id], [merchant_request_id]
    and [result_description] are the ones the views can hand a [None]. *)
Definition not_null (p : t) : bool :=
  not_none (checkout_request_id p) && not_none (merchant_request_id p)
  && not_none (result_description p).
End MPesaPayment.

Module Product.
(** Prices are [Decimal]s with two places, kept in hundredths. *)
Record t : Type := mk {
  name : string;
  price : Z;
  stock : Z;
  min_stock_level : Z
}.
Definition set_stock (v : Z) (p : t) : t := mk (name p) (price p) v (min_stock_level p).
End Product.

Module StockMovement.
Record t : Type := mk {
  product : Z;
  movement_type : string;
  quantity : Z;
  previous_quantity : Z;
  new_quantity : Z;
  reason : string;
  created_by : option Z
}.
End StockMovement.

Module Cart.
Record t : Type := mk { session_id : string; is_completed : bool }.
End Cart.

Module CartItem.
Record t : Type := mk { cart : Z; product : Z; quantity : Z; price : Z }.
Definition total (i : t) : Z := quantity i * price i.
End CartItem.

Module Sale.
Record t : Type := mk { cart : Z; total_amount : Z; payment_method : json }.

(** [payment_method] is declared without [null=True]. *)
Definition not_null (s : t) : bool := not_none (payment_method s).
End Sale.

(** ** The database and the outside world *)

Record DB : Type := mkDB {
  payments : gmap Z MPesaPayment.t;
  products : gmap Z Product.t;
  movements : gmap Z StockMovement.t;
  carts : gmap Z Cart.t;
  cart_items : gmap Z CartItem.t;
  sales : gmap Z Sale.t
}.

Definition set_payments (v : gmap Z MPesaPayment.t) (d : DB) : DB :=
  mkDB v (products d) (movements d) (carts d) (cart_items d) (sales d).
Definition set_products (v : gmap Z Product.t) (d : DB) : DB :=
  mkDB (payments d) v (movements d) (carts d) (cart_items d) (sales d).
Definition set_movements (v : gmap Z StockMovement.t) (d : DB) : DB :=
  mkDB (payments d) (products d) v (carts d) (cart_items d) (sales d).
Definition set_carts (v : gmap Z Cart.t) (d : DB) : DB :=
  mkDB (payments d) (products d) (movements d) v (cart_items d) (sales d).
Definition set_sales (v : gmap Z Sale.t) (d : DB) : DB :=
  mkDB (payments d) (products d) (movements d) (carts d) (cart_items d) v.

(** [settings.MPESA_CONFIG]. *)
Record MPesaConfig : Type := mkConfig {
  ENVIRONMENT : string;
  CONSUMER_KEY : string;
  CONSUMER_SECRET : string;
  SHORTCODE : string;
  PASSKEY : string;
  CALLBACK_URL : string
}.

(** The JSON body of the push request. *)
Record StkPayload : Type := mkPayload {
  BusinessShortCode : string;
  Password : string;
  Timestamp : string;
  TransactionType : string;
  Amount : Z;
  PartyA : string;
  PartyB : string;
  PhoneNumber : string;
  CallBackURL : string;
  AccountReference : json;
  TransactionDesc : string
}.

(** What [requests] hands back: an exception of the library (no connection,
    a timeout, an error status), a body that is not JSON, or decoded JSON. *)
Inductive http_reply : Type :=
| NetworkError
| BadBody
| Reply (data : json).

(** One outbound call, as it leaves the process. *)
Inductive net_event : Type :=
| OAuthRequest (url authorization : string)
| StkPushRequest (url authorization : string) (payload : StkPayload).

(** What the world answers during one request: the clock and the provider. *)
Record Env : Type := mkEnv {
  (** [timezone.now()], in seconds. *)
  now : Z;
  (** [datetime.now().strftime("%Y%m%d%H%M%S")]. *)
  now_compact : string;
  oauth_reply : http_reply;
  stk_reply : StkPayload -> http_reply;
  (** The key [request.session.create()] gives a request without session. *)
  new_session_key : string
}.

(** The attributes of an [MPesaService] object. *)
Record MPesaService : Type := mkService {
  config : MPesaConfig;
  environment : string;
  base_url : string;
  access_token : json;
  token_expiry : option Z
}.

Record World : Type := mkWorld {
  db : DB;
  net : list net_event;
  service : MPesaService
}.

(** ** The monad of the views *)

Definition M (A : Type) : Type := World -> exc A * World.

Definition ret {A : Type} (a : A) : M A := fun w => (inr a, w).
Definition raise {A : Type} (e : exn) : M A := fun w => (inl e, w).
Definition bind {A B : Type} (c : M A) (k : A -> M B) : M B :=
  fun w => match c w with
           | (inr a, w') => k a w'
           | (inl e, w') => (inl e, w')
           end.
(** [try: c  except Exception as e: h e]. *)
Definition try_catch {A : Type} (c : M A) (h : exn -> M A) : M A :=
  fun w => match c w with
           | (inr a, w') => (inr a, w')
           | (inl e, w') => h e w'
           end.
Definition lift {A : Type} (c : exc A) : M A := fun w => (c, w).

Declare Scope M_scope.
Delimit Scope M_scope with M.
Bind Scope M_scope with M.
Notation "'let*' x ':=' c 'in' k" := (bind c (fun x => k))
  (at level 10, x name, c at level 100, k at level 200) : M_scope.
Notation "c ';;' k" := (bind c (fun _ => k))
  (at level 100, k at level 200, right associativity) : M_scope.

Definition get_db : M DB := fun w => (inr (db w), w).
Definition put_db (d : DB) : M unit :=
  fun w => (inr tt, mkWorld d (net w) (service w)).
Definition get_service : M MPesaService := fun w => (inr (service w), w).
Definition put_service (s : MPesaService) : M unit :=
  fun w => (inr tt, mkWorld (db w) (net w) s).
(** An outbound call is appended to the log. *)
Definition emit (ev : net_event) : M unit :=
  fun w => (inr tt, mkWorld (db w) (net w ++ [ev]) (service w)).

(** ** The ORM *)

(** [Model.objects.filter(...)], with the keys. *)
Definition objects_filter {A : Type} (P : A -> bool) (table : gmap Z A) : list (Z * A) :=
  map_to_list (filter (fun kv => P kv.2 = true) table).

(** [Model.objects.get(...)]. *)
Definition objects_get {A : Type} (P : A -> bool) (table : gmap Z A) : exc (Z * A) :=
  match objects_filter P table with
  | [] => inl DoesNotExist
  | [r] => inr r
  | _ => inl MultipleObjectsReturned
  end.

(** The key of the next row: one past the largest in use, from 1. *)
Definition next_key {A : Type} (table : gmap Z A) : Z :=
  1 + foldr Z.max 0 (map fst (map_to_list table)).

(** [Model.objects.create(...)]: the row enters under the next key. *)
Definition objects_create {A : Type} (row : A) (table : gmap Z A) : Z * gmap Z A :=
  let k := next_key table in (k, <[k := row]> table).

Definition pyfloat_eqb (a b : pyfloat) : bool :=
  match a, b with
  | FFinite p, FFinite q => Qeq_bool p q
  | FInf x, FInf y => Bool.eqb x y
  | _, _ => false
  end.

(** Equality of a stored value and a lookup value. *)
Fixpoint json_eqb (a b : json) : bool :=
  match a, b with
  | JNull, JNull => true
  | JBool x, JBool y => Bool.eqb x y
  | JInt x, JInt y => x =? y
  | JFloat x, JFloat y => pyfloat_eqb x y
  | JStr x, JStr y => String.eqb x y
  | JList x, JList y =>
      (fix all2 (l1 l2 : list json) : bool :=
         match l1, l2 with
         | [], [] => true
         | u :: l1', v :: l2' => json_eqb u v && all2 l1' l2'
         | _, _ => false
         end) x y
  | JObj x, JObj y =>
      (fix all2 (l1 l2 : list (string * json)) : bool :=
         match l1, l2 with
         | [], [] => true
         | (j, u) :: l1', (k, v) :: l2' => String.eqb j k && json_eqb u v && all2 l1' l2'
         | _, _ => false
         end) x y
  | _, _ => false
  end.

(** ** The gateway client ([MPesaService]) *)

Section Service.
Context (R : Runtime) (env : Env).

Local Open Scope M_scope.

(** [MPesaService.__init__]. *)
Definition MPesaService_init (cfg : MPesaConfig) : MPesaService :=
  mkService cfg (ENVIRONMENT cfg)
    (if String.eqb (ENVIRONMENT cfg) "sandbox"
     then "https://sandbox.safaricom.co.ke"
     else "https://api.safaricom.co.ke")
    JNull None.

(** [_get_auth_string]. *)
Definition _get_auth_string (self : MPesaService) : string :=
  b64encode R (CONSUMER_KEY (config self) +:+ ":" +:+ CONSUMER_SECRET (config self)).

(** [get_access_token]: any failure of [requests] is raised again as a plain
    [Exception]; a reply without the key is a [KeyError]. *)
Definition get_access_token : M json :=
  let* self := get_service in
  emit (OAuthRequest
          (base_url self +:+ "/oauth/v1/generate?grant_type=client_credentials")
          ("Basic " +:+ _get_auth_string self)) ;;
  match oauth_reply env with
  | NetworkError | BadBody => raise (PlainException "Failed to connect to M-Pesa")
  | Reply data =>
      let* token := lift (py_getitem data "access_token") in
      put_service (mkService (config self) (environment self) (base_url self)
                             token (Some (now env + 3500))) ;;
      ret token
  end.

(** [_ensure_token]. *)
Definition _ensure_token : M json :=
  let* self := get_service in
  if negb (truthy (access_token self))
     || match token_expiry self with
        | None => true
        | Some expiry => expiry <=? now env
        end
  then get_access_token
  else ret (access_token self).

(** [_generate_password]. *)
Definition _generate_password (self : MPesaService) : string * string :=
  let timestamp := now_compact env in
  let data := SHORTCODE (config self) +:+ PASSKEY (config self) +:+ timestamp in
  (b64encode R data, timestamp).

(** The ['error'] entry of a failed result. *)
Inductive stk_error : Type :=
| ProviderDeclined (response_description response_code : json)
| ValidationError (e : exn)
| NetworkFailure (e : exn)
| UnexpectedError (e : exn).

(** The dictionary [initiate_stk_push] returns. *)
Inductive StkResult : Type :=
| StkSuccess (checkout_request_id merchant_request_id customer_message
              response_code response_description : json)
| StkFailure (error : stk_error).

(** "Validate amount": [int(float(amount))], at least 1. *)
Definition validate_amount (amount : json) : exc Z :=
  (let* f := py_float R amount in
   let* amount := int_of_float f in
   if amount <? 1
   then inl (ValueError (Some "Amount must be at least KES 1"%string))
   else inr amount)%exc.

(** The three handlers of [initiate_stk_push], in their order. *)
Definition failure_of (e : exn) : StkResult :=
  if is_ValueError e then StkFailure (ValidationError e)
  else if is_RequestException e then StkFailure (NetworkFailure e)
  else StkFailure (UnexpectedError e).

(** The body of the [try] of [initiate_stk_push]. *)
Definition stk_push_body (phone_number amount reference : json) (description : string)
  : M StkResult :=
  let* amount := lift (validate_amount amount) in
  let* formatted_phone := lift (format_phone_number (py_str R phone_number)) in
  let* token := _ensure_token in
  let* self := get_service in
  let '(password, timestamp) := _generate_password self in
  let* account_reference := lift (py_prefix 12 reference) in
  let payload :=
    mkPayload (SHORTCODE (config self)) password timestamp "CustomerPayBillOnline"
              amount formatted_phone (SHORTCODE (config self)) formatted_phone
              (CALLBACK_URL (config self)) account_reference (str_take 13 description) in
  emit (StkPushRequest (base_url self +:+ "/mpesa/stkpush/v1/processrequest")
                       ("Bearer " +:+ py_str R token) payload) ;;
  match stk_reply env payload with
  | NetworkError => raise RequestException
  | BadBody => raise RequestsJSONDecodeError
  | Reply data =>
      let* code := lift (py_get data "ResponseCode" JNull) in
      let* description := lift (py_get data "ResponseDescription" JNull) in
      if eq_str code "0" then
        let* checkout := lift (py_get data "CheckoutRequestID" JNull) in
        let* merchant := lift (py_get data "MerchantRequestID" JNull) in
        let* message := lift (py_get data "CustomerMessage" JNull) in
        ret (StkSuccess checkout merchant message code description)
      else ret (StkFailure (ProviderDeclined description code))
  end.

(** [initiate_stk_push]: the three handlers turn every exception into a
    failed result. *)
Definition initiate_stk_push (phone_number amount reference : json) (description : string)
  : M StkResult :=
  try_catch (stk_push_body phone_number amount reference description)
    (fun e => ret (failure_of e)).

End Service.

(** ** The views ([pos_app/views.py]) *)

(** [json.loads(request.body.decode('utf-8'))]: the bytes are not UTF-8, the
    text is not JSON, or the decoded value. *)
Inductive body_parse : Type :=
| BadUtf8
| BadJson
| Parsed (data : json).

Record HttpRequest : Type := mkRequest {
  method : string;
  body : body_parse;
  (** [request.session.session_key]. *)
  session_key : option string
}.

(** A [JsonResponse]: the HTTP status (200 unless [status=] is given) and the
    body. *)
Record JsonResponse (B : Type) : Type := mkResponse {
  status_code : Z;
  content : B
}.
Arguments mkResponse {B} _ _.
Arguments status_code {B} _.
Arguments content {B} _.

(** The acknowledgment [{"ResultCode": .., "ResultDesc": ..}]. *)
Record Ack : Type := mkAck {
  ResultCode : Z;
  ResultDesc : string
}.

Definition ack (code : Z) (desc : string) : JsonResponse Ack :=
  mkResponse 200 (mkAck code desc).

(** The ['message'] of the initiation endpoint. *)
Inductive init_message : Type :=
| MsgInvalidJSON
| MsgPhoneRequired
| MsgAmountRequired
| MsgAmountPositive
| MsgGateway (error : stk_error)
| MsgServerError (e : exn)
| MsgOnlyPost
| MsgInitiated.

(** The body of the initiation endpoint: [{'success': False, 'message': ..}]
    or the success body. *)
Inductive InitBody : Type :=
| InitFailure (message : init_message)
| InitSuccess (checkout_request_id customer_message : json) (payment_id : Z)
              (message : init_message).

Section Views.
Context (R : Runtime) (env : Env) (settings_MPESA_CONFIG : MPesaConfig).

Local Open Scope M_scope.

Definition has_checkout_request_id (cid : json) (p : MPesaPayment.t) : bool :=
  json_eqb (MPesaPayment.checkout_request_id p) cid.

(** [payment.save()]: the row under the object's key is overwritten and
    [updated_at] is stamped.  An object with [None] in a column that is not
    nullable is refused with an [IntegrityError], and nothing is written. *)
Definition save_payment (k : Z) (p : MPesaPayment.t) : M unit :=
  if MPesaPayment.not_null p then
    let* d := get_db in
    put_db (set_payments (<[k := MPesaPayment.set_updated_at (now env) p]> (payments d)) d)
  else raise IntegrityError.

(** [MPesaPayment.objects.create(...)] of the initiation view: the columns
    not given take their defaults.  [None] in a column that is not nullable
    and a [checkout_request_id] that a stored row has (the column is unique)
    are refused with an [IntegrityError]. *)
Definition create_payment (phone_number : string) (amount : pyfloat)
    (checkout_request_id merchant_request_id : json) : M (Z * MPesaPayment.t) :=
  let* d := get_db in
  let row := MPesaPayment.mk None phone_number amount checkout_request_id
               merchant_request_id "" None pending "" (JStr "")
               (now env) (now env) in
  if MPesaPayment.not_null row then
    match objects_filter (has_checkout_request_id checkout_request_id) (payments d) with
    | _ :: _ => raise IntegrityError
    | [] =>
        let '(k, table) := objects_create row (payments d) in
        put_db (set_payments table d) ;;
        ret (k, row)
    end
  else raise IntegrityError.

(** The best-effort link of the new payment to the sale of the cart. *)
Definition link_sale (cart_id : json) (k : Z) (payment : MPesaPayment.t) : M unit :=
  if truthy cart_id then
    let* key := lift (pk_of_json R cart_id) in
    let* d := get_db in
    match carts d !! key with
    | None => ret tt
    | Some _ =>
        match objects_get (fun s => Sale.cart s =? key) (sales d) with
        | inr (sale_id, _) => save_payment k (MPesaPayment.set_sale (Some sale_id) payment)
        | inl DoesNotExist => ret tt
        | inl e => raise e
        end
    end
  else ret tt.

(** "Extract and validate data": [phone_number], [amount], [cart_id] and
    [reference] of the request. *)
Definition initiate_fields (data : json) : exc (string * json * json * json) :=
  (let* raw_phone := py_get data "phone_number" (JStr "") in
   let* phone_number := py_strip raw_phone in
   let* amount := py_get data "amount" JNull in
   let* cart_id := py_get data "cart_id" JNull in
   let* reference := py_get data "reference" (JStr "POS Payment") in
   inr (phone_number, amount, cart_id, reference))%exc.

(** The body of the outer [try] of [initiate_mpesa_payment]. *)
Definition initiate_body (request : HttpRequest) : M (JsonResponse InitBody) :=
  match body request with
  | BadJson => ret (mkResponse 400 (InitFailure MsgInvalidJSON))
  | BadUtf8 => raise UnicodeDecodeError
  | Parsed data =>
      let* fields := lift (initiate_fields data) in
      let '(phone_number, amount, cart_id, reference) := fields in
      if String.eqb phone_number "" then
        ret (mkResponse 400 (InitFailure MsgPhoneRequired))
      else if negb (truthy amount) then
        ret (mkResponse 400 (InitFailure MsgAmountRequired))
      else
        match py_float R amount with
        | inl e =>
            if is_ValueError e || match e with TypeError => true | _ => false end
            then ret (mkResponse 400 (InitFailure MsgAmountPositive))
            else raise e
        | inr amount =>
            if float_le_zero amount then
              ret (mkResponse 400 (InitFailure MsgAmountPositive))
            else
              put_service (MPesaService_init settings_MPESA_CONFIG) ;;
              let reference :=
                if truthy cart_id
                then JStr ("POS" +:+ zfill 6 (py_str R cart_id))
                else reference in
              let* result :=
                initiate_stk_push R env (JStr phone_number) (JFloat amount) reference
                                  "Payment for goods/services" in
              match result with
              | StkSuccess checkout merchant customer_message _ _ =>
                  let* created := create_payment phone_number amount checkout merchant in
                  link_sale cart_id (fst created) (snd created) ;;
                  ret (mkResponse 200
                         (InitSuccess checkout customer_message (fst created) MsgInitiated))
              | StkFailure error =>
                  ret (mkResponse 400 (InitFailure (MsgGateway error)))
              end
        end
  end.

(** [initiate_mpesa_payment]. *)
Definition initiate_mpesa_payment (request : HttpRequest) : M (JsonResponse InitBody) :=
  if String.eqb (method request) "POST" then
    try_catch (initiate_body request)
      (fun e => ret (mkResponse 500 (InitFailure (MsgServerError e))))
  else ret (mkResponse 405 (InitFailure MsgOnlyPost)).

(** One turn of the loop over the callback metadata. *)
Definition apply_item (payment : MPesaPayment.t) (item : json) : exc MPesaPayment.t :=
  (let* name := py_get item "Name" JNull in
   let* value := py_get item "Value" JNull in
   if eq_str name "MpesaReceiptNumber" then
     inr (MPesaPayment.set_mpesa_receipt_number (py_str R value) payment)
   else if eq_str name "Amount" then
     let* amount := py_float R value in
     inr (MPesaPayment.set_amount amount payment)
   else if eq_str name "TransactionDate" then
     match strptime_compact R (py_str R value) with
     | Some trans_date => inr (MPesaPayment.set_transaction_date (Some trans_date) payment)
     | None => inr payment
     end
   else inr payment)%exc.

(** [for item in callback_metadata: ...]. *)
Fixpoint apply_items (payment : MPesaPayment.t) (items : list json) : exc MPesaPayment.t :=
  match items with
  | [] => inr payment
  | item :: rest =>
      match apply_item payment item with
      | inr payment' => apply_items payment' rest
      | inl e => inl e
      end
  end.

(** "Extract callback details": the [stkCallback] object, its
    [CheckoutRequestID], [ResultCode] and [ResultDesc]. *)
Definition callback_details (callback_data : json) : exc (json * json * json * json) :=
  (let* outer := py_get callback_data "Body" (JObj []) in
   let* stk_callback := py_get outer "stkCallback" (JObj []) in
   let* checkout_request_id := py_get stk_callback "CheckoutRequestID" JNull in
   let* result_code := py_get stk_callback "ResultCode" JNull in
   let* result_desc := py_get stk_callback "ResultDesc" JNull in
   inr (stk_callback, checkout_request_id, result_code, result_desc))%exc.

(** [stk_callback.get('CallbackMetadata', {}).get('Item', [])], as the loop
    draws from it. *)
Definition callback_metadata (stk_callback : json) : exc (list json) :=
  (let* metadata := py_get stk_callback "CallbackMetadata" (JObj []) in
   let* items := py_get metadata "Item" (JList []) in
   py_iter items)%exc.

(** The object as the two branches leave it, before [save]. *)
Definition apply_callback (stk_callback result_code result_desc : json)
    (payment : MPesaPayment.t) : exc MPesaPayment.t :=
  (if eq_zero result_code then
     let payment := MPesaPayment.set_result successful (py_str R result_code)
                      result_desc payment in
     let* items := callback_metadata stk_callback in
     apply_items payment items
   else
     inr (MPesaPayment.set_result failed (py_str R result_code) result_desc payment))%exc.

(** The body of the [try] of [mpesa_callback]. *)
Definition callback_body (request : HttpRequest) : M (JsonResponse Ack) :=
  match body request with
  | BadUtf8 => raise UnicodeDecodeError
  | BadJson => raise JSONDecodeError
  | Parsed callback_data =>
      let* details := lift (callback_details callback_data) in
      let '(stk_callback, checkout_request_id, result_code, result_desc) := details in
      if negb (truthy checkout_request_id) then
        ret (ack 1 "Missing CheckoutRequestID")
      else
        let* d := get_db in
        match objects_get (has_checkout_request_id checkout_request_id) (payments d) with
        | inl DoesNotExist => ret (ack 1 "Payment not found")
        | inl e => raise e
        | inr (k, payment) =>
            let* payment := lift (apply_callback stk_callback result_code result_desc
                                                 payment) in
            save_payment k payment ;;
            ret (ack 0 "Success")
        end
  end.

(** The two handlers of [mpesa_callback]. *)
Definition error_ack (e : exn) : JsonResponse Ack :=
  if is_JSONDecodeError e then ack 1 "Invalid JSON" else ack 1 "Processing error".

(** [mpesa_callback]. *)
Definition mpesa_callback (request : HttpRequest) : M (JsonResponse Ack) :=
  if String.eqb (method request) "POST" then
    try_catch (callback_body request) (fun e => ret (error_ack e))
  else ret (ack 1 "Invalid request method").

End Views.

(** ** Stock ([Product] in [pos_app/models.py]) and checkout *)

Section Stock.
Context (env : Env).

Local Open Scope M_scope.

Definition save_product (k : Z) (p : Product.t) : M unit :=
  let* d := get_db in
  put_db (set_products (<[k := p]> (products d)) d).

Definition create_movement (m : StockMovement.t) : M unit :=
  let* d := get_db in
  put_db (set_movements (snd (objects_create m (movements d))) d).

(** [Product.add_stock]; [self] is the object stored under [k].  The result
    is [self.stock] and the object as the method leaves it. *)
Definition add_stock (k : Z) (self : Product.t) (quantity : Z) (reason : string)
    (user : option Z) : M (Z * Product.t) :=
  let old_stock := Product.stock self in
  let self := Product.set_stock (Product.stock self + quantity) self in
  save_product k self ;;
  create_movement (StockMovement.mk k "in" quantity old_stock (Product.stock self)
                                    reason user) ;;
  ret (Product.stock self, self).

(** [Product.remove_stock]. *)
Definition remove_stock (k : Z) (self : Product.t) (quantity : Z) (reason : string)
    (user : option Z) : M (Z * Product.t) :=
  if Product.stock self <? quantity then
    raise (ValueError (Some ("Cannot remove " +:+ pretty quantity +:+ " items. Only "
                             +:+ pretty (Product.stock self) +:+ " available.")))
  else
    let old_stock := Product.stock self in
    let self := Product.set_stock (Product.stock self - quantity) self in
    save_product k self ;;
    create_movement (StockMovement.mk k "out" quantity old_stock (Product.stock self)
                                      reason user) ;;
    ret (Product.stock self, self).

(** [Product.set_stock]; the difference is printed with its sign. *)
Definition set_stock (k : Z) (self : Product.t) (new_quantity : Z) (reason : string)
    (user : option Z) : M (Z * Product.t) :=
  let old_stock := Product.stock self in
  let difference := new_quantity - old_stock in
  let self := Product.set_stock new_quantity self in
  save_product k self ;;
  create_movement
    (StockMovement.mk k "adjustment" (Z.abs difference) old_stock (Product.stock self)
       (reason +:+ " (Adjustment: " +:+ (if 0 <=? difference then "+" else "")
               +:+ pretty difference +:+ ")") user) ;;
  ret (Product.stock self, self).

(** [get_cart]: the open cart of the session, created when there is none. *)
Definition get_cart (request : HttpRequest) : M (Z * Cart.t) :=
  let session_id :=
    match session_key request with
    | Some key => if String.eqb key "" then new_session_key env else key
    | None => new_session_key env
    end in
  let* d := get_db in
  match objects_get (fun c => String.eqb (Cart.session_id c) session_id
                              && negb (Cart.is_completed c)) (carts d) with
  | inr found => ret found
  | inl DoesNotExist =>
      let cart := Cart.mk session_id false in
      let '(k, table) := objects_create cart (carts d) in
      put_db (set_carts table d) ;;
      ret (k, cart)
  | inl e => raise e
  end.

(** [cart.items.all()]. *)
Definition cart_items_of (cart_id : Z) (d : DB) : list (Z * CartItem.t) :=
  objects_filter (fun i => CartItem.cart i =? cart_id) (cart_items d).

(** [sum(item.total() for item in cart.items.all())]. *)
Definition cart_total (items : list (Z * CartItem.t)) : Z :=
  foldr (fun i acc => CartItem.total (snd i) + acc) 0 items.

(** [Sale.objects.create(...)]: [payment_method] is not nullable and [cart]
    is a one-to-one field; a [None] for the one and a second sale for the
    other are refused with an [IntegrityError]. *)
Definition create_sale (cart_id total : Z) (payment_method : json) : M Z :=
  let* d := get_db in
  let row := Sale.mk cart_id total payment_method in
  if Sale.not_null row then
    match objects_filter (fun s => Sale.cart s =? cart_id) (sales d) with
    | _ :: _ => raise IntegrityError
    | [] =>
        let '(k, table) := objects_create row (sales d) in
        put_db (set_sales table d) ;;
        ret k
    end
  else raise IntegrityError.

(** The stock loop of [checkout]:
    [product = item.product; product.stock -= item.quantity; product.save()]. *)
Fixpoint update_stock (items : list (Z * CartItem.t)) : M unit :=
  match items with
  | [] => ret tt
  | (_, item) :: rest =>
      let* d := get_db in
      match products d !! CartItem.product item with
      | None => raise DoesNotExist
      | Some product =>
          save_product (CartItem.product item)
            (Product.set_stock (Product.stock product - CartItem.quantity item) product) ;;
          update_stock rest
      end
  end.

(** The body of the checkout endpoint: [{'success': False}] or the sale. *)
Inductive CheckoutBody : Type :=
| CheckoutRefused
| CheckoutDone (sale_id total : Z).

(** [checkout]; nothing is caught, an exception leaves the view. *)
Definition checkout (request : HttpRequest) : M (JsonResponse CheckoutBody) :=
  if String.eqb (method request) "POST" then
    let* data :=
      match body request with
      | BadUtf8 => raise UnicodeDecodeError
      | BadJson => raise JSONDecodeError
      | Parsed data => ret data
      end in
    let* payment_method := lift (py_get data "payment_method" (JStr "cash")) in
    let* cart := get_cart request in
    let* d := get_db in
    let total := cart_total (cart_items_of (fst cart) d) in
    let* sale_id := create_sale (fst cart) total payment_method in
    let* d := get_db in
    update_stock (cart_items_of (fst cart) d) ;;
    let* d := get_db in
    put_db (set_carts (<[fst cart := Cart.mk (Cart.session_id (snd cart)) true]> (carts d)) d) ;;
    ret (mkResponse 200 (CheckoutDone sale_id total))
  else ret (mkResponse 200 CheckoutRefused).

End Stock.

(** ** What a metadata list amounts to

    The loop of the callback keeps, for each of the three names, the value of
    the last item that sets it. *)

Section Metadata.
Context (R : Runtime).

(** The name and the value of an item that is an object. *)
Definition item_fields (item : json) : option (json * json) :=
  match item with
  | JObj kv =>
      Some (match assoc "Name" kv with Some v => v | None => JNull end,
            match assoc "Value" kv with Some v => v | None => JNull end)
  | _ => None
  end.

Definition receipt_of (item : json) : option string :=
  match item_fields item with
  | Some (name, value) =>
      if eq_str name "MpesaReceiptNumber" then Some (py_str R value) else None
  | None => None
  end.

Definition amount_of (item : json) : option pyfloat :=
  match item_fields item with
  | Some (name, value) =>
      if eq_str name "Amount"
      then match py_float R value with inr f => Some f | inl _ => None end
      else None
  | None => None
  end.

Definition date_of (item : json) : option datetime :=
  match item_fields item with
  | Some (name, value) =>
      if eq_str name "TransactionDate" then strptime_compact R (py_str R value) else None
  | None => None
  end.

(** An item the loop gets past: an object, its [Amount] a number. *)
Definition item_ok (item : json) : bool :=
  match item_fields item with
  | Some (name, value) =>
      if eq_str name "Amount"
      then match py_float R value with inr _ => true | inl _ => false end
      else true
  | None => false
  end.


(** The last item of the list on which [f] is defined. *)
Fixpoint last_value {A : Type} (f : json -> option A) (items : list json) : option A :=
  match items with
  | [] => None
  | item :: rest =>
      match last_value f rest with
      | Some a => Some a
      | None => f item
      end
  end.

(** The row with the fields the metadata sets, the others as they were. *)
Definition with_metadata (receipt : option string) (amount : option pyfloat)
    (date : option datetime) (p : MPesaPayment.t) : MPesaPayment.t :=
  MPesaPayment.mk (MPesaPayment.sale p) (MPesaPayment.phone_number p)
    (default (MPesaPayment.amount p) amount)
    (MPesaPayment.checkout_request_id p) (MPesaPayment.merchant_request_id p)
    (default (MPesaPayment.mpesa_receipt_number p) receipt)
    (match date with Some d => Some d | None => MPesaPayment.transaction_date p end)
    (MPesaPayment.status p) (MPesaPayment.result_code p)
    (MPesaPayment.result_description p) (MPesaPayment.created_at p)
    (MPesaPayment.updated_at p).

End Metadata.

(** The world after [save] of [p] under [k]. *)
Definition saved (env : Env) (k : Z) (p : MPesaPayment.t) (w : World) : World :=
  mkWorld (set_payments (<[k := MPesaPayment.set_updated_at (now env) p]> (payments (db w)))
                        (db w))
          (net w) (service w).

(** What [mpesa_callback] comes to on a POST whose body is JSON: the
    acknowledgment and the world after. *)
Definition callback_outcome (R : Runtime) (env : Env) (data : json) (w : World)
  : exc (JsonResponse Ack) * World :=
  match callback_details data with
  | inl e => (inr (error_ack e), w)
  | inr (stk, cid, rc, desc) =>
      if truthy cid then
        match objects_get (has_checkout_request_id cid) (payments (db w)) with
        | inl DoesNotExist => (inr (ack 1 "Payment not found"), w)
        | inl e => (inr (error_ack e), w)
        | inr (k, p) =>
            match apply_callback R stk rc desc p with
            | inl e => (inr (error_ack e), w)
            | inr p' =>
                if MPesaPayment.not_null p'
                then (inr (ack 0 "Success"), saved env k p' w)
                else (inr (error_ack IntegrityError), w)
            end
        end
      else (inr (ack 1 "Missing CheckoutRequestID"), w)
  end.

(** The validation of the amount, in the view and in the client: a true
    value, a number, above zero, at least 1 once truncated. *)
Definition amount_valid (R : Runtime) (amount : json) : bool :=
  truthy amount &&
  match py_float R amount with
  | inr f =>
      negb (float_le_zero f) &&
      match validate_amount R (JFloat f) with
      | inr _ => true
      | inl _ => false
      end
  | inl _ => false
  end.

(** The validation of the phone: not empty, and of a shape the client
    formats. *)
Definition phone_valid (phone : string) : bool :=
  negb (String.eqb phone "") &&
  match format_phone_number phone with
  | inr _ => true
  | inl _ => false
  end.

(** The provider accepted the push: its [ResponseCode] is the string 0. *)
Definition accepted (r : http_reply) : bool :=
  match r with
  | Reply data =>
      match py_get data "ResponseCode" JNull with
      | inr code => eq_str code "0"
      | inl _ => false
      end
  | _ => false
  end.

(** The pushes among the calls of a log. *)
Definition pushes (events : list net_event) : list StkPayload :=
  omap (fun ev => match ev with
                  | StkPushRequest _ _ payload => Some payload
                  | _ => None
                  end) events.

(** The payload of a push carries the validated amount, the formatted
    phone, the reference cut to 12 and the description cut to 13. *)
Definition payload_of (R : Runtime) (phone_number amount reference : json)
    (description : string) (payload : StkPayload) : Prop :=
  validate_amount R amount = inr (Amount payload) /\
  format_phone_number (py_str R phone_number) = inr (PartyA payload) /\
  PhoneNumber payload = PartyA payload /\
  py_prefix 12 reference = inr (AccountReference payload) /\
  TransactionDesc payload = str_take 13 description.

(** What a request to [initiate_mpesa_payment] comes to: refused before any
    call; or valid and sent on, with no accepted push, with an accepted push
    and no row, or with an accepted push and the row. *)
Definition initiate_outcome (R : Runtime) (env : Env) (req : HttpRequest) (w : World)
    (resp : JsonResponse InitBody) (evs : list net_event) (w' : World) : Prop :=
  (evs = [] /\ db w' = db w /\
   exists st m, resp = mkResponse st (InitFailure m) /\
     (forall data fields,
        String.eqb (method req) "POST" = true -> body req = Parsed data ->
        initiate_fields data = inr fields -> st = 400))
  \/
  exists data phone amount cart_id reference,
    body req = Parsed data /\
    initiate_fields data = inr (phone, amount, cart_id, reference) /\
    amount_valid R amount = true /\ phone_valid phone = true /\
    ((db w' = db w /\ (exists m, resp = mkResponse 400 (InitFailure m)) /\
      forall payload, In payload (pushes evs) -> accepted (stk_reply env payload) = false)
     \/
     exists payload,
       pushes evs = [payload] /\ accepted (stk_reply env payload) = true /\
       format_phone_number phone = inr (PartyA payload) /\
       PhoneNumber payload = PartyA payload /\
       ((db w' = db w /\ exists m, resp = mkResponse 500 (InitFailure m))
        \/
        exists k row,
          payments (db w) !! k = None /\
          db w' = set_payments (<[k := row]> (payments (db w))) (db w) /\
          MPesaPayment.status row = pending /\
          MPesaPayment.phone_number row = phone /\
          ((exists m, resp = mkResponse 500 (InitFailure m)) \/
           exists checkout message,
             resp = mkResponse 200 (InitSuccess checkout message k MsgInitiated)))).

(** ** A reference runtime and a sample world, for closed evaluations

    The reference runtime implements the library functions on the arguments
    the examples use: digit strings for [float] and for keys, whole numbers
    for [str] of a float, fourteen-digit stamps for [strptime], and base64 in
    full.  Elsewhere it answers with a failure or a placeholder. *)
Module Reference.

Fixpoint digits_value (acc : Z) (l : list ascii) : option Z :=
  match l with
  | [] => Some acc
  | c :: rest =>
      if isdigit c
      then digits_value (10 * acc + (Z.of_nat (nat_of_ascii c) - 48)) rest
      else None
  end.

(** The number a non-empty string of digits denotes. *)
Definition number (s : string) : option Z :=
  match chars s with
  | [] => None
  | l => digits_value 0 l
  end.

Definition float_of_str (s : string) : option pyfloat :=
  match number s with
  | Some n => Some (FFinite (inject_Z n))
  | None => None
  end.

Definition str_of_float (f : pyfloat) : string :=
  match f with
  | FFinite q =>
      if Z.eqb (Z.rem (Qnum q) (Zpos (Qden q))) 0
      then pretty (Z.quot (Qnum q) (Zpos (Qden q))) +:+ ".0"
      else "<float>"
  | FInf negative => if negative then "-inf" else "inf"
  | FNan => "nan"
  end.

Definition str_of_container (v : json) : string :=
  match v with
  | JList [] => "[]"
  | JObj [] => "{}"
  | _ => "<container>"
  end.

Definition days_in_month (year month : Z) : Z :=
  if (month =? 2) then
    if ((year mod 4 =? 0) && negb (year mod 100 =? 0)) || (year mod 400 =? 0)
    then 29 else 28
  else if (month =? 4) || (month =? 6) || (month =? 9) || (month =? 11) then 30
  else 31.

Definition field (from : nat) (len : nat) (s : string) : Z :=
  match number (substring from len s) with
  | Some n => n
  | None => 0
  end.

Definition strptime_compact (s : string) : option datetime :=
  if (String.length s =? 14)%nat && forallb isdigit (chars s) then
    let d := mkDatetime (field 0 4 s) (field 4 2 s) (field 6 2 s)
                        (field 8 2 s) (field 10 2 s) (field 12 2 s) in
    if (1 <=? dt_year d) && (1 <=? dt_month d) && (dt_month d <=? 12)
       && (1 <=? dt_day d) && (dt_day d <=? days_in_month (dt_year d) (dt_month d))
       && (dt_hour d <=? 23) && (dt_minute d <=? 59) && (dt_second d <=? 59)
    then Some d else None
  else None.

Definition b64_alphabet : list ascii :=
  chars "ABCDEFGHIJKLMNOPQRSTUVWXYZabcdefghijklmnopqrstuvwxyz0123456789+/".

Definition b64_char (n : Z) : ascii := nth (Z.to_nat n) b64_alphabet "="%char.

Fixpoint b64_groups (l : list Z) : list ascii :=
  match l with
  | [] => []
  | [a] =>
      let n := a * 65536 in
      [b64_char (n / 262144); b64_char ((n / 4096) mod 64); "="%char; "="%char]
  | [a; b] =>
      let n := a * 65536 + b * 256 in
      [b64_char (n / 262144); b64_char ((n / 4096) mod 64);
       b64_char ((n / 64) mod 64); "="%char]
  | a :: b :: c :: rest =>
      let n := a * 65536 + b * 256 + c in
      b64_char (n / 262144) :: b64_char ((n / 4096) mod 64)
        :: b64_char ((n / 64) mod 64) :: b64_char (n mod 64) :: b64_groups rest
  end.

Definition b64encode (s : string) : string :=
  of_chars (b64_groups (map (fun c => Z.of_nat (nat_of_ascii c)) (chars s))).

Definition pk_of_json (v : json) : exc Z :=
  match v with
  | JInt z => inr z
  | JBool b => inr (if b then 1 else 0)
  | JFloat f => int_of_float f
  | JStr s => match number s with
              | Some n => inr n
              | None => inl (ValueError None)
              end
  | _ => inl TypeError
  end.

Definition runtime : Runtime :=
  mkRuntime float_of_str str_of_float str_of_container strptime_compact
            b64encode pk_of_json.

Definition cfg : MPesaConfig :=
  mkConfig "sandbox" "key" "secret" "174379" "passkey" "https://pos.example/callback".

(** The provider's reply to a push. *)
Definition push_reply (code checkout description : string) : http_reply :=
  Reply (JObj [("MerchantRequestID", JStr "29115-34620561-1");
               ("CheckoutRequestID", JStr checkout);
               ("ResponseCode", JStr code);
               ("ResponseDescription", JStr description);
               ("CustomerMessage", JStr description)]).

(** The provider grants a token and accepts every push as [ws_1]. *)
Definition env_at (time : Z) : Env :=
  mkEnv time "20240115123000"
        (Reply (JObj [("access_token", JStr "token"); ("expires_in", JStr "3599")]))
        (fun _ => push_reply "0" "ws_1" "Success. Request accepted for processing")
        "session".

Definition env : Env := env_at 1000.

(** The provider grants a token and declines every push. *)
Definition env_declining : Env :=
  mkEnv 1000 "20240115123000"
        (Reply (JObj [("access_token", JStr "token"); ("expires_in", JStr "3599")]))
        (fun _ => push_reply "1" "ws_1" "Unable to lock subscriber") "session".

Definition empty_db : DB := mkDB ∅ ∅ ∅ ∅ ∅ ∅.

Definition world (d : DB) : World := mkWorld d [] (MPesaService_init cfg).

Definition post (data : json) : HttpRequest := mkRequest "POST" (Parsed data) None.

(** The [stkCallback] object of the provider's callback for [checkout]
    with the given result. *)
Definition stk_callback (checkout : string) (result_code : json) (items : list json)
  : json :=
  JObj [("MerchantRequestID", JStr "29115-34620561-1");
        ("CheckoutRequestID", JStr checkout);
        ("ResultCode", result_code);
        ("ResultDesc", JStr "The service request is processed.");
        ("CallbackMetadata", JObj [("Item", JList items)])].

(** The provider's callback for [checkout] with the given result. *)
Definition callback (checkout : string) (result_code : json) (items : list json) : json :=
  JObj [("Body", JObj [("stkCallback", stk_callback checkout result_code items)])].

(** A callback that carries no [ResultDesc]. *)
Definition callback_without_description (checkout : string) (result_code : json) : json :=
  JObj [("Body", JObj [("stkCallback", JObj [
          ("MerchantRequestID", JStr "29115-34620561-1");
          ("CheckoutRequestID", JStr checkout);
          ("ResultCode", result_code)])])].

Definition item (name : string) (value : json) : json :=
  JObj [("Name", JStr name); ("Value", value)].

(** A row as the initiation view creates it. *)
Definition pending_row (phone checkout : string) (amount : Z) : MPesaPayment.t :=
  MPesaPayment.mk None phone (FFinite (inject_Z amount)) (JStr checkout)
    (JStr "29115-34620561-1") "" None pending "" (JStr "") 1000 1000.

(** The request of the end-to-end scenario: 0712345678 pays 500. *)
Definition initiation : json :=
  JObj [("phone_number", JStr "0712345678"); ("amount", JInt 500)].

(** The world after that initiation, on an empty database. *)
Definition w_initiated : World :=
  snd (initiate_mpesa_payment runtime env cfg (post initiation) (world empty_db)).

(** The world after the callback of a cancellation (code 1032) for it. *)
Definition w_cancelled : World :=
  snd (mpesa_callback runtime (env_at 1500) (post (callback "ws_1" (JInt 1032) []))
                      w_initiated).

(** The metadata of a success callback. *)
Definition success_items : list json :=
  [item "MpesaReceiptNumber" (JStr "ABC123"); item "Amount" (JInt 500);
   item "TransactionDate" (JInt 20240115123045)].

(** Metadata without a receipt, with a date that is no date. *)
Definition partial_items : list json :=
  [item "Amount" (JInt 450); item "TransactionDate" (JStr "yesterday");
   item "PhoneNumber" (JInt 254712345678)].

(** A shop: one product with 5 in stock, and the open cart of session
    [abc] holding two of it. *)
Definition shop_db : DB :=
  mkDB ∅ {[1 := Product.mk "Soap" 1000 5 10]} ∅ {[1 := Cart.mk "abc" false]}
       {[1 := CartItem.mk 1 1 2 1000]} ∅.

Definition checkout_request : HttpRequest :=
  mkRequest "POST" (Parsed (JObj [])) (Some "abc").

End Reference.

(** ** The cart views and the status endpoint ([pos_app/views.py]) *)

Definition set_cart_items (v : gmap Z CartItem.t) (d : DB) : DB :=
  mkDB (payments d) (products d) (movements d) (carts d) v (sales d).

(** The body of the status endpoint: not found, or the snapshot of the row
    ([created_at] as the clock value it holds). *)
Inductive StatusBody : Type :=
| StatusNotFound
| StatusFound (status : PaymentStatus) (receipt_number : string) (amount : pyfloat)
              (phone_number : string) (created_at : Z) (is_successful : bool).

(** The body of [add_to_cart]: added, invalid request, or the page of the
    [Http404] that [get_object_or_404] raises. *)
Inductive AddBody : Type :=
| AddDone
| AddInvalid
| AddNotFound.

(** One entry of [get_cart_items]: id, product name, price, quantity and
    total; amounts in hundredths, as the rows hold them. *)
Record CartLine : Type := mkLine {
  line_id : Z;
  line_product : string;
  line_price : Z;
  line_quantity : Z;
  line_total : Z
}.

(** The lookup of [get_cart]: the open cart of a session. *)
Definition open_cart (session_id : string) (c : Cart.t) : bool :=
  String.eqb (Cart.session_id c) session_id && negb (Cart.is_completed c).

(** The lookup of [add_to_cart]: the line of a product in a cart. *)
Definition line_of (cart_id product_id : Z) (i : CartItem.t) : bool :=
  (CartItem.cart i =? cart_id) && (CartItem.product i =? product_id).

Section CartViews.
Context (R : Runtime) (env : Env).
(** [int(s)] on a [str]; [None] stands for the [ValueError]. *)
Context (int_of_str : string -> option Z).

Local Open Scope M_scope.

(** [check_payment_status]: any method; [DoesNotExist] is the only exception
    caught. *)
Definition check_payment_status (checkout_request_id : string)
  : M (JsonResponse StatusBody) :=
  let* d := get_db in
  match objects_get (has_checkout_request_id (JStr checkout_request_id)) (payments d) with
  | inr (_, payment) =>
      ret (mkResponse 200
             (StatusFound (MPesaPayment.status payment)
                          (MPesaPayment.mpesa_receipt_number payment)
                          (MPesaPayment.amount payment)
                          (MPesaPayment.phone_number payment)
                          (MPesaPayment.created_at payment)
                          (MPesaPayment.is_successful payment)))
  | inl DoesNotExist => ret (mkResponse 404 StatusNotFound)
  | inl e => raise e
  end.

(** [int(x)]. *)
Definition py_int (v : json) : exc Z :=
  match v with
  | JInt z => inr z
  | JBool b => inr (if b then 1 else 0)
  | JFloat f => int_of_float f
  | JStr s => match int_of_str s with
              | Some n => inr n
              | None => inl (ValueError None)
              end
  | JNull | JList _ | JObj _ => inl TypeError
  end.

(** [CartItem.objects.get_or_create(cart=.., product=.., defaults=..)] and
    the update of a line that was there. *)
Definition add_line (cart_id product_id quantity price : Z) : M unit :=
  let* d := get_db in
  match objects_get (line_of cart_id product_id) (cart_items d) with
  | inr (k, cart_item) =>
      put_db (set_cart_items
                (<[k := CartItem.mk (CartItem.cart cart_item) (CartItem.product cart_item)
                                    (CartItem.quantity cart_item + quantity)
                                    (CartItem.price cart_item)]> (cart_items d)) d)
  | inl DoesNotExist =>
      put_db (set_cart_items
                (snd (objects_create (CartItem.mk cart_id product_id quantity price)
                                     (cart_items d))) d)
  | inl e => raise e
  end.

(** [get_object_or_404(Product, id=product_id)]: [None] stands for the
    [Http404]; a lookup with [id=None] matches no row. *)
Definition get_product_or_404 (product_id : json) : M (option (Z * Product.t)) :=
  match product_id with
  | JNull => ret None
  | _ =>
      let* key := lift (pk_of_json R product_id) in
      let* d := get_db in
      ret (match products d !! key with
           | Some product => Some (key, product)
           | None => None
           end)
  end.

(** [add_to_cart]; nothing is caught. *)
Definition add_to_cart (request : HttpRequest) : M (JsonResponse AddBody) :=
  if String.eqb (method request) "POST" then
    let* data :=
      match body request with
      | BadUtf8 => raise UnicodeDecodeError
      | BadJson => raise JSONDecodeError
      | Parsed data => ret data
      end in
    let* product_id := lift (py_get data "product_id" JNull) in
    let* raw_quantity := lift (py_get data "quantity" (JInt 1)) in
    let* quantity := lift (py_int raw_quantity) in
    let* found := get_product_or_404 product_id in
    match found with
    | None => ret (mkResponse 404 AddNotFound)
    | Some (key, product) =>
        let* cart := get_cart env request in
        add_line (fst cart) key quantity (Product.price product) ;;
        ret (mkResponse 200 AddDone)
    end
  else ret (mkResponse 200 AddInvalid).

(** The loop of [get_cart_items]; [item.product.name] reads the product. *)
Fixpoint cart_lines (d : DB) (items : list (Z * CartItem.t)) : exc (list CartLine) :=
  match items with
  | [] => inr []
  | (k, item) :: rest =>
      match products d !! CartItem.product item with
      | None => inl DoesNotExist
      | Some product =>
          match cart_lines d rest with
          | inr lines =>
              inr (mkLine k (Product.name product) (CartItem.price item)
                          (CartItem.quantity item) (CartItem.total item) :: lines)
          | inl e => inl e
          end
      end
  end.

(** [get_cart_items]: the lines and their total. *)
Definition get_cart_items (request : HttpRequest) : M (JsonResponse (list CartLine * Z)) :=
  let* cart := get_cart env request in
  let* d := get_db in
  let* items := lift (cart_lines d (cart_items_of (fst cart) d)) in
  ret (mkResponse 200 (items, foldr (fun l acc => line_total l + acc) 0 items)).

(** [remove_from_cart]:
    [CartItem.objects.filter(id=item_id, cart=cart).delete()]; the answer is
    success whatever was deleted. *)
Definition remove_from_cart (request : HttpRequest) (item_id : Z) : M (JsonResponse bool) :=
  let* cart := get_cart env request in
  let* d := get_db in
  (match cart_items d !! item_id with
   | Some item =>
       if CartItem.cart item =? fst cart
       then put_db (set_cart_items (delete item_id (cart_items d)) d)
       else ret tt
   | None => ret tt
   end) ;;
  ret (mkResponse 200 true).

End CartViews.

(** ** Stock status ([Product.status], [ProductAdmin.status_display]) *)

(** [Product.status]. *)
Definition product_status (p : Product.t) : string :=
  if Product.stock p <=? 0 then "out_of_stock"
  else if Product.stock p <=? Product.min_stock_level p then "low_stock"
  else "in_stock".

(** [dict.get] on a dictionary of string literals. *)
Fixpoint lookup_default (k : string) (table : list (string * string)) (default : string)
  : string :=
  match table with
  | [] => default
  | (k', v) :: rest => if String.eqb k' k then v else lookup_default k rest default
  end.

(** [Product.status_display]. *)
Definition product_status_display (p : Product.t) : string :=
  lookup_default (product_status p)
    [("out_of_stock", "Out of Stock"); ("low_stock", "Low Stock"); ("in_stock", "In Stock")]
    "Unknown".

(** The colour of [ProductAdmin.status_display]. *)
Definition admin_status_color (p : Product.t) : string :=
  lookup_default (product_status p)
    [("out_of_stock", "red"); ("low_stock", "orange"); ("in_stock", "green")] "gray".

(** ** Notions for the properties of the service, the stock and the cart *)

(** The token request of a service object. *)
Definition oauth_request (R : Runtime) (self : MPesaService) : net_event :=
  OAuthRequest (base_url self +:+ "/oauth/v1/generate?grant_type=client_credentials")
               ("Basic " +:+ _get_auth_string R self).

(** The calls of one request that found no usable token: none, the token
    request alone, or the token request and then one push that carries the
    token just granted. *)
Definition fresh_token_calls (R : Runtime) (env : Env) (self : MPesaService)
    (evs : list net_event) : Prop :=
  evs = [] \/
  evs = [oauth_request R self] \/
  exists data token payload,
    oauth_reply env = Reply data /\
    py_getitem data "access_token" = inr token /\
    evs = [oauth_request R self;
           StkPushRequest (base_url self +:+ "/mpesa/stkpush/v1/processrequest")
                          ("Bearer " +:+ py_str R token) payload].

(** The fields of a push that do not come from the caller: the short code
    on both sides, the callback address, the stamp of the request and the
    password made of short code, pass key and that stamp. *)
Definition signed_by (R : Runtime) (env : Env) (self : MPesaService) (url : string)
    (payload : StkPayload) : Prop :=
  url = (base_url self +:+ "/mpesa/stkpush/v1/processrequest")%string /\
  BusinessShortCode payload = SHORTCODE (config self) /\
  PartyB payload = SHORTCODE (config self) /\
  CallBackURL payload = CALLBACK_URL (config self) /\
  TransactionType payload = "CustomerPayBillOnline"%string /\
  Timestamp payload = now_compact env /\
  Password payload
  = b64encode R (SHORTCODE (config self) +:+ PASSKEY (config self) +:+ Timestamp payload).

(** The fields of a payment row that only the initiation writes. *)
Definition same_attempt (p p' : MPesaPayment.t) : Prop :=
  MPesaPayment.sale p' = MPesaPayment.sale p /\
  MPesaPayment.phone_number p' = MPesaPayment.phone_number p /\
  MPesaPayment.checkout_request_id p' = MPesaPayment.checkout_request_id p /\
  MPesaPayment.merchant_request_id p' = MPesaPayment.merchant_request_id p /\
  MPesaPayment.created_at p' = MPesaPayment.created_at p.

(** No two payment rows have the same [checkout_request_id]. *)
Definition unique_checkout_ids (table : gmap Z MPesaPayment.t) : Prop :=
  forall k1 k2 p1 p2,
    table !! k1 = Some p1 -> table !! k2 = Some p2 ->
    has_checkout_request_id (MPesaPayment.checkout_request_id p1) p2 = true ->
    k1 = k2.

(** A stock method has stored the count [n] for product [k] and has added
    one movement to the log, under a key not in use, with the count before
    and the count after; the rest of the world is as it was. *)
Definition stock_change_logged (k : Z) (self : Product.t) (n : Z) (m : StockMovement.t)
    (w : World) (r : exc (Z * Product.t) * World) : Prop :=
  fst r = inr (n, Product.set_stock n self) /\
  products (db (snd r)) = <[k := Product.set_stock n self]> (products (db w)) /\
  movements (db w) !! next_key (movements (db w)) = None /\
  movements (db (snd r)) = <[next_key (movements (db w)) := m]> (movements (db w)) /\
  StockMovement.product m = k /\
  StockMovement.previous_quantity m = Product.stock self /\
  StockMovement.new_quantity m = n /\
  payments (db (snd r)) = payments (db w) /\
  carts (db (snd r)) = carts (db w) /\
  cart_items (db (snd r)) = cart_items (db w) /\
  sales (db (snd r)) = sales (db w) /\
  net (snd r) = net w.

(** The pieces of product [k] among the items. *)
Definition sold (k : Z) (items : list (Z * CartItem.t)) : Z :=
  foldr (fun i acc => if CartItem.product (snd i) =? k
                      then CartItem.quantity (snd i) + acc else acc) 0 items.

(** The parts of the world the cart and the checkout never write: payments,
    stock movements, the network log and the service object. *)
Definition same_ledger (w w' : World) : Prop :=
  payments (db w') = payments (db w) /\
  movements (db w') = movements (db w) /\
  net w' = net w /\
  service w' = service w.

(** No cart holds two lines of one product. *)
Definition one_line_per_product (table : gmap Z CartItem.t) : Prop :=
  forall k1 k2 i1 i2,
    table !! k1 = Some i1 -> table !! k2 = Some i2 ->
    CartItem.cart i1 = CartItem.cart i2 -> CartItem.product i1 = CartItem.product i2 ->
    k1 = k2.

(** * Properties *)

(** ** Phone normalisation *)

Example format_local : format_phone_number "0712345678" = inr "254712345678"%string.
Proof. reflexivity. Qed.

Example format_canonical : format_phone_number "254712345678" = inr "254712345678"%string.
Proof. reflexivity. Qed.

Example format_bare : format_phone_number "712345678" = inr "254712345678"%string.
Proof. reflexivity. Qed.

Example format_short :
  format_phone_number "12345"
  = inl (ValueError (Some "Invalid phone number format: 12345"%string)).
Proof. reflexivity. Qed.

Example format_punctuated :
  format_phone_number "+254 712-345-678" = inr "254712345678"%string.
Proof. reflexivity. Qed.

Example strip_blanks : strip "  0712 345678 " = "0712 345678"%string.
Proof. reflexivity. Qed.

Example zfill_pads :
  zfill 6 "123" = "000123"%string /\ zfill 6 "-5" = "-00005"%string
  /\ zfill 6 "1234567" = "1234567"%string.
Proof. repeat split; reflexivity. Qed.

(** The branch of the leading zero asks nothing of the length. *)
Lemma format_phone_number_leading_zero (phone : string) :
  startswith (str_filter isdigit phone) "0" = true ->
  format_phone_number phone = inr ("254" +:+ str_drop 1 (str_filter isdigit phone)).
Proof. intros H. unfold format_phone_number. rewrite H. reflexivity. Qed.

(** Nor does the branch of the country code. *)
Lemma format_phone_number_country_code (phone : string) :
  startswith (str_filter isdigit phone) "0" = false ->
  startswith (str_filter isdigit phone) "254" = true ->
  format_phone_number phone = inr (str_filter isdigit phone).
Proof. intros H0 H. unfold format_phone_number. rewrite H0, H. reflexivity. Qed.

(** ** The ORM *)

Lemma foldr_max_ge (l : list Z) (k : Z) : In k l -> k <= foldr Z.max 0 l.
Proof.
  induction l as [|x l IH]; simpl; [tauto|].
  intros [->|Hin]; [lia|]. specialize (IH Hin). lia.
Qed.

Lemma next_key_fresh {A : Type} (table : gmap Z A) : table !! next_key table = None.
Proof.
  destruct (table !! next_key table) as [a|] eqn:E; [|reflexivity].
  exfalso. apply elem_of_map_to_list in E.
  assert (Hin : In (next_key table) (map fst (map_to_list table))).
  { apply in_map_iff. exists (next_key table, a). split; [reflexivity|].
    apply list_elem_of_In. exact E. }
  apply foldr_max_ge in Hin. unfold next_key in Hin at 1. lia.
Qed.

Lemma objects_filter_singleton {A : Type} (P : A -> bool) (table : gmap Z A) k a :
  objects_filter P table = [(k, a)] ->
  filter (fun kv => P kv.2 = true) table = {[ k := a ]}.
Proof.
  unfold objects_filter. intros E.
  rewrite <- (list_to_map_to_list (filter _ table)), E. reflexivity.
Qed.

Lemma objects_get_inr {A : Type} (P : A -> bool) (table : gmap Z A) k a :
  objects_get P table = inr (k, a) -> objects_filter P table = [(k, a)].
Proof.
  unfold objects_get. destruct (objects_filter P table) as [|r [|r' l]]; congruence.
Qed.

Lemma objects_get_found {A : Type} (P : A -> bool) (table : gmap Z A) k a :
  objects_get P table = inr (k, a) -> table !! k = Some a /\ P a = true.
Proof.
  intros E. apply objects_get_inr, objects_filter_singleton in E.
  assert (H : filter (fun kv : Z * A => P kv.2 = true) table !! k = Some a)
    by (rewrite E; apply lookup_singleton_eq).
  apply map_lookup_filter_Some in H. exact H.
Qed.

(** Saving a changed object over the one [get] found: [get] finds it again,
    as long as it still answers the query. *)
Lemma objects_get_insert {A : Type} (P : A -> bool) (table : gmap Z A) k a a' :
  objects_get P table = inr (k, a) -> P a' = true ->
  objects_get P (<[k := a']> table) = inr (k, a').
Proof.
  intros E Ha'. apply objects_get_inr, objects_filter_singleton in E.
  unfold objects_get, objects_filter.
  rewrite map_filter_insert_True by exact Ha'.
  rewrite E, insert_singleton_eq, map_to_list_singleton. reflexivity.
Qed.

(** ** The callback handler *)

Section CallbackLoop.
Context (R : Runtime).

Lemma mpesa_callback_post env data sk w :
  mpesa_callback R env (mkRequest "POST" (Parsed data) sk) w = callback_outcome R env data w.
Proof.
  unfold mpesa_callback, callback_outcome, try_catch, callback_body, bind, lift. simpl.
  destruct (callback_details data) as [e|[[[stk cid] rc] desc]]; [reflexivity|].
  destruct (truthy cid); simpl; [|reflexivity].
  destruct (objects_get _ _) as [e|[k p]].
  - destruct e; reflexivity.
  - destruct (apply_callback R stk rc desc p) as [e|p']; [reflexivity|].
    unfold save_payment. destruct (MPesaPayment.not_null p'); reflexivity.
Qed.

(** The metadata of a callback and the stamp of [save] leave the columns
    that must not be [None] alone. *)
Lemma not_null_with_metadata r a d p :
  MPesaPayment.not_null (with_metadata r a d p) = MPesaPayment.not_null p.
Proof. destruct p; reflexivity. Qed.

Lemma not_null_set_updated_at t p :
  MPesaPayment.not_null (MPesaPayment.set_updated_at t p) = MPesaPayment.not_null p.
Proof. destruct p; reflexivity. Qed.

Lemma not_null_set_sale s p :
  MPesaPayment.not_null (MPesaPayment.set_sale s p) = MPesaPayment.not_null p.
Proof. destruct p; reflexivity. Qed.

Lemma not_null_set_result s c desc p :
  MPesaPayment.not_null (MPesaPayment.set_result s c desc p)
  = not_none (MPesaPayment.checkout_request_id p)
    && not_none (MPesaPayment.merchant_request_id p) && not_none desc.
Proof. destruct p; reflexivity. Qed.

Lemma not_none_true v : not_none v = true <-> v <> JNull.
Proof. destruct v; cbn; split; congruence. Qed.

(** A row found under a true identifier has an identifier. *)
Lemma has_checkout_request_id_not_none cid p :
  truthy cid = true -> has_checkout_request_id cid p = true ->
  not_none (MPesaPayment.checkout_request_id p) = true.
Proof.
  unfold has_checkout_request_id.
  destruct (MPesaPayment.checkout_request_id p); try reflexivity.
  destruct cid; cbn; congruence.
Qed.

Lemma apply_item_fields p item :
  apply_item R p item =
  match item_fields item with
  | None => inl AttributeError
  | Some (name, value) =>
      if eq_str name "MpesaReceiptNumber" then
        inr (MPesaPayment.set_mpesa_receipt_number (py_str R value) p)
      else if eq_str name "Amount" then
        match py_float R value with
        | inr f => inr (MPesaPayment.set_amount f p)
        | inl e => inl e
        end
      else if eq_str name "TransactionDate" then
        match strptime_compact R (py_str R value) with
        | Some d => inr (MPesaPayment.set_transaction_date (Some d) p)
        | None => inr p
        end
      else inr p
  end.
Proof.
  unfold apply_item, item_fields, py_get, exc_bind.
  destruct item; try reflexivity.
Qed.

Lemma eq_str_exclusive name a b :
  a <> b -> eq_str name a = true -> eq_str name b = false.
Proof.
  destruct name; simpl; try discriminate.
  intros Hab Ha. apply String.eqb_eq in Ha. subst.
  apply String.eqb_neq. exact Hab.
Qed.

(** One turn of the loop, on a row that already carries the fields of the
    items to come. *)
Lemma apply_item_with_metadata p item r a d :
  item_ok R item = true ->
  exists p', apply_item R p item = inr p' /\
    with_metadata r a d p' =
    with_metadata (match r with Some x => Some x | None => receipt_of R item end)
                  (match a with Some x => Some x | None => amount_of R item end)
                  (match d with Some x => Some x | None => date_of R item end) p.
Proof.
  rewrite apply_item_fields. unfold item_ok, receipt_of, amount_of, date_of.
  destruct (item_fields item) as [[name value]|]; [|discriminate].
  destruct (eq_str name "MpesaReceiptNumber") eqn:E1.
  { rewrite (eq_str_exclusive name "MpesaReceiptNumber" "Amount") by (congruence || exact E1).
    rewrite (eq_str_exclusive name "MpesaReceiptNumber" "TransactionDate")
      by (congruence || exact E1).
    intros _. eexists; split; [reflexivity|].
    destruct p, r, a, d; reflexivity. }
  destruct (eq_str name "Amount") eqn:E2.
  { rewrite (eq_str_exclusive name "Amount" "TransactionDate") by (congruence || exact E2).
    destruct (py_float R value) as [e|f]; [discriminate|].
    intros _. eexists; split; [reflexivity|].
    destruct p, r, a, d; reflexivity. }
  intros _.
  destruct (eq_str name "TransactionDate") eqn:E3.
  - destruct (strptime_compact R (py_str R value)) as [dt|];
      (eexists; split; [reflexivity|]); destruct p, r, a, d; reflexivity.
  - eexists; split; [reflexivity|]. destruct p, r, a, d; reflexivity.
Qed.

Lemma with_metadata_none p : with_metadata None None None p = p.
Proof. destruct p; reflexivity. Qed.

(** The loop over well-formed items: each field ends with the value of the
    last item that sets it. *)
Lemma apply_items_spec items : forall p,
  forallb (item_ok R) items = true ->
  apply_items R p items =
  inr (with_metadata (last_value (receipt_of R) items) (last_value (amount_of R) items)
                     (last_value (date_of R) items) p).
Proof.
  induction items as [|item rest IH]; intros p Hok; simpl.
  - rewrite with_metadata_none. reflexivity.
  - simpl in Hok. apply andb_prop in Hok as [Hitem Hrest].
    destruct (apply_item_with_metadata p item (last_value (receipt_of R) rest)
                (last_value (amount_of R) rest) (last_value (date_of R) rest) Hitem)
      as (p' & Hp' & Heq).
    rewrite Hp', (IH p' Hrest), Heq. reflexivity.
Qed.

(** An item the loop does not get past stops it. *)
Lemma apply_items_ok items : forall p p',
  apply_items R p items = inr p' -> forallb (item_ok R) items = true.
Proof.
  induction items as [|item rest IH]; intros p p' H; simpl in *; [reflexivity|].
  destruct (apply_item R p item) as [e|q] eqn:E; [discriminate|].
  rewrite (IH _ _ H), andb_true_r.
  rewrite apply_item_fields in E. unfold item_ok.
  destruct (item_fields item) as [[name value]|]; [|discriminate].
  destruct (eq_str name "MpesaReceiptNumber") eqn:E1.
  - rewrite (eq_str_exclusive name "MpesaReceiptNumber" "Amount") by (congruence || exact E1).
    reflexivity.
  - destruct (eq_str name "Amount"); [|reflexivity].
    destruct (py_float R value); [discriminate|reflexivity].
Qed.

End CallbackLoop.

Section CallbackBranches.
Context (R : Runtime).

Lemma apply_callback_failure stk rc desc p :
  eq_zero rc = false ->
  apply_callback R stk rc desc p
  = inr (MPesaPayment.set_result failed (py_str R rc) desc p).
Proof. intros E. unfold apply_callback. rewrite E. reflexivity. Qed.

Lemma apply_callback_success stk rc desc p items :
  eq_zero rc = true ->
  callback_metadata stk = inr items ->
  forallb (item_ok R) items = true ->
  apply_callback R stk rc desc p
  = inr (with_metadata (last_value (receipt_of R) items) (last_value (amount_of R) items)
           (last_value (date_of R) items)
           (MPesaPayment.set_result successful (py_str R rc) desc p)).
Proof.
  intros E Hitems Hok. unfold apply_callback. rewrite E, Hitems. simpl.
  apply apply_items_spec. exact Hok.
Qed.

(** Whatever the branch, a row that comes out of [apply_callback] is the
    row that went in with the result fields set from the callback and the
    metadata fields overridden. *)
Lemma apply_callback_inr stk rc desc p p' :
  apply_callback R stk rc desc p = inr p' ->
  exists r a d,
    p' = with_metadata r a d
           (MPesaPayment.set_result (if eq_zero rc then successful else failed)
                                    (py_str R rc) desc p) /\
    forall q, apply_callback R stk rc desc q
              = inr (with_metadata r a d
                       (MPesaPayment.set_result (if eq_zero rc then successful else failed)
                                                (py_str R rc) desc q)).
Proof.
  intros H. destruct (eq_zero rc) eqn:E.
  - unfold apply_callback in H. rewrite E in H.
    destruct (callback_metadata stk) as [e|items] eqn:Hitems; [discriminate|]. simpl in H.
    pose proof (apply_items_ok R _ _ _ H) as Hok.
    rewrite (apply_items_spec R items _ Hok) in H. injection H as <-.
    do 3 eexists. split; [reflexivity|].
    intros q. apply apply_callback_success; assumption.
  - rewrite apply_callback_failure in H by exact E. injection H as <-.
    exists None, None, None. split.
    + rewrite with_metadata_none. reflexivity.
    + intros q. rewrite with_metadata_none. apply apply_callback_failure. exact E.
Qed.

Lemma with_metadata_result_twice r a d s c desc p t :
  with_metadata r a d
    (MPesaPayment.set_result s c desc
       (MPesaPayment.set_updated_at t (with_metadata r a d (MPesaPayment.set_result s c desc p))))
  = MPesaPayment.set_updated_at t (with_metadata r a d (MPesaPayment.set_result s c desc p)).
Proof. destruct p, r, a, d; reflexivity. Qed.

Lemma set_updated_at_twice t1 t2 p :
  MPesaPayment.set_updated_at t2 (MPesaPayment.set_updated_at t1 p)
  = MPesaPayment.set_updated_at t2 p.
Proof. destruct p; reflexivity. Qed.

Lemma has_checkout_request_id_kept cid r a d s c desc t p :
  has_checkout_request_id cid
    (MPesaPayment.set_updated_at t (with_metadata r a d (MPesaPayment.set_result s c desc p)))
  = has_checkout_request_id cid p.
Proof. destruct p; reflexivity. Qed.

(** A second delivery of a callback, worked out on the world the first one
    left, is a single delivery at the time of the second. *)
Lemma callback_outcome_twice env1 env2 data w :
  callback_outcome R env2 data (snd (callback_outcome R env1 data w))
  = callback_outcome R env2 data w.
Proof.
  unfold callback_outcome.
  destruct (callback_details data) as [e|[[[stk cid] rc] desc]]; [reflexivity|].
  destruct (truthy cid); [|reflexivity].
  destruct (objects_get _ (payments (db w))) as [e|[k p]] eqn:Hget.
  { destruct e; simpl; rewrite Hget; reflexivity. }
  destruct (apply_callback R stk rc desc p) as [e|p'] eqn:Happ.
  { simpl. rewrite Hget, Happ. reflexivity. }
  destruct (apply_callback_inr _ _ _ _ _ Happ) as (r & a & d & -> & Hall).
  destruct (MPesaPayment.not_null _) eqn:Hnn.
  2:{ cbn [snd]. rewrite Hget, Happ, Hnn. reflexivity. }
  simpl.
  erewrite objects_get_insert; [| exact Hget |].
  2:{ rewrite has_checkout_request_id_kept.
      apply objects_get_found in Hget. apply Hget. }
  rewrite Hall, with_metadata_result_twice, not_null_set_updated_at, Hnn.
  change (mkWorld _ (net w) (service w)) with (saved env1 k
    (with_metadata r a d (MPesaPayment.set_result (if eq_zero rc then successful else failed)
                                                  (py_str R rc) desc p)) w).
  unfold saved at 1. simpl. rewrite set_updated_at_twice.
  f_equal. unfold saved. f_equal. unfold set_payments. simpl. f_equal.
  apply insert_insert_eq.
Qed.

(** The exceptions the success branch can raise are those of a value of the
    wrong shape; none is a decoding error, so the handler that answers them
    is the general one. *)
Lemma callback_metadata_error stk e :
  callback_metadata stk = inl e -> is_JSONDecodeError e = false.
Proof.
  unfold callback_metadata, py_get, exc_bind.
  destruct stk as [| | | | | |kv]; try (intros [= <-]; reflexivity).
  destruct (match assoc "CallbackMetadata" kv with Some v => v | None => JObj [] end)
    as [| | | | | |kv']; try (intros [= <-]; reflexivity).
  destruct (match assoc "Item" kv' with Some v => v | None => JList [] end);
    cbn; try discriminate; intros [= <-]; reflexivity.
Qed.

Lemma apply_item_error p item e :
  apply_item R p item = inl e -> is_JSONDecodeError e = false.
Proof.
  rewrite apply_item_fields.
  destruct (item_fields item) as [[name value]|]; [|intros [= <-]; reflexivity].
  destruct (eq_str name "MpesaReceiptNumber"); [discriminate|].
  destruct (eq_str name "Amount").
  - destruct value as [| | | |s| |]; cbn; try discriminate;
      try (intros [= <-]; reflexivity).
    destruct (float_of_str R s); [discriminate|intros [= <-]; reflexivity].
  - destruct (eq_str name "TransactionDate"); [|discriminate].
    destruct (strptime_compact R _); discriminate.
Qed.

Lemma apply_items_error items : forall p e,
  apply_items R p items = inl e -> is_JSONDecodeError e = false.
Proof.
  induction items as [|item rest IH]; intros p e; cbn; [discriminate|].
  destruct (apply_item R p item) as [e'|q] eqn:E.
  - intros [= <-]. exact (apply_item_error _ _ _ E).
  - apply IH.
Qed.

Lemma apply_callback_error stk rc desc p e :
  apply_callback R stk rc desc p = inl e -> is_JSONDecodeError e = false.
Proof.
  unfold apply_callback. destruct (eq_zero rc); [|discriminate].
  destruct (callback_metadata stk) as [e'|items] eqn:E; cbn.
  - intros [= <-]. exact (callback_metadata_error _ _ E).
  - apply apply_items_error.
Qed.




(** The run of the view on a callback for a stored row: the row as
    [apply_callback] leaves it is saved, unless the loop stopped or a column
    that is not nullable holds [None]. *)
Lemma callback_run env data sk w stk cid rc desc k p :
  callback_details data = inr (stk, cid, rc, desc) ->
  truthy cid = true ->
  objects_get (has_checkout_request_id cid) (payments (db w)) = inr (k, p) ->
  mpesa_callback R env (mkRequest "POST" (Parsed data) sk) w =
  match apply_callback R stk rc desc p with
  | inr p' =>
      if not_none (MPesaPayment.merchant_request_id p) && not_none desc
      then (inr (ack 0 "Success"), saved env k p' w)
      else (inr (ack 1 "Processing error"), w)
  | inl _ => (inr (ack 1 "Processing error"), w)
  end.
Proof.
  intros Hd Hc Hget. rewrite mpesa_callback_post. unfold callback_outcome.
  rewrite Hd, Hc, Hget.
  destruct (apply_callback R stk rc desc p) as [e|p'] eqn:Happ.
  - unfold error_ack. rewrite (apply_callback_error _ _ _ _ _ Happ). reflexivity.
  - destruct (apply_callback_inr _ _ _ _ _ Happ) as (r & a & d & -> & _).
    rewrite not_null_with_metadata, not_null_set_result.
    apply objects_get_found in Hget as [_ Hid].
    rewrite (has_checkout_request_id_not_none _ _ Hc Hid). reflexivity.
Qed.


End CallbackBranches.

Section Acknowledgment.
Context (R : Runtime).

Lemma mpesa_callback_cases env req w :
  mpesa_callback R env req w =
  if String.eqb (method req) "POST" then
    match body req with
    | BadUtf8 => (inr (ack 1 "Processing error"), w)
    | BadJson => (inr (ack 1 "Invalid JSON"), w)
    | Parsed data => callback_outcome R env data w
    end
  else (inr (ack 1 "Invalid request method"), w).
Proof.
  destruct req as [m b sk]. simpl.
  destruct (String.eqb m "POST") eqn:Em.
  - apply String.eqb_eq in Em. subst m.
    destruct b; [reflexivity | reflexivity | apply mpesa_callback_post].
  - unfold mpesa_callback. simpl. rewrite Em. reflexivity.
Qed.

(** C3: for every request (any method, any body: bytes that are not UTF-8,
    text that is not JSON, any decoded JSON), [mpesa_callback] raises nothing
    and answers with HTTP status 200 and an acknowledgment whose result code
    is 0 or 1; it makes no network call; whenever the code is not 0 the
    world, hence every table, is exactly as before.  The code is 1 for a body
    that is not JSON, for a payload whose details cannot be read, for a
    payload whose CheckoutRequestID is missing or empty, and for a
    CheckoutRequestID no stored payment has: no row is created, none is
    changed. *)
Theorem callback_always_acknowledges env req w :
  exists a,
    fst (mpesa_callback R env req w) = inr a /\
    status_code a = 200 /\
    (ResultCode (content a) = 0 \/ ResultCode (content a) = 1) /\
    net (snd (mpesa_callback R env req w)) = net w /\
    (ResultCode (content a) <> 0 -> snd (mpesa_callback R env req w) = w) /\
    (body req = BadJson \/ body req = BadUtf8 -> ResultCode (content a) = 1) /\
    (forall data, body req = Parsed data ->
       match callback_details data with
       | inl _ => ResultCode (content a) = 1
       | inr (_, cid, _, _) =>
           (truthy cid = false -> ResultCode (content a) = 1) /\
           (objects_get (has_checkout_request_id cid) (payments (db w)) = inl DoesNotExist ->
            ResultCode (content a) = 1 /\
            snd (mpesa_callback R env req w) = w)
       end).
Proof.
  rewrite mpesa_callback_cases.
  destruct (String.eqb (method req) "POST") eqn:Em.
  2:{ eexists; simpl; (split; [reflexivity|]); simpl.
      repeat split; auto.
      intros data _. destruct (callback_details data) as [e|[[[stk cid] rc] desc]]; auto. }
  destruct (body req) as [| |data] eqn:Eb.
  - eexists; simpl; (split; [reflexivity|]); simpl. repeat split; auto. discriminate.
  - eexists; simpl; (split; [reflexivity|]); simpl. repeat split; auto. discriminate.
  - unfold callback_outcome.
    destruct (callback_details data) as [e|[[[stk cid] rc] desc]] eqn:Ed.
    { exists (error_ack e). unfold error_ack.
      destruct (is_JSONDecodeError e); simpl; repeat split; auto;
        try (intros [H|H]; discriminate);
        intros data' [= <-]; rewrite Ed; reflexivity. }
    destruct (truthy cid) eqn:Ec.
    2:{ eexists; simpl; (split; [reflexivity|]); simpl. repeat split; auto;
          try (intros [H|H]; discriminate).
        intros data' [= <-]. rewrite Ed. auto. }
    destruct (objects_get _ _) as [e|[k p]] eqn:Hget.
    { exists (match e with DoesNotExist => ack 1 "Payment not found" | _ => error_ack e end).
      destruct e; simpl; repeat split; auto; try (intros [H|H]; discriminate);
        intros data' [= <-]; rewrite Ed; split; try congruence; auto. }
    destruct (apply_callback R stk rc desc p) as [e|p'].
    { exists (error_ack e). unfold error_ack.
      destruct (is_JSONDecodeError e); simpl; repeat split; auto;
        try (intros [H|H]; discriminate);
        intros data' [= <-]; rewrite Ed; split; try congruence; auto. }
    destruct (MPesaPayment.not_null p').
    2:{ eexists; simpl; (split; [reflexivity|]); simpl. repeat split; auto;
          try (intros [H|H]; discriminate).
        intros data' [= <-]. rewrite Ed. split; congruence. }
    eexists; simpl; (split; [reflexivity|]); simpl. repeat split; auto; try congruence.
    + intros [H|H]; discriminate.
    + intros data' [= <-]. rewrite Ed. split; congruence.
Qed.

End Acknowledgment.

Section Transitions.
Context (R : Runtime).


(** An item named [TransactionDate] never stops the loop, whatever its
    value. *)
Lemma transaction_date_item_ok kv :
  assoc "Name" kv = Some (JStr "TransactionDate") -> item_ok R (JObj kv) = true.
Proof. intros H. unfold item_ok, item_fields. rewrite H. reflexivity. Qed.



Lemma eq_zero_true rc :
  eq_zero rc = true <->
  rc = JInt 0 \/ rc = JBool false \/ exists q, rc = JFloat (FFinite q) /\ Qeq q 0.
Proof.
  split.
  - destruct rc as [|[]|z|[q|b|]|s|l|kv]; simpl; try discriminate.
    + auto.
    + intros H. apply Z.eqb_eq in H. subst. auto.
    + intros H. apply Qeq_bool_iff in H. right; right. eauto.
  - intros [->|[->|(q & -> & Hq)]]; simpl; auto. apply Qeq_bool_iff. exact Hq.
Qed.

(** C10 (as amended): the test [result_code == 0] is Python's equality with
    the integer 0, not a test for the integer.  For a stored row, a callback
    whose result code is the integer 0, [False] or a float equal to zero goes
    through the success branch: if it is saved at all, the row is
    [successful].  A callback with any other result code goes through the
    failure branch: with a [ResultDesc] the row is saved with status
    [failed], the result code printed by [str] and the description, all
    else as it was, and the acknowledgment is code 0; without one nothing is
    saved and the acknowledgment is code 1.  A result code that is a string,
    the string 0 among them, is such a code, and is stored as it is. *)
Theorem callback_zero_test env data sk w stk cid rc desc k p :
  callback_details data = inr (stk, cid, rc, desc) ->
  truthy cid = true ->
  objects_get (has_checkout_request_id cid) (payments (db w)) = inr (k, p) ->
  let r := mpesa_callback R env (mkRequest "POST" (Parsed data) sk) w in
  (rc <> JInt 0 -> rc <> JBool false ->
   (forall q, rc = JFloat (FFinite q) -> ~ Qeq q 0) ->
   (desc <> JNull -> MPesaPayment.merchant_request_id p <> JNull ->
    r = (inr (ack 0 "Success"),
         saved env k (MPesaPayment.set_result failed (py_str R rc) desc p) w)) /\
   (desc = JNull \/ MPesaPayment.merchant_request_id p = JNull ->
    r = (inr (ack 1 "Processing error"), w))) /\
  (forall s, rc = JStr s ->
     desc <> JNull -> MPesaPayment.merchant_request_id p <> JNull ->
     r = (inr (ack 0 "Success"),
          saved env k (MPesaPayment.set_result failed s desc p) w)) /\
  (rc = JInt 0 \/ rc = JBool false \/ (exists q, rc = JFloat (FFinite q) /\ Qeq q 0) ->
   r = (inr (ack 1 "Processing error"), w) \/
   (fst r = inr (ack 0 "Success") /\
    (MPesaPayment.status <$> payments (db (snd r)) !! k) = Some successful)).
Proof.
  intros Hd Hc Hget. cbv zeta.
  rewrite (callback_run R _ _ _ _ _ _ _ _ _ _ Hd Hc Hget).
  split; [|split].
  - intros H0 Hf Hq.
    assert (Hz : eq_zero rc = false).
    { destruct (eq_zero rc) eqn:E; [|reflexivity].
      apply eq_zero_true in E as [E|[E|(q & E & Hq0)]]; [congruence|congruence|].
      exfalso. exact (Hq q E Hq0). }
    rewrite (apply_callback_failure R stk rc desc p Hz).
    split.
    + intros Hdesc Hm. apply not_none_true in Hdesc, Hm. rewrite Hdesc, Hm. reflexivity.
    + intros [->|Hm]; [rewrite andb_false_r|rewrite Hm]; reflexivity.
  - intros s -> Hdesc Hm.
    rewrite (apply_callback_failure R stk (JStr s) desc p eq_refl).
    apply not_none_true in Hdesc, Hm. rewrite Hdesc, Hm. reflexivity.
  - intros Hzero. apply eq_zero_true in Hzero.
    destruct (apply_callback R stk rc desc p) as [e|p'] eqn:Happ; [left; reflexivity|].
    destruct (not_none (MPesaPayment.merchant_request_id p) && not_none desc);
      [right|left; reflexivity].
    split; [reflexivity|].
    destruct (apply_callback_inr _ _ _ _ _ _ Happ) as (r & a & d & -> & _).
    cbn. rewrite lookup_insert_eq, Hzero. destruct p; reflexivity.
Qed.

Lemma callback_outcome_fst env1 env2 data w :
  fst (callback_outcome R env2 data w) = fst (callback_outcome R env1 data w).
Proof.
  unfold callback_outcome.
  destruct (callback_details data) as [e|[[[stk cid] rc] desc]]; [reflexivity|].
  destruct (truthy cid); [|reflexivity].
  destruct (objects_get _ _) as [e|[k p]]; [destruct e; reflexivity|].
  destruct (apply_callback R stk rc desc p) as [e|p']; [reflexivity|].
  destruct (MPesaPayment.not_null p'); reflexivity.
Qed.

(** The rows two deliveries at different times leave differ in [updated_at]
    at most. *)
Lemma callback_outcome_rows env1 env2 data w k p1 :
  payments (db (snd (callback_outcome R env1 data w))) !! k = Some p1 ->
  exists p2, payments (db (snd (callback_outcome R env2 data w))) !! k = Some p2 /\
             MPesaPayment.set_updated_at 0 p2 = MPesaPayment.set_updated_at 0 p1.
Proof.
  unfold callback_outcome.
  destruct (callback_details data) as [e|[[[stk cid] rc] desc]]; [eauto|].
  destruct (truthy cid); [|eauto].
  destruct (objects_get _ _) as [e|[k' p]]; [destruct e; eauto|].
  destruct (apply_callback R stk rc desc p) as [e|p']; [eauto|].
  destruct (MPesaPayment.not_null p'); [|eauto].
  simpl. destruct (decide (k' = k)) as [->|Hne].
  - rewrite !lookup_insert_eq. intros [= <-]. eexists. split; [reflexivity|].
    rewrite !set_updated_at_twice. reflexivity.
  - rewrite !lookup_insert_ne by exact Hne. eauto.
Qed.

(** C2 (as amended): the handler does not look at the current status; a
    second delivery of the same request runs the same assignments and saves
    again.  Delivered at [env1] and then at [env2], the request leaves the
    world that a single delivery at [env2] leaves, with the same
    acknowledgment as the first; every row has the same values after the
    second delivery as after the first, [updated_at] apart.  For a success
    callback that the first delivery acknowledged with code 0, the row is
    [successful] after the first and after the second delivery. *)
Theorem duplicate_delivery env1 env2 req w :
  let r1 := mpesa_callback R env1 req w in
  let r2 := mpesa_callback R env2 req (snd r1) in
  r2 = mpesa_callback R env2 req w /\
  fst r2 = fst r1 /\
  (forall k p1, payments (db (snd r1)) !! k = Some p1 ->
     exists p2, payments (db (snd r2)) !! k = Some p2 /\
                MPesaPayment.set_updated_at 0 p2 = MPesaPayment.set_updated_at 0 p1) /\
  (forall data stk cid rc desc k p,
     String.eqb (method req) "POST" = true ->
     body req = Parsed data ->
     callback_details data = inr (stk, cid, rc, desc) ->
     objects_get (has_checkout_request_id cid) (payments (db w)) = inr (k, p) ->
     eq_zero rc = true ->
     fst r1 = inr (ack 0 "Success") ->
     (MPesaPayment.status <$> payments (db (snd r1)) !! k) = Some successful /\
     (MPesaPayment.status <$> payments (db (snd r2)) !! k) = Some successful).
Proof.
  cbv zeta.
  assert (Htwice : mpesa_callback R env2 req (snd (mpesa_callback R env1 req w))
                   = mpesa_callback R env2 req w).
  { rewrite !mpesa_callback_cases.
    destruct (String.eqb (method req) "POST"); [|reflexivity].
    destruct (body req); [reflexivity|reflexivity|apply callback_outcome_twice]. }
  split; [exact Htwice|]. rewrite Htwice. clear Htwice.
  rewrite !mpesa_callback_cases.
  split; [|split].
  - destruct (String.eqb (method req) "POST"); [|reflexivity].
    destruct (body req); [reflexivity|reflexivity|apply callback_outcome_fst].
  - intros k p1.
    destruct (String.eqb (method req) "POST"); [|eauto].
    destruct (body req); [eauto|eauto|apply callback_outcome_rows].
  - intros data stk cid rc desc k p -> -> Hd Hget Hz.
    unfold callback_outcome. rewrite Hd.
    destruct (truthy cid); [|discriminate].
    rewrite Hget.
    destruct (apply_callback R stk rc desc p) as [e|p'] eqn:Happ.
    { unfold error_ack. destruct (is_JSONDecodeError e); discriminate. }
    destruct (MPesaPayment.not_null p'); [|discriminate].
    intros _.
    destruct (apply_callback_inr _ _ _ _ _ _ Happ) as (r & a & d & -> & _).
    simpl. rewrite !lookup_insert_eq, Hz. destruct p; split; reflexivity.
Qed.

End Transitions.

(** ** The gateway client *)

Section Gateway.
Context (R : Runtime) (env : Env).

Lemma pushes_app (l1 l2 : list net_event) : pushes (l1 ++ l2) = pushes l1 ++ pushes l2.
Proof. unfold pushes. apply omap_app. Qed.

(** Fetching the token touches neither the database nor the pushes. *)
Lemma ensure_token_effect w :
  exists evs, db (snd (_ensure_token R env w)) = db w /\
    net (snd (_ensure_token R env w)) = net w ++ evs /\ pushes evs = [].
Proof.
  unfold _ensure_token, bind, get_service. simpl.
  destruct (negb (truthy (access_token (service w))) || _).
  - unfold get_access_token, bind, get_service, emit. simpl.
    destruct (oauth_reply env) as [| |data]; simpl.
    + eexists; repeat split; reflexivity.
    + eexists; repeat split; reflexivity.
    + unfold lift. destruct (py_getitem data "access_token"); simpl;
        eexists; repeat split; reflexivity.
  - exists []. simpl. rewrite app_nil_r. auto.
Qed.

Lemma failure_of_failure e : exists err, failure_of e = StkFailure err.
Proof.
  unfold failure_of. destruct (is_ValueError e); [eauto|].
  destruct (is_RequestException e); eauto.
Qed.

(** What a call of [initiate_stk_push] comes to. *)
Lemma initiate_stk_push_spec phone_number amount reference description w :
  exists r evs,
    fst (initiate_stk_push R env phone_number amount reference description w) = inr r /\
    db (snd (initiate_stk_push R env phone_number amount reference description w)) = db w /\
    net (snd (initiate_stk_push R env phone_number amount reference description w))
      = net w ++ evs /\
    ((pushes evs = [] /\ exists e, r = StkFailure e) \/
     (exists payload,
        pushes evs = [payload] /\
        payload_of R phone_number amount reference description payload /\
        match r with
        | StkSuccess checkout merchant message _ _ =>
            exists data, stk_reply env payload = Reply data /\
              accepted (stk_reply env payload) = true /\
              py_get data "CheckoutRequestID" JNull = inr checkout /\
              py_get data "MerchantRequestID" JNull = inr merchant
        | StkFailure _ => accepted (stk_reply env payload) = false
        end)) /\
    (forall e, validate_amount R amount = inl e ->
       snd (initiate_stk_push R env phone_number amount reference description w) = w) /\
    (forall e, format_phone_number (py_str R phone_number) = inl e ->
       snd (initiate_stk_push R env phone_number amount reference description w) = w).
Proof.
  unfold initiate_stk_push, try_catch, stk_push_body, bind, lift.
  destruct (validate_amount R amount) as [e|n] eqn:Ha.
  { exists (failure_of e), []. simpl. rewrite app_nil_r.
    do 3 (split; [reflexivity|]). split; [|split; intros; reflexivity].
    left. split; [reflexivity|].
    apply failure_of_failure. }
  destruct (format_phone_number (py_str R phone_number)) as [e|formatted] eqn:Hp.
  { exists (failure_of e), []. simpl. rewrite app_nil_r.
    do 3 (split; [reflexivity|]). split; [|split; intros; reflexivity].
    left. split; [reflexivity|].
    apply failure_of_failure. }
  destruct (ensure_token_effect w) as (evs & Hdb & Hnet & Hpush).
  destruct (_ensure_token R env w) as [[e|token] w1] eqn:Htok; simpl in Hdb, Hnet.
  { exists (failure_of e), evs. simpl.
    split; [reflexivity|]. split; [exact Hdb|]. split; [exact Hnet|].
    split; [|split; intros; discriminate].
    left. split; [assumption|].
    apply failure_of_failure. }
  unfold get_service. simpl.
  destruct (_generate_password R env (service w1)) as [password timestamp].
  destruct (py_prefix 12 reference) as [e|account_reference] eqn:Href.
  { exists (failure_of e), evs. simpl.
    split; [reflexivity|]. split; [exact Hdb|]. split; [exact Hnet|].
    split; [|split; intros; discriminate].
    left. split; [assumption|].
    apply failure_of_failure. }
  unfold emit. simpl.
  set (payload := mkPayload _ _ _ _ _ _ _ _ _ _ _).
  set (ev := StkPushRequest _ _ payload).
  assert (Hpushes : pushes (evs ++ [ev]) = [payload])
    by (rewrite pushes_app, Hpush; reflexivity).
  assert (Hpayload : payload_of R phone_number amount reference description payload)
    by (repeat split; assumption).
  assert (Hnet' : net w1 ++ [ev] = net w ++ evs ++ [ev])
    by (rewrite Hnet, app_assoc; reflexivity).
  destruct (stk_reply env payload) as [| |data] eqn:Hreply; simpl.
  - exists (failure_of RequestException), (evs ++ [ev]).
    split; [reflexivity|]. split; [exact Hdb|]. split; [exact Hnet'|].
    split; [|split; intros; discriminate].
    right. exists payload. rewrite Hreply.
    split; [exact Hpushes|]. split; [exact Hpayload|]. reflexivity.
  - exists (failure_of RequestsJSONDecodeError), (evs ++ [ev]).
    split; [reflexivity|]. split; [exact Hdb|]. split; [exact Hnet'|].
    split; [|split; intros; discriminate].
    right. exists payload. rewrite Hreply.
    split; [exact Hpushes|]. split; [exact Hpayload|]. reflexivity.
  - destruct (py_get data "ResponseCode" JNull) as [e|code] eqn:Hcode; simpl.
    { exists (failure_of e), (evs ++ [ev]).
      split; [reflexivity|]. split; [exact Hdb|]. split; [exact Hnet'|].
      split; [|split; intros; discriminate].
      right. exists payload. rewrite Hreply.
      split; [exact Hpushes|]. split; [exact Hpayload|].
      unfold accepted. rewrite Hcode.
      destruct (failure_of_failure e) as [err ->]. reflexivity. }
    assert (Hobj : exists kv, data = JObj kv)
      by (destruct data; try discriminate; eauto).
    destruct Hobj as [kv ->]. simpl.
    destruct (eq_str code "0") eqn:Hzero; simpl.
    + eexists _, (evs ++ [ev]). split; [reflexivity|].
      split; [exact Hdb|]. split; [exact Hnet'|].
      split; [|split; intros; discriminate].
      right. exists payload. rewrite Hreply.
      split; [exact Hpushes|]. split; [exact Hpayload|].
      eexists. split; [reflexivity|]. unfold accepted. rewrite Hcode.
      split; [exact Hzero|]. split; reflexivity.
    + eexists _, (evs ++ [ev]). split; [reflexivity|].
      split; [exact Hdb|]. split; [exact Hnet'|].
      split; [|split; intros; discriminate].
      right. exists payload. rewrite Hreply.
      split; [exact Hpushes|]. split; [exact Hpayload|].
      unfold accepted. rewrite Hcode. exact Hzero.
Qed.

Lemma stk_push_invalid_amount phone_number amount reference description w e :
  validate_amount R amount = inl e ->
  initiate_stk_push R env phone_number amount reference description w
  = (inr (failure_of e), w).
Proof.
  intros H. unfold initiate_stk_push, try_catch, stk_push_body, bind, lift.
  rewrite H. reflexivity.
Qed.

Lemma stk_push_invalid_phone phone_number amount reference description w n e :
  validate_amount R amount = inr n ->
  format_phone_number (py_str R phone_number) = inl e ->
  initiate_stk_push R env phone_number amount reference description w
  = (inr (failure_of e), w).
Proof.
  intros Ha Hp. unfold initiate_stk_push, try_catch, stk_push_body, bind, lift.
  rewrite Ha, Hp. reflexivity.
Qed.

Lemma in_pushes url auth payload evs :
  In (StkPushRequest url auth payload) evs -> In payload (pushes evs).
Proof.
  intros H. apply list_elem_of_In. unfold pushes. apply list_elem_of_omap.
  exists (StkPushRequest url auth payload). split; [|reflexivity].
  apply list_elem_of_In. exact H.
Qed.

End Gateway.

(** ** Strings cut to a length *)

Lemma of_chars_app l1 l2 : of_chars (l1 ++ l2) = of_chars l1 +:+ of_chars l2.
Proof. induction l1 as [|c l1 IH]; simpl; [reflexivity|]. rewrite IH. reflexivity. Qed.

Lemma length_of_chars l : String.length (of_chars l) = length l.
Proof. induction l as [|c l IH]; simpl; [reflexivity|]. rewrite IH. reflexivity. Qed.

Lemma length_chars s : length (chars s) = String.length s.
Proof. induction s as [|c s IH]; simpl; [reflexivity|]. rewrite IH. reflexivity. Qed.

Lemma of_chars_chars s : of_chars (chars s) = s.
Proof. apply string_of_list_ascii_of_string. Qed.

(** [s[:n]] is the first [n] characters of [s], all of [s] when it is
    shorter. *)
Lemma str_take_prefix n s :
  s = str_take n s +:+ str_drop n s /\
  String.length (str_take n s) = Nat.min n (String.length s).
Proof.
  unfold str_take, str_drop. split.
  - rewrite <- of_chars_app, take_drop. symmetry. apply of_chars_chars.
  - rewrite length_of_chars, length_take, length_chars. reflexivity.
Qed.

Section Push.
Context (R : Runtime) (env : Env).

Lemma validate_amount_inr amount n :
  validate_amount R amount = inr n <->
  exists f, py_float R amount = inr f /\ int_of_float f = inr n /\ 1 <= n.
Proof.
  unfold validate_amount, exc_bind.
  destruct (py_float R amount) as [e|f] eqn:Ef.
  { split; [discriminate|]. intros (f & Hf & _). discriminate Hf. }
  destruct (int_of_float f) as [e|m] eqn:Em.
  { split; [discriminate|]. intros (f' & Hf' & Hm & _).
    injection Hf' as ->. rewrite Em in Hm. discriminate Hm. }
  destruct (Z.ltb_spec m 1).
  - split; [discriminate|]. intros (f' & Hf' & Hm & Hn).
    injection Hf' as ->. rewrite Em in Hm. injection Hm as ->. lia.
  - split.
    + intros [= <-]. eauto.
    + intros (f' & Hf' & Hm & Hn).
      injection Hf' as ->. rewrite Em in Hm. injection Hm as ->. reflexivity.
Qed.

(** The error of the amount test is raised for an integer part below 1 and
    for nothing else. *)
Lemma validate_amount_too_small amount msg :
  validate_amount R amount = inl (ValueError (Some msg)) <->
  msg = "Amount must be at least KES 1"%string /\
  exists f n, py_float R amount = inr f /\ int_of_float f = inr n /\ n < 1.
Proof.
  unfold validate_amount, exc_bind.
  destruct (py_float R amount) as [e|f] eqn:Ef.
  { split.
    - intros [= ->]. destruct amount as [| | | |s| |]; cbn in Ef; try discriminate Ef.
      destruct (float_of_str R s); discriminate Ef.
    - intros (_ & f & n & Hf & _). discriminate Hf. }
  destruct (int_of_float f) as [e|m] eqn:Em.
  { split.
    - intros [= ->]. destruct f; discriminate Em.
    - intros (_ & f' & n & Hf & Hn & _). injection Hf as <-. congruence. }
  destruct (Z.ltb_spec m 1).
  - split.
    + intros [= <-]. split; [reflexivity|]. eauto.
    + intros (-> & _). reflexivity.
  - split; [discriminate|].
    intros (_ & f' & n & Hf & Hn & Hlt). injection Hf as <-.
    rewrite Em in Hn. injection Hn as <-. lia.
Qed.

Lemma failure_of_validation e msg :
  failure_of e = StkFailure (ValidationError (ValueError (Some msg))) ->
  e = ValueError (Some msg).
Proof.
  unfold failure_of. destruct (is_ValueError e); [congruence|].
  destruct (is_RequestException e); discriminate.
Qed.

Lemma ensure_token_error w e w1 :
  _ensure_token R env w = (inl e, w1) -> is_ValueError e = false.
Proof.
  unfold _ensure_token, bind, get_service. cbn [fst snd].
  destruct (negb (truthy (access_token (service w))) || _); [|discriminate].
  unfold get_access_token, bind, get_service, emit, lift. cbn [fst snd].
  destruct (oauth_reply env) as [| |data]; try (intros [= <- _]; reflexivity).
  destruct data as [| | | | | |kv]; cbn; try (intros [= <- _]; reflexivity).
  destruct (assoc "access_token" kv); cbn; [discriminate|].
  intros [= <- _]. reflexivity.
Qed.

(** A failed push whose error is a [ValueError] with a message was failed
    by the amount test or by the normalisation of the phone. *)
Lemma stk_push_validation_error phone_number amount reference description w msg :
  fst (initiate_stk_push R env phone_number amount reference description w)
  = inr (StkFailure (ValidationError (ValueError (Some msg)))) ->
  validate_amount R amount = inl (ValueError (Some msg)) \/
  format_phone_number (py_str R phone_number) = inl (ValueError (Some msg)).
Proof.
  unfold initiate_stk_push, try_catch, stk_push_body, bind, lift.
  destruct (validate_amount R amount) as [e|n] eqn:Ha.
  { cbn. intros [= H]. apply failure_of_validation in H. subst. left. reflexivity. }
  destruct (format_phone_number (py_str R phone_number)) as [e|formatted] eqn:Hp.
  { cbn. intros [= H]. apply failure_of_validation in H. subst. right. reflexivity. }
  destruct (_ensure_token R env w) as [[e|token] w1] eqn:Htok.
  { cbn. intros [= H]. apply failure_of_validation in H. subst.
    apply ensure_token_error in Htok. discriminate Htok. }
  unfold get_service. cbn [fst snd].
  destruct (_generate_password R env (service w1)) as [password timestamp].
  destruct (py_prefix 12 reference) as [e|account_reference] eqn:Href.
  { cbn. intros [= H]. apply failure_of_validation in H. subst.
    destruct reference; discriminate Href. }
  unfold emit. cbn [fst snd].
  destruct (stk_reply env _) as [| |data]; cbn; try discriminate.
  destruct data as [| | | | | |kv]; cbn; try discriminate.
  destruct (eq_str _ "0"); cbn; discriminate.
Qed.

(** C8 (as amended): [initiate_stk_push] raises nothing.  The amount is
    converted by [float] and cut toward zero by [int].  When the conversion
    fails or the integer so obtained is below 1, the request is refused with
    the world unchanged, so before any network call; the [ValueError] of the
    amount test, [Amount must be at least KES 1], is the error of the result
    exactly when the integer is below 1.  An amount that is not a whole
    number is not refused for it: when the
    integer part is at least 1, the phone can be normalised, a token is
    there and the reference can be cut, one push goes out with the integer
    part as [Amount].  Every push the call sends carries an [Amount] that is
    the integer part of the amount and at least 1, the reference cut to its
    first 12 characters and the description cut to its first 13, neither
    more nor fewer when the text is that long. *)
Theorem stk_push_amount_and_truncation phone_number amount reference description w :
  let r := initiate_stk_push R env phone_number amount reference description w in
  (exists res, fst r = inr res) /\
  (forall e, py_float R amount = inl e -> r = (inr (failure_of e), w)) /\
  (forall f e, py_float R amount = inr f -> int_of_float f = inl e ->
               r = (inr (failure_of e), w)) /\
  (fst r = inr (StkFailure (ValidationError
                  (ValueError (Some "Amount must be at least KES 1"%string))))
   <-> exists f n, py_float R amount = inr f /\ int_of_float f = inr n /\ n < 1) /\
  (forall f n, py_float R amount = inr f -> int_of_float f = inr n -> n < 1 -> snd r = w) /\
  (forall f n formatted token w1 reference12,
     py_float R amount = inr f -> int_of_float f = inr n -> 1 <= n ->
     format_phone_number (py_str R phone_number) = inr formatted ->
     _ensure_token R env w = (inr token, w1) ->
     py_prefix 12 reference = inr reference12 ->
     exists url auth payload,
       net (snd r) = net w1 ++ [StkPushRequest url auth payload] /\
       Amount payload = n /\ AccountReference payload = reference12) /\
  (forall url auth payload,
     In (StkPushRequest url auth payload) (net (snd r)) ->
     In (StkPushRequest url auth payload) (net w) \/
     ((exists f, py_float R amount = inr f /\ int_of_float f = inr (Amount payload)) /\
      1 <= Amount payload /\
      (forall s, reference = JStr s ->
         exists rest, AccountReference payload = JStr (str_take 12 s) /\
                      s = (str_take 12 s +:+ rest)%string /\
                      String.length (str_take 12 s) = Nat.min 12 (String.length s)) /\
      (exists rest, description = (TransactionDesc payload +:+ rest)%string /\
                    String.length (TransactionDesc payload)
                    = Nat.min 13 (String.length description)))).
Proof.
  cbv zeta.
  destruct (initiate_stk_push_spec R env phone_number amount reference description w)
    as (res & evs & Hfst & _ & Hnet & Hcases & _ & _).
  split; [eauto|]. split; [|split; [|split; [|split; [|split]]]].
  - intros e He. apply stk_push_invalid_amount.
    unfold validate_amount, exc_bind. rewrite He. reflexivity.
  - intros f e Hf He. apply stk_push_invalid_amount.
    unfold validate_amount, exc_bind. rewrite Hf, He. reflexivity.
  - split.
    + intros H. apply stk_push_validation_error in H as [H|H].
      * apply validate_amount_too_small in H as [_ H]. exact H.
      * exfalso. unfold format_phone_number in H.
        destruct (startswith _ "0"); [discriminate H|].
        destruct (startswith _ "254"); [discriminate H|].
        destruct (_ && _); [discriminate H|]. cbn in H. discriminate H.
    + intros Hsmall.
      assert (Hv : validate_amount R amount
                   = inl (ValueError (Some "Amount must be at least KES 1"%string)))
        by (apply validate_amount_too_small; split; [reflexivity|exact Hsmall]).
      rewrite (stk_push_invalid_amount R env _ _ _ _ w _ Hv). reflexivity.
  - intros f n Hf Hn Hlt.
    assert (Hv : validate_amount R amount
                 = inl (ValueError (Some "Amount must be at least KES 1"%string)))
      by (apply validate_amount_too_small; split; [reflexivity|eauto]).
    rewrite (stk_push_invalid_amount R env _ _ _ _ w _ Hv). reflexivity.
  - intros f n formatted token w1 reference12 Hf Hn Hle Hp Htok Href.
    assert (Hv : validate_amount R amount = inr n)
      by (apply validate_amount_inr; eauto).
    unfold initiate_stk_push, try_catch, stk_push_body, bind, lift.
    rewrite Hv, Hp, Htok. unfold get_service. cbn [fst snd].
    destruct (_generate_password R env (service w1)) as [password timestamp].
    rewrite Href. unfold emit. cbn [fst snd].
    destruct (stk_reply env _) as [| |data]; cbn;
      try (eexists _, _, _; split; [reflexivity|]; split; reflexivity).
    destruct data as [| | | | | |kv]; cbn;
      try (eexists _, _, _; split; [reflexivity|]; split; reflexivity).
    destruct (eq_str _ "0"); cbn;
      eexists _, _, _; (split; [reflexivity|]); split; reflexivity.
  - intros url auth payload Hin. rewrite Hnet in Hin.
    apply in_app_or in Hin as [Hin|Hin]; [left; exact Hin|right].
    apply in_pushes in Hin.
    destruct Hcases as [[Hnone _]|(payload' & Hone & Hpayload & _)].
    { rewrite Hnone in Hin. destruct Hin. }
    rewrite Hone in Hin. destruct Hin as [<-|[]].
    destruct Hpayload as (Ha & _ & _ & Hr & Hd).
    apply validate_amount_inr in Ha as (f & Hf & Hn & Hle).
    split; [eauto|]. split; [exact Hle|]. split.
    + intros s ->. cbn in Hr. injection Hr as <-.
      exists (str_drop 12 s). split; [reflexivity|]. apply str_take_prefix.
    + exists (str_drop 13 description). rewrite Hd. apply str_take_prefix.
Qed.

End Push.

(** ** The initiation view *)

Section InitiationCases.
Context (R : Runtime) (env : Env) (cfg : MPesaConfig).

Lemma py_float_error v e :
  py_float R v = inl e -> e = ValueError None \/ e = TypeError.
Proof.
  destruct v as [| | | |s| |]; simpl; intros H; try discriminate H;
    try (injection H as <-; auto).
  destruct (float_of_str R s); [discriminate H|]. injection H as <-. auto.
Qed.

Lemma refused req w st m :
  (String.eqb (method req) "POST" = true ->
   forall data fields, body req = Parsed data -> initiate_fields data = inr fields ->
   st = 400) ->
  forall w', db w' = db w ->
  initiate_outcome R env req w (mkResponse st (InitFailure m)) [] w'.
Proof.
  intros H w' Hdb. left. split; [reflexivity|]. split; [exact Hdb|].
  exists st, m. split; [reflexivity|]. intros data fields Hm Hb Hf. eauto.
Qed.

(** A goal of [initiate_spec] whose view has answered without a call: the
    answer, no event, and what is left of [refused]. *)
Ltac refuse :=
  eexists _, [], _; split; [reflexivity|]; rewrite app_nil_r;
  split; [reflexivity|]; apply refused; [|reflexivity].


(** The part of the view after the push was accepted: the row is created
    and, if it can be, linked. *)
Lemma create_and_link phone amount checkout merchant message cart_id w1 :
  exists resp w',
    bind (create_payment env phone amount checkout merchant)
      (fun created =>
         bind (link_sale R env cart_id (fst created) (snd created))
           (fun _ => ret (mkResponse 200
                            (InitSuccess checkout message (fst created) MsgInitiated))))
      w1 = (resp, w') /\ net w' = net w1 /\
    ((db w' = db w1 /\ exists e, resp = inl e)
     \/
     exists k row,
       payments (db w1) !! k = None /\
       db w' = set_payments (<[k := row]> (payments (db w1))) (db w1) /\
       MPesaPayment.status row = pending /\
       MPesaPayment.phone_number row = phone /\
       ((exists e, resp = inl e) \/
        resp = inr (mkResponse 200 (InitSuccess checkout message k MsgInitiated)))).
Proof.
  unfold create_payment, bind at 1 2, get_db. cbn [fst snd].
  set (row := MPesaPayment.mk _ _ _ _ _ _ _ _ _ _ _ _).
  destruct (MPesaPayment.not_null row) eqn:Hnn.
  2:{ eexists _, _. split; [reflexivity|]. split; [reflexivity|]. left. eauto. }
  destruct (objects_filter _ (payments (db w1))) as [|x l].
  2:{ eexists _, _. split; [reflexivity|]. split; [reflexivity|]. left. eauto. }
  unfold objects_create. cbn [fst snd].
  set (k := next_key (payments (db w1))).
  assert (Hfresh : payments (db w1) !! k = None) by apply next_key_fresh.
  unfold bind, put_db, ret. cbn [fst snd db net service].
  unfold link_sale.
  destruct (truthy cart_id).
  2:{ eexists _, _. split; [reflexivity|]. split; [reflexivity|]. right.
      exists k, row. repeat split; auto. }
  unfold bind, lift. destruct (pk_of_json R cart_id) as [e|key].
  { eexists _, _. split; [reflexivity|]. split; [reflexivity|]. right.
    exists k, row. repeat split; eauto. }
  unfold get_db. cbn [fst snd db net service carts set_payments].
  destruct (carts (db w1) !! key).
  2:{ eexists _, _. split; [reflexivity|]. split; [reflexivity|]. right.
      exists k, row. repeat split; auto. }
  change (sales (set_payments _ (db w1))) with (sales (db w1)).
  destruct (objects_get _ (sales (db w1))) as [e|[sale_id s]].
  - destruct e;
      (eexists _, _; split; [reflexivity|]; split; [reflexivity|]; right;
       exists k, row; repeat split; eauto).
  - unfold save_payment. rewrite not_null_set_sale, Hnn.
    unfold bind, get_db, put_db. cbn [fst snd db net service payments].
    eexists _, _. split; [reflexivity|]. split; [reflexivity|]. right.
    exists k, (MPesaPayment.set_updated_at (now env)
                 (MPesaPayment.set_sale (Some sale_id) row)).
    split; [exact Hfresh|]. split.
    { unfold set_payments. cbn. rewrite insert_insert_eq. reflexivity. }
    repeat split; auto.
Qed.

Lemma initiate_spec req w :
  exists resp evs w',
    initiate_mpesa_payment R env cfg req w = (inr resp, w') /\
    net w' = net w ++ evs /\
    initiate_outcome R env req w resp evs w'.
Proof.
  unfold initiate_mpesa_payment.
  destruct (String.eqb (method req) "POST") eqn:Em.
  2:{ refuse. intros; congruence. }
  unfold try_catch, initiate_body.
  destruct (body req) as [| |data] eqn:Eb.
  { refuse. intros _ d f Hd; congruence. }
  { refuse. intros _ d f Hd; congruence. }
  unfold bind at 1, lift at 1.
  destruct (initiate_fields data) as [e|[[[phone amount] cart_id] reference]] eqn:Ef.
  { refuse. intros _ d f Hd Hf; congruence. }
  destruct (String.eqb phone "") eqn:Eph.
  { refuse. reflexivity. }
  destruct (truthy amount) eqn:Et; cbn [negb].
  2:{ refuse. reflexivity. }
  destruct (py_float R amount) as [e|f] eqn:Efl.
  { destruct (py_float_error _ _ Efl) as [->| ->]; cbn; refuse; reflexivity. }
  destruct (float_le_zero f) eqn:Ele.
  { refuse. reflexivity. }
  unfold bind at 1, put_service at 1.
  set (w0 := mkWorld (db w) (net w) (MPesaService_init cfg)).
  set (ref := if truthy cart_id then _ else reference).
  unfold bind at 1.
  destruct (validate_amount R (JFloat f)) as [e|n] eqn:Ev.
  { rewrite (stk_push_invalid_amount R env _ _ _ _ w0 e Ev).
    destruct (failure_of_failure e) as [err ->]. refuse. reflexivity. }
  destruct (format_phone_number phone) as [e|formatted] eqn:Efp.
  { rewrite (stk_push_invalid_phone R env (JStr phone) _ _ _ w0 n e Ev Efp).
    destruct (failure_of_failure e) as [err ->]. refuse. reflexivity. }
  assert (Hav : amount_valid R amount = true).
  { unfold amount_valid. rewrite Et, Efl, Ele, Ev. reflexivity. }
  assert (Hpv : phone_valid phone = true).
  { unfold phone_valid. rewrite Eph, Efp. reflexivity. }
  destruct (initiate_stk_push_spec R env (JStr phone) (JFloat f) ref
              "Payment for goods/services" w0)
    as (res & evs & Hfst & Hdb & Hnet & Hcases & _ & _).
  destruct (initiate_stk_push R env (JStr phone) (JFloat f) ref
              "Payment for goods/services" w0) as [x w1].
  cbn [fst snd] in Hfst, Hdb, Hnet. subst x.
  change (db w0) with (db w) in Hdb. change (net w0) with (net w) in Hnet.
  destruct Hcases as [[Hnone [err ->]]|(payload & Hone & Hpayload & Hres)].
  { eexists _, evs, _. split; [reflexivity|]. split; [exact Hnet|].
    right. exists data, phone, amount, cart_id, reference.
    do 4 (split; [assumption || reflexivity|]). left.
    split; [exact Hdb|]. split; [eauto|]. intros p Hp. rewrite Hnone in Hp. destruct Hp. }
  destruct Hpayload as (_ & Hparty & Hphone & _ & _). cbn [py_str] in Hparty.
  rewrite Efp in Hparty. injection Hparty as Hparty. rewrite Hparty in Efp.
  destruct res as [checkout merchant message code description|err].
  2:{ eexists _, evs, _. split; [reflexivity|]. split; [exact Hnet|].
      right. exists data, phone, amount, cart_id, reference.
      do 4 (split; [assumption || reflexivity|]). left.
      split; [exact Hdb|]. split; [eauto|].
      intros p Hp. rewrite Hone in Hp. destruct Hp as [<-|[]]. exact Hres. }
  destruct Hres as (reply & _ & Hacc & _ & _).
  destruct (create_and_link phone f checkout merchant message cart_id w1)
    as (resp & w' & Hrun & Hnet' & Hrow).
  rewrite Hrun. rewrite Hdb in Hrow.
  assert (Hnet'' : net w' = net w ++ evs) by (rewrite Hnet'; exact Hnet).
  destruct Hrow as [[Hsame [e ->]]|(k & row & Hfresh & Hdb' & Hst & Hph & Hresp)].
  { eexists _, evs, _. split; [reflexivity|]. split; [exact Hnet''|].
    right. exists data, phone, amount, cart_id, reference.
    do 4 (split; [assumption || reflexivity|]). right.
    exists payload. do 4 (split; [assumption|]). left. split; [exact Hsame|eauto]. }
  destruct Hresp as [[e ->]| ->].
  - eexists _, evs, _. split; [reflexivity|]. split; [exact Hnet''|].
    right. exists data, phone, amount, cart_id, reference.
    do 4 (split; [assumption || reflexivity|]). right.
    exists payload. do 4 (split; [assumption|]). right.
    exists k, row. do 4 (split; [assumption|]). left. eauto.
  - eexists _, evs, _. split; [reflexivity|]. split; [exact Hnet''|].
    right. exists data, phone, amount, cart_id, reference.
    do 4 (split; [assumption || reflexivity|]). right.
    exists payload. do 4 (split; [assumption|]). right.
    exists k, row. do 4 (split; [assumption|]). right. eauto.
Qed.

End InitiationCases.

Section Initiation.
Context (R : Runtime) (env : Env) (cfg : MPesaConfig).

(** C4: [initiate_mpesa_payment] raises nothing, and of the calls [evs] it
    adds to the network log: (1) on a POST whose fields can be read, an
    amount or a phone that fails validation (in the view or in the client)
    is answered with status 400, with no call made and the database
    unchanged; (2) a push that the provider did not accept is answered with
    status 400 and leaves the database unchanged; (3) the database changes in
    one way only: one push was made, the provider accepted it, and one
    payment row, of status [pending], entered under a key not in use. *)
Theorem initiation_atomicity req w :
  exists resp evs,
    fst (initiate_mpesa_payment R env cfg req w) = inr resp /\
    net (snd (initiate_mpesa_payment R env cfg req w)) = net w ++ evs /\
    (forall data phone amount cart_id reference,
       String.eqb (method req) "POST" = true ->
       body req = Parsed data ->
       initiate_fields data = inr (phone, amount, cart_id, reference) ->
       amount_valid R amount = false \/ phone_valid phone = false ->
       evs = [] /\
       db (snd (initiate_mpesa_payment R env cfg req w)) = db w /\
       exists m, resp = mkResponse 400 (InitFailure m)) /\
    (forall payload,
       In payload (pushes evs) -> accepted (stk_reply env payload) = false ->
       db (snd (initiate_mpesa_payment R env cfg req w)) = db w /\
       exists m, resp = mkResponse 400 (InitFailure m)) /\
    (db (snd (initiate_mpesa_payment R env cfg req w)) = db w \/
     exists payload k row,
       pushes evs = [payload] /\ accepted (stk_reply env payload) = true /\
       payments (db w) !! k = None /\
       db (snd (initiate_mpesa_payment R env cfg req w))
       = set_payments (<[k := row]> (payments (db w))) (db w) /\
       MPesaPayment.status row = pending).
Proof.
  destruct (initiate_spec R env cfg req w) as (resp & evs & w' & Hrun & Hnet & Hout).
  rewrite Hrun. cbn [fst snd]. exists resp, evs.
  split; [reflexivity|]. split; [exact Hnet|].
  destruct Hout as [(-> & Hdb & st & m & -> & Hst)
                   |(data & phone & amount & cart_id & reference & Hb & Hf & Hav & Hpv & Hout)].
  - split; [|split].
    + intros data phone amount cart_id reference Hm Hbody Hfields _.
      rewrite (Hst _ _ Hm Hbody Hfields). eauto.
    + intros payload [].
    + left. exact Hdb.
  - split; [|split].
    + intros data' phone' amount' cart_id' reference' _ Hbody Hfields Hinvalid.
      rewrite Hb in Hbody. injection Hbody as <-.
      rewrite Hf in Hfields. injection Hfields as <- <- <- <-.
      destruct Hinvalid; congruence.
    + intros payload Hin Hno.
      destruct Hout as [(Hdb & Hm & _)|(payload' & Hone & Hacc & _)]; [auto|].
      rewrite Hone in Hin. destruct Hin as [<-|[]]. congruence.
    + destruct Hout as [(Hdb & _)|(payload & Hone & Hacc & _ & _ & Hrow)]; [auto|].
      destruct Hrow as [(Hdb & _)|(k & row & Hfresh & Hdb & Hst & _)]; [auto|].
      right. exists payload, k, row. auto.
Qed.

(** C6 (as amended): after an initiation answered with success and payment
    id [k], the row under [k] is [pending] and its phone is the
    [phone_number] of the request with the blanks at its ends stripped, as
    the caller gave it; the canonical form that [format_phone_number] makes
    of it goes to the provider only, as [PartyA] and [PhoneNumber] of the
    one push. *)
Theorem initiation_stores_submitted_phone data sk w phone amount cart_id reference
    st checkout message k m :
  initiate_fields data = inr (phone, amount, cart_id, reference) ->
  fst (initiate_mpesa_payment R env cfg (mkRequest "POST" (Parsed data) sk) w)
  = inr (mkResponse st (InitSuccess checkout message k m)) ->
  (exists raw, py_get data "phone_number" (JStr "") = inr (JStr raw) /\
               phone = strip raw) /\
  (exists row,
     payments (db (snd (initiate_mpesa_payment R env cfg
                          (mkRequest "POST" (Parsed data) sk) w))) !! k = Some row /\
     MPesaPayment.phone_number row = phone /\
     MPesaPayment.status row = pending) /\
  (exists evs payload,
     net (snd (initiate_mpesa_payment R env cfg (mkRequest "POST" (Parsed data) sk) w))
     = net w ++ evs /\
     pushes evs = [payload] /\
     format_phone_number phone = inr (PartyA payload) /\
     PhoneNumber payload = PartyA payload).
Proof.
  intros Hf Hresp.
  split.
  { revert Hf. unfold initiate_fields, exc_bind.
    destruct (py_get data "phone_number" (JStr "")) as [e|raw]; [discriminate|].
    destruct raw as [| | | |s| |]; simpl; try discriminate.
    destruct (py_get data "amount" JNull); [discriminate|].
    destruct (py_get data "cart_id" JNull); [discriminate|].
    destruct (py_get data "reference" (JStr "POS Payment")); [discriminate|].
    intros [= <- _ _ _]. eauto. }
  destruct (initiate_spec R env cfg (mkRequest "POST" (Parsed data) sk) w)
    as (resp & evs & w' & Hrun & Hnet & Hout).
  rewrite Hrun in Hresp |- *. cbn [fst snd] in Hresp |- *. injection Hresp as ->.
  destruct Hout as [(_ & _ & st' & m' & Habs & _)
                   |(data' & phone' & amount' & cart_id' & reference' & Hb & Hf' & _ & _ & Hout)];
    [discriminate|].
  cbn [body] in Hb. injection Hb as <-. rewrite Hf in Hf'. injection Hf' as <- <- <- <-.
  destruct Hout as [(_ & [m' Habs] & _)|(payload & Hone & _ & Hparty & Hphone & Hrow)];
    [discriminate|].
  destruct Hrow as [(_ & [m' Habs])|(k' & row & _ & Hdb & Hst & Hph & Hresp)];
    [discriminate|].
  destruct Hresp as [[m' Habs]|(checkout' & message' & Hok)]; [discriminate|].
  injection Hok as -> -> -> -> ->.
  split.
  - exists row. rewrite Hdb. cbn. rewrite lookup_insert_eq. auto.
  - exists evs, payload. auto.
Qed.

End Initiation.

(** ** Stock *)

Section StockMovements.
Context (env : Env).

Lemma update_stock_movements items : forall w,
  movements (db (snd (update_stock items w))) = movements (db w).
Proof.
  induction items as [|[k item] rest IH]; intros w; [reflexivity|].
  cbn [update_stock]. unfold bind at 1, get_db at 1.
  destruct (products (db w) !! CartItem.product item) as [product|]; [|reflexivity].
  unfold bind at 1, save_product at 1, bind at 1, get_db at 1, put_db at 1.
  cbn [fst snd]. rewrite IH. reflexivity.
Qed.

Lemma get_cart_movements req w :
  movements (db (snd (get_cart env req w))) = movements (db w).
Proof.
  unfold get_cart, bind, get_db.
  destruct (objects_get _ (carts (db w))) as [e|found]; [|reflexivity].
  destruct e; reflexivity.
Qed.

Lemma create_sale_movements cart_id total payment_method w :
  movements (db (snd (create_sale cart_id total payment_method w))) = movements (db w).
Proof.
  unfold create_sale, bind, get_db.
  destruct (Sale.not_null _); [|reflexivity].
  destruct (objects_filter _ (sales (db w))); reflexivity.
Qed.

(** [checkout] writes no stock movement, whatever it decrements. *)
Lemma checkout_keeps_movements req w :
  movements (db (snd (checkout env req w))) = movements (db w).
Proof.
  unfold checkout.
  destruct (String.eqb (method req) "POST"); [|reflexivity].
  unfold bind at 1.
  destruct (body req) as [| |data]; [reflexivity|reflexivity|].
  unfold ret at 1. unfold bind at 1, lift at 1.
  destruct (py_get data "payment_method" (JStr "cash")) as [e|payment_method];
    [reflexivity|].
  unfold bind at 1.
  pose proof (get_cart_movements req w) as Hcart.
  destruct (get_cart env req w) as [[e|cart] w1]; cbn [snd] in Hcart; [exact Hcart|].
  unfold bind at 1, get_db at 1. unfold bind at 1.
  pose proof (create_sale_movements (fst cart)
                (cart_total (cart_items_of (fst cart) (db w1))) payment_method w1) as Hsale.
  destruct (create_sale _ _ _ w1) as [[e|sale_id] w2]; cbn [snd] in Hsale;
    [cbn [snd]; congruence|].
  unfold bind at 1, get_db at 1. unfold bind at 1.
  pose proof (update_stock_movements (cart_items_of (fst cart) (db w2)) w2) as Hstock.
  destruct (update_stock _ w2) as [[e|u] w3]; cbn [snd] in Hstock; [cbn [snd]; congruence|].
  cbn. congruence.
Qed.

(** [remove_stock] on a quantity in stock writes the movement, with the
    count before and the count after. *)
Lemma remove_stock_records k self quantity reason user w :
  quantity <= Product.stock self ->
  remove_stock k self quantity reason user w =
  (inr (Product.stock self - quantity,
        Product.set_stock (Product.stock self - quantity) self),
   mkWorld
     (set_movements
        (<[next_key (movements (db w)) :=
             StockMovement.mk k "out" quantity (Product.stock self)
                              (Product.stock self - quantity) reason user]>
           (movements (db w)))
        (set_products
           (<[k := Product.set_stock (Product.stock self - quantity) self]>
              (products (db w)))
           (db w)))
     (net w) (service w)).
Proof.
  intros H. unfold remove_stock.
  destruct (Z.ltb_spec (Product.stock self) quantity); [lia|]. reflexivity.
Qed.

End StockMovements.

(** * Further properties of the code *)

(** ** The shape of a formatted phone number *)

Lemma chars_of_chars l : chars (of_chars l) = l.
Proof. apply list_ascii_of_string_of_list_ascii. Qed.

Lemma chars_append a b : chars (a +:+ b) = chars a ++ chars b.
Proof.
  induction a as [|c a IH]; simpl; [reflexivity|].
  unfold chars in *. simpl. rewrite IH. reflexivity.
Qed.

Lemma startswith_254 s :
  startswith s "254" = true -> exists rest, s = "254" +:+ rest.
Proof.
  unfold startswith. destruct s as [|a [|b [|c rest]]]; cbn [String.prefix];
    try discriminate.
  - destruct (ascii_dec "2" a); discriminate.
  - destruct (ascii_dec "2" a); [|discriminate]. destruct (ascii_dec "5" b); discriminate.
  - destruct (ascii_dec "2" a) as [<-|]; [|discriminate].
    destruct (ascii_dec "5" b) as [<-|]; [|discriminate].
    destruct (ascii_dec "4" c) as [<-|]; [|discriminate].
    intros _. exists rest. reflexivity.
Qed.

Lemma forallb_filter_self {A} (f : A -> bool) l : forallb f (List.filter f l) = true.
Proof.
  induction l as [|x l IH]; simpl; [reflexivity|].
  destruct (f x) eqn:E; simpl; [rewrite E|]; auto.
Qed.

Lemma filter_all {A} (f : A -> bool) l : forallb f l = true -> List.filter f l = l.
Proof.
  induction l as [|x l IH]; simpl; [reflexivity|].
  destruct (f x); simpl; [|discriminate]. intros H. rewrite IH; auto.
Qed.

Lemma forallb_drop {A} (f : A -> bool) n l :
  forallb f l = true -> forallb f (drop n l) = true.
Proof.
  revert l. induction n as [|n IH]; intros [|x l]; simpl; auto.
  intros H. apply andb_prop in H as [_ H]. auto.
Qed.

(** Whatever number is accepted comes out as 254 followed by digits. *)
Lemma format_phone_number_inr phone s :
  format_phone_number phone = inr s ->
  exists rest, s = "254" +:+ rest /\ forallb isdigit (chars rest) = true.
Proof.
  unfold format_phone_number, str_filter.
  set (l := List.filter isdigit (chars phone)).
  assert (Hl : forallb isdigit l = true) by apply forallb_filter_self.
  destruct (startswith (of_chars l) "0") eqn:E0.
  { intros [= <-]. eexists. split; [reflexivity|].
    unfold str_drop. rewrite !chars_of_chars. apply forallb_drop, Hl. }
  destruct (startswith (of_chars l) "254") eqn:E254.
  { intros [= <-]. destruct (startswith_254 _ E254) as [rest Hrest].
    exists rest. split; [exact Hrest|].
    assert (H : chars (of_chars l) = chars ("254" +:+ rest)) by (rewrite Hrest; reflexivity).
    rewrite chars_of_chars in H. rewrite H in Hl. simpl in Hl. exact Hl. }
  destruct ((String.length (of_chars l) =? 9)%nat && startswith (of_chars l) "7");
    [|discriminate].
  intros [= <-]. eexists. split; [reflexivity|]. rewrite chars_of_chars. exact Hl.
Qed.

(** X1: whenever [format_phone_number] accepts its argument, the result
    begins with 254, consists of digits only and has at least three of
    them, whatever separators, signs or letters the argument held. *)
Theorem format_phone_number_canonical phone s :
  format_phone_number phone = inr s ->
  startswith s "254" = true /\
  forallb isdigit (chars s) = true /\
  (3 <= String.length s)%nat.
Proof.
  intros H. destruct (format_phone_number_inr _ _ H) as (rest & -> & Hd).
  split; [|split].
  - unfold startswith. cbn. destruct rest; reflexivity.
  - rewrite chars_append. cbn. exact Hd.
  - change (3 <= S (S (S (String.length rest))))%nat. lia.
Qed.

(** X2: [format_phone_number] is idempotent: a number it returned is
    accepted again and returned unchanged. *)
Theorem format_phone_number_idempotent phone s :
  format_phone_number phone = inr s -> format_phone_number s = inr s.
Proof.
  intros H. destruct (format_phone_number_inr _ _ H) as (rest & -> & Hd).
  unfold format_phone_number, str_filter.
  assert (Hf : List.filter isdigit (chars ("254" +:+ rest)) = chars ("254" +:+ rest)).
  { apply filter_all. rewrite chars_append. simpl. exact Hd. }
  rewrite Hf. unfold of_chars, chars. rewrite string_of_list_ascii_of_string.
  assert (E0 : startswith ("254" +:+ rest) "0" = false) by reflexivity.
  assert (E254 : startswith ("254" +:+ rest) "254" = true).
  { unfold startswith. cbn. destruct rest; reflexivity. }
  rewrite E0, E254. reflexivity.
Qed.

(** X3: a character that is not a digit, anywhere in the argument, changes
    neither the result nor the error of [format_phone_number]. *)
Theorem format_phone_number_ignores_separators (a b : string) (c : ascii) :
  isdigit c = false ->
  format_phone_number (a +:+ String c b) = format_phone_number (a +:+ b).
Proof.
  intros Hc. unfold format_phone_number, str_filter.
  assert (E : List.filter isdigit (chars (a +:+ String c b))
              = List.filter isdigit (chars (a +:+ b))).
  { rewrite !chars_append, !List.filter_app. f_equal.
    change (chars (String c b)) with (c :: chars b). simpl. rewrite Hc. reflexivity. }
  rewrite E. reflexivity.
Qed.

(** ** The access token *)

Section Token.
Context (R : Runtime).

(** [get_access_token], run: the request is logged, and the service object
    changes when the reply holds a token and only then. *)
Lemma get_access_token_run env w :
  get_access_token R env w =
  match oauth_reply env with
  | Reply data =>
      match py_getitem data "access_token" with
      | inr token =>
          (inr token,
           mkWorld (db w) (net w ++ [oauth_request R (service w)])
                   (mkService (config (service w)) (environment (service w))
                              (base_url (service w)) token (Some (now env + 3500))))
      | inl e => (inl e, mkWorld (db w) (net w ++ [oauth_request R (service w)]) (service w))
      end
  | _ => (inl (PlainException "Failed to connect to M-Pesa"),
          mkWorld (db w) (net w ++ [oauth_request R (service w)]) (service w))
  end.
Proof.
  unfold get_access_token, bind, get_service, emit, lift, oauth_request.
  cbn [fst snd db net service].
  destruct (oauth_reply env) as [| |data]; [reflexivity|reflexivity|].
  destruct (py_getitem data "access_token"); reflexivity.
Qed.

(** X4: [get_access_token] sends exactly one token request, with the Basic
    credentials of the configuration, and never touches the database.  A
    token is returned only from a reply that holds the key [access_token];
    it is stored with an expiry 3500 seconds ahead.  On any failure the
    service object keeps the token it had: a failure of the transport or a
    body that is not JSON is raised as the plain [Exception], a reply without
    the key as the error of the subscript, unwrapped. *)
Theorem get_access_token_effects env w :
  db (snd (get_access_token R env w)) = db w /\
  net (snd (get_access_token R env w)) = net w ++ [oauth_request R (service w)] /\
  match fst (get_access_token R env w) with
  | inr token =>
      (exists data, oauth_reply env = Reply data /\
                    py_getitem data "access_token" = inr token) /\
      service (snd (get_access_token R env w))
      = mkService (config (service w)) (environment (service w)) (base_url (service w))
                  token (Some (now env + 3500))
  | inl e =>
      service (snd (get_access_token R env w)) = service w /\
      match oauth_reply env with
      | Reply data => py_getitem data "access_token" = inl e
      | _ => e = PlainException "Failed to connect to M-Pesa"
      end
  end.
Proof.
  rewrite get_access_token_run.
  destruct (oauth_reply env) as [| |data] eqn:Ho; cbn [fst snd db net service].
  - repeat split; reflexivity.
  - repeat split; reflexivity.
  - destruct (py_getitem data "access_token") as [e|token] eqn:E;
      cbn [fst snd db net service].
    + repeat split; reflexivity.
    + split; [reflexivity|]. split; [reflexivity|]. split; [|reflexivity].
      exists data. split; [reflexivity|exact E].
Qed.

(** X5: the token is cached.  After a call of [get_access_token] that
    returned a token, [_ensure_token] returns that token without any call and
    without any change, as long as the token is a true value and fewer than
    3500 seconds have passed; from the 3500th second on, or when the token
    granted is a false value (the empty string), it asks for a new one. *)
Theorem token_cached_until_expiry env env' w token :
  fst (get_access_token R env w) = inr token ->
  (truthy token = true -> now env' < now env + 3500 ->
   _ensure_token R env' (snd (get_access_token R env w))
   = (inr token, snd (get_access_token R env w))) /\
  (truthy token = false \/ now env + 3500 <= now env' ->
   _ensure_token R env' (snd (get_access_token R env w))
   = get_access_token R env' (snd (get_access_token R env w))).
Proof.
  rewrite get_access_token_run.
  destruct (oauth_reply env) as [| |data]; try discriminate.
  destruct (py_getitem data "access_token") as [e|t]; [discriminate|].
  cbn [fst snd]. intros [= ->].
  unfold _ensure_token, bind, get_service. cbn [fst snd service access_token token_expiry].
  split.
  - intros -> Hlt. cbn. destruct (Z.leb_spec (now env + 3500) (now env')); [lia|].
    reflexivity.
  - intros [-> | Hle]; [reflexivity|].
    destruct (Z.leb_spec (now env + 3500) (now env')); [|lia].
    rewrite orb_true_r. reflexivity.
Qed.

Lemma ensure_token_service env w :
  config (service (snd (_ensure_token R env w))) = config (service w) /\
  base_url (service (snd (_ensure_token R env w))) = base_url (service w).
Proof.
  unfold _ensure_token, bind, get_service. cbn [fst snd].
  destruct (negb (truthy (access_token (service w))) || _); [|split; reflexivity].
  rewrite get_access_token_run.
  destruct (oauth_reply env) as [| |data]; try (split; reflexivity).
  destruct (py_getitem data "access_token"); split; reflexivity.
Qed.

End Token.

(** ** The calls of one initiation *)

Section TokenPerRequest.
Context (R : Runtime) (env : Env) (cfg : MPesaConfig).

Lemma stk_push_events phone_number amount reference description w :
  access_token (service w) = JNull ->
  exists evs,
    net (snd (initiate_stk_push R env phone_number amount reference description w))
    = net w ++ evs /\
    fresh_token_calls R env (service w) evs.
Proof.
  intros Hnull.
  unfold initiate_stk_push, try_catch, stk_push_body, bind, lift.
  destruct (validate_amount R amount) as [e|n].
  { exists []. rewrite app_nil_r. split; [reflexivity|left; reflexivity]. }
  destruct (format_phone_number (py_str R phone_number)) as [e|formatted].
  { exists []. rewrite app_nil_r. split; [reflexivity|left; reflexivity]. }
  unfold _ensure_token, bind, get_service. cbn [fst snd]. rewrite Hnull. cbn [truthy negb orb].
  unfold get_access_token, bind, get_service, emit, lift. cbn [fst snd db net service].
  destruct (oauth_reply env) as [| |data] eqn:Ho; cbn [fst snd db net service].
  { eexists. split; [reflexivity|]. right; left; reflexivity. }
  { eexists. split; [reflexivity|]. right; left; reflexivity. }
  destruct (py_getitem data "access_token") as [e|token] eqn:Ht; cbn [fst snd db net service].
  { eexists. split; [reflexivity|]. right; left; reflexivity. }
  unfold put_service, ret. cbn [fst snd db net service config base_url].
  destruct (_generate_password R env _) as [password timestamp].
  destruct (py_prefix 12 reference) as [e|account_reference].
  { eexists. split; [reflexivity|]. right; left; reflexivity. }
  cbn [fst snd db net service config base_url].
  set (payload := mkPayload _ _ _ _ _ _ _ _ _ _ _).
  assert (Hshape : forall x : World,
            net x = (net w ++ [oauth_request R (service w)]) ++
                    [StkPushRequest
                       (base_url (service w) +:+ "/mpesa/stkpush/v1/processrequest")
                       ("Bearer " +:+ py_str R token) payload] ->
            exists evs, net x = net w ++ evs /\ fresh_token_calls R env (service w) evs).
  { intros x Hx. eexists. split; [rewrite Hx, <- app_assoc; reflexivity|].
    right; right. exists data, token, payload. auto. }
  destruct (stk_reply env payload) as [| |reply]; cbn [fst snd];
    try (apply Hshape; reflexivity).
  destruct (py_get reply "ResponseCode" JNull) as [e1|code]; cbn [fst snd];
    try (apply Hshape; reflexivity).
  destruct (py_get reply "ResponseDescription" JNull) as [e2|rd]; cbn [fst snd];
    try (apply Hshape; reflexivity).
  destruct (eq_str code "0"); cbn [fst snd]; try (apply Hshape; reflexivity).
  destruct (py_get reply "CheckoutRequestID" JNull) as [e3|c]; cbn [fst snd];
    try (apply Hshape; reflexivity).
  destruct (py_get reply "MerchantRequestID" JNull) as [e4|m]; cbn [fst snd];
    try (apply Hshape; reflexivity).
  destruct (py_get reply "CustomerMessage" JNull) as [e5|msg]; cbn [fst snd];
    apply Hshape; reflexivity.
Qed.

(** X6: the initiation view builds a new service object for every request,
    so a token granted to an earlier request is never used again: the calls
    one request adds to the log are none, or the token request alone, or the
    token request followed by one push that carries, as Bearer, the token of
    that very reply.  No push leaves without a token request before it. *)
Theorem initiation_fetches_token_per_request req w :
  exists evs,
    net (snd (initiate_mpesa_payment R env cfg req w)) = net w ++ evs /\
    fresh_token_calls R env (MPesaService_init cfg) evs.
Proof.
  assert (Hnone : forall x : World, net x = net w ->
            exists evs, net x = net w ++ evs /\
                        fresh_token_calls R env (MPesaService_init cfg) evs).
  { intros x Hx. exists []. rewrite app_nil_r. split; [exact Hx|left; reflexivity]. }
  unfold initiate_mpesa_payment.
  destruct (String.eqb (method req) "POST"); [|apply Hnone; reflexivity].
  unfold try_catch, initiate_body.
  destruct (body req) as [| |data]; try (apply Hnone; reflexivity).
  unfold bind at 1, lift at 1.
  destruct (initiate_fields data) as [e|[[[phone amount] cart_id] reference]];
    [apply Hnone; reflexivity|].
  destruct (String.eqb phone ""); [apply Hnone; reflexivity|].
  destruct (truthy amount); cbn [negb]; [|apply Hnone; reflexivity].
  destruct (py_float R amount) as [e|f] eqn:Efl.
  { destruct (py_float_error _ _ _ Efl) as [->| ->]; cbn; apply Hnone; reflexivity. }
  destruct (float_le_zero f); [apply Hnone; reflexivity|].
  unfold bind at 1, put_service at 1.
  set (w0 := mkWorld (db w) (net w) (MPesaService_init cfg)).
  set (ref := if truthy cart_id then _ else reference).
  unfold bind at 1.
  destruct (stk_push_events (JStr phone) (JFloat f) ref "Payment for goods/services" w0
              eq_refl) as (evs & Hnet & Hshape).
  destruct (initiate_stk_push_spec R env (JStr phone) (JFloat f) ref
              "Payment for goods/services" w0) as (res & _ & Hfst & _).
  destruct (initiate_stk_push R env (JStr phone) (JFloat f) ref
              "Payment for goods/services" w0) as [x w1].
  cbn [fst snd] in Hfst, Hnet. subst x. change (net w0) with (net w) in Hnet.
  change (service w0) with (MPesaService_init cfg) in Hshape.
  destruct res as [checkout merchant message code description|err].
  2:{ exists evs. split; [exact Hnet|exact Hshape]. }
  destruct (create_and_link R env phone f checkout merchant message cart_id w1)
    as (resp & w' & Hrun & Hnet' & _).
  rewrite Hrun. exists evs. split; [|exact Hshape].
  destruct resp; simpl; rewrite Hnet'; exact Hnet.
Qed.

End TokenPerRequest.

(** ** What a push carries *)

Section PushPayload.
Context (R : Runtime) (env : Env).

(** X7: every push that [initiate_stk_push] sends goes to the push address
    of the service object, names the short code of the configuration as
    [BusinessShortCode] and as [PartyB], carries the callback address of the
    configuration, the stamp of the request and, as [Password], the encoding
    of short code, pass key and that same stamp; its amount is at least 1 and
    its [PartyA] and [PhoneNumber] are one number, 254 followed by digits. *)
Theorem push_is_signed_and_addressed phone_number amount reference description w
    url auth payload :
  In (StkPushRequest url auth payload)
     (net (snd (initiate_stk_push R env phone_number amount reference description w))) ->
  In (StkPushRequest url auth payload) (net w) \/
  (signed_by R env (service w) url payload /\
   1 <= Amount payload /\
   PhoneNumber payload = PartyA payload /\
   exists rest, PartyA payload = ("254" +:+ rest)%string /\
                forallb isdigit (chars rest) = true).
Proof.
  unfold initiate_stk_push, try_catch, stk_push_body, bind, lift.
  destruct (validate_amount R amount) as [e|n] eqn:Ha; [cbn; auto|].
  destruct (format_phone_number (py_str R phone_number)) as [e|formatted] eqn:Hp;
    [cbn; auto|].
  destruct (ensure_token_effect R env w) as (evs & _ & Hnet & Hpush).
  destruct (ensure_token_service R env w) as [Hcfg Hurl].
  destruct (_ensure_token R env w) as [[e|token] w1]; cbn [fst snd] in Hnet, Hcfg, Hurl.
  { cbn. rewrite Hnet. intros Hin. apply in_app_or in Hin as [Hin|Hin]; [auto|].
    apply in_pushes in Hin. rewrite Hpush in Hin. destruct Hin. }
  unfold get_service. cbn [fst snd].
  unfold _generate_password. rewrite Hcfg, Hurl.
  assert (Hold : forall w', net w' = net w1 ->
            In (StkPushRequest url auth payload) (net w') ->
            In (StkPushRequest url auth payload) (net w) \/
            (signed_by R env (service w) url payload /\ 1 <= Amount payload /\
             PhoneNumber payload = PartyA payload /\
             exists rest, PartyA payload = ("254" +:+ rest)%string /\
                          forallb isdigit (chars rest) = true)).
  { intros w' Hw' Hin. rewrite Hw', Hnet in Hin.
    apply in_app_or in Hin as [Hin|Hin]; [auto|].
    apply in_pushes in Hin. rewrite Hpush in Hin. destruct Hin. }
  destruct (py_prefix 12 reference) as [e|account_reference];
    [apply Hold; reflexivity|].
  unfold emit. cbn [fst snd db net service].
  set (sent := mkPayload _ _ _ _ _ _ _ _ _ _ _).
  set (ev := StkPushRequest _ _ sent).
  assert (Hnew : forall w', net w' = net w1 ++ [ev] ->
            In (StkPushRequest url auth payload) (net w') ->
            In (StkPushRequest url auth payload) (net w) \/
            (signed_by R env (service w) url payload /\ 1 <= Amount payload /\
             PhoneNumber payload = PartyA payload /\
             exists rest, PartyA payload = ("254" +:+ rest)%string /\
                          forallb isdigit (chars rest) = true)).
  { intros w' Hw' Hin. rewrite Hw' in Hin.
    apply in_app_or in Hin as [Hin|Hin]; [apply (Hold w1 eq_refl Hin)|].
    destruct Hin as [Hin|[]]. right. injection Hin as <- <- <-.
    split; [repeat split|].
    split.
    { cbn. revert Ha. unfold validate_amount, exc_bind.
      destruct (py_float R amount) as [e|f]; [discriminate|].
      destruct (int_of_float f) as [e|z]; [discriminate|].
      destruct (Z.ltb_spec z 1); [discriminate|]. intros [= <-]. assumption. }
    split; [reflexivity|].
    cbn. apply (format_phone_number_inr _ _ Hp). }
  destruct (stk_reply env sent) as [| |reply]; cbn [fst snd]; try (apply Hnew; reflexivity).
  destruct (py_get reply "ResponseCode" JNull) as [e1|code]; cbn [fst snd];
    try (apply Hnew; reflexivity).
  destruct (py_get reply "ResponseDescription" JNull) as [e2|rd]; cbn [fst snd];
    try (apply Hnew; reflexivity).
  destruct (eq_str code "0"); cbn [fst snd]; try (apply Hnew; reflexivity).
  destruct (py_get reply "CheckoutRequestID" JNull) as [e3|cid]; cbn [fst snd];
    try (apply Hnew; reflexivity).
  destruct (py_get reply "MerchantRequestID" JNull) as [e4|mid]; cbn [fst snd];
    try (apply Hnew; reflexivity).
  destruct (py_get reply "CustomerMessage" JNull) as [e5|msg]; cbn [fst snd];
    apply Hnew; reflexivity.
Qed.

End PushPayload.

(** ** The rows the payment views leave *)

Lemma objects_filter_nil {A : Type} (P : A -> bool) (table : gmap Z A) :
  objects_filter P table = [] <-> forall k a, table !! k = Some a -> P a = false.
Proof.
  unfold objects_filter. rewrite map_to_list_empty_iff. split.
  - intros H k a Hk. destruct (P a) eqn:E; [|reflexivity].
    assert (Hin : filter (fun kv : Z * A => P kv.2 = true) table !! k = Some a)
      by (apply map_lookup_filter_Some; auto).
    rewrite H in Hin. rewrite lookup_empty in Hin. discriminate Hin.
  - intros H. apply map_empty. intros k.
    destruct (filter _ table !! k) as [a|] eqn:E; [|reflexivity].
    apply map_lookup_filter_Some in E as [Hk HP]. simpl in HP.
    rewrite (H _ _ Hk) in HP. discriminate HP.
Qed.

Lemma objects_get_none {A : Type} (P : A -> bool) (table : gmap Z A) :
  objects_get P table = inl DoesNotExist <-> objects_filter P table = [].
Proof.
  unfold objects_get. destruct (objects_filter P table) as [|r [|r' l]]; split; congruence.
Qed.

Lemma objects_get_create {A : Type} (P : A -> bool) (table : gmap Z A) k a :
  objects_filter P table = [] -> P a = true ->
  objects_get P (<[k := a]> table) = inr (k, a).
Proof.
  unfold objects_get, objects_filter. intros E Ha.
  apply map_to_list_empty_iff in E.
  rewrite map_filter_insert_True by exact Ha.
  rewrite E, insert_empty, map_to_list_singleton. reflexivity.
Qed.

Lemma pyfloat_eqb_sym a b : pyfloat_eqb a b = pyfloat_eqb b a.
Proof.
  destruct a as [p|x|], b as [q|y|]; try reflexivity; cbn.
  - destruct (Qeq_bool p q) eqn:E1, (Qeq_bool q p) eqn:E2; try reflexivity.
    + apply Qeq_bool_iff in E1. symmetry in E1. apply Qeq_bool_iff in E1. congruence.
    + apply Qeq_bool_iff in E2. symmetry in E2. apply Qeq_bool_iff in E2. congruence.
  - destruct x, y; reflexivity.
Qed.

Fixpoint json_eqb_sym (a b : json) {struct a} : json_eqb a b = json_eqb b a.
Proof.
  destruct a as [|x|x|x|x|l|kv], b as [|y|y|y|y|l'|kv']; try reflexivity; cbn [json_eqb].
  - destruct x, y; reflexivity.
  - apply Z.eqb_sym.
  - apply pyfloat_eqb_sym.
  - apply String.eqb_sym.
  - revert l'. induction l as [|u l IH]; intros [|v l']; try reflexivity.
    rewrite (json_eqb_sym u v), IH. reflexivity.
  - revert kv'. induction kv as [|[j u] kv IH]; intros [|[k v] kv']; try reflexivity.
    rewrite (json_eqb_sym u v), IH, (String.eqb_sym j k). reflexivity.
Qed.

Section PaymentRows.
Context (R : Runtime).

(** What a run of the callback view does to the world: nothing, or one
    stored row overwritten in its result and metadata fields. *)
Lemma mpesa_callback_row env req w a w' :
  mpesa_callback R env req w = (a, w') ->
  w' = w \/
  exists k p p',
    payments (db w) !! k = Some p /\
    w' = mkWorld (set_payments (<[k := p']> (payments (db w))) (db w)) (net w) (service w) /\
    same_attempt p p' /\
    (MPesaPayment.status p' = successful \/ MPesaPayment.status p' = failed) /\
    MPesaPayment.updated_at p' = now env.
Proof.
  rewrite mpesa_callback_cases.
  destruct (String.eqb (method req) "POST"); [|intros [= _ <-]; auto].
  destruct (body req) as [| |data]; try (intros [= _ <-]; auto).
  unfold callback_outcome.
  destruct (callback_details data) as [e|[[[stk cid] rc] desc]]; [intros [= _ <-]; auto|].
  destruct (truthy cid); [|intros [= _ <-]; auto].
  destruct (objects_get _ (payments (db w))) as [e|[k p]] eqn:Hget.
  { destruct e; intros [= _ <-]; auto. }
  destruct (apply_callback R stk rc desc p) as [e|p'] eqn:Happ; [intros [= _ <-]; auto|].
  destruct (MPesaPayment.not_null p'); [|intros [= _ <-]; auto].
  intros [= _ <-]. right.
  apply objects_get_found in Hget as [Hk _].
  destruct (apply_callback_inr _ _ _ _ _ _ Happ) as (r & m & d & -> & _).
  eexists k, p, _. split; [exact Hk|]. split; [reflexivity|].
  split; [destruct p; repeat split; reflexivity|].
  split; [|destruct p; reflexivity].
  destruct (eq_zero rc); destruct p; [left|right]; reflexivity.
Qed.

(** X8: whatever the request, [mpesa_callback] leaves the world as it was
    or overwrites exactly one payment row that was stored: it creates no
    row, deletes none, and writes no other table, no call and nothing of the
    service object.  The row it overwrites keeps its sale, phone number,
    CheckoutRequestID, MerchantRequestID and creation time; its status
    afterwards is [successful] or [failed], never [pending] or [cancelled],
    and [updated_at] is the time of the callback. *)
Theorem callback_rewrites_one_row env req w :
  service (snd (mpesa_callback R env req w)) = service w /\
  net (snd (mpesa_callback R env req w)) = net w /\
  (snd (mpesa_callback R env req w) = w \/
   exists k p p',
     payments (db w) !! k = Some p /\
     db (snd (mpesa_callback R env req w))
     = set_payments (<[k := p']> (payments (db w))) (db w) /\
     same_attempt p p' /\
     (MPesaPayment.status p' = successful \/ MPesaPayment.status p' = failed) /\
     MPesaPayment.updated_at p' = now env).
Proof.
  destruct (mpesa_callback R env req w) as [a w'] eqn:Hrun. cbn [snd].
  apply mpesa_callback_row in Hrun
    as [->|(k & p & p' & Hk & -> & Hsame & Hstatus & Hupd)].
  - auto.
  - split; [reflexivity|]. split; [reflexivity|]. right.
    exists k, p, p'. cbn [db]. auto.
Qed.

Lemma unique_insert_new table k row :
  unique_checkout_ids table ->
  objects_filter (has_checkout_request_id (MPesaPayment.checkout_request_id row)) table = [] ->
  unique_checkout_ids (<[k := row]> table).
Proof.
  intros Huniq Hnone k1 k2 p1 p2 H1 H2 Heq.
  pose proof (proj1 (objects_filter_nil _ _) Hnone) as Hno.
  destruct (decide (k1 = k)) as [->|N1]; destruct (decide (k2 = k)) as [->|N2];
    [reflexivity| | |].
  - rewrite lookup_insert_eq in H1. rewrite lookup_insert_ne in H2 by congruence.
    injection H1 as <-. rewrite (Hno _ _ H2) in Heq. discriminate Heq.
  - rewrite lookup_insert_eq in H2. rewrite lookup_insert_ne in H1 by congruence.
    injection H2 as <-. unfold has_checkout_request_id in Heq.
    rewrite json_eqb_sym in Heq. apply Hno in H1. unfold has_checkout_request_id in H1.
    rewrite H1 in Heq. discriminate Heq.
  - rewrite lookup_insert_ne in H1, H2 by congruence. eapply Huniq; eauto.
Qed.

Lemma unique_insert_same table k old row :
  unique_checkout_ids table -> table !! k = Some old ->
  MPesaPayment.checkout_request_id row = MPesaPayment.checkout_request_id old ->
  unique_checkout_ids (<[k := row]> table).
Proof.
  intros Huniq Hk Hid k1 k2 p1 p2 H1 H2 Heq.
  destruct (decide (k1 = k)) as [->|N1]; destruct (decide (k2 = k)) as [->|N2];
    [reflexivity| | |].
  - rewrite lookup_insert_eq in H1. rewrite lookup_insert_ne in H2 by congruence.
    injection H1 as <-. rewrite Hid in Heq. eapply Huniq; eauto.
  - rewrite lookup_insert_eq in H2. rewrite lookup_insert_ne in H1 by congruence.
    injection H2 as <-. unfold has_checkout_request_id in Heq. rewrite Hid in Heq.
    eapply Huniq; eauto.
  - rewrite lookup_insert_ne in H1, H2 by congruence. eapply Huniq; eauto.
Qed.

(** The payment table after the creation of the row and the attempt to link
    it, whatever the outcome: as before, or with one row more whose
    identifier no stored row had. *)
Lemma create_and_link_table env phone amount checkout merchant message cart_id w1 resp w' :
  bind (create_payment env phone amount checkout merchant)
    (fun created =>
       bind (link_sale R env cart_id (fst created) (snd created))
         (fun _ => ret (mkResponse 200
                          (InitSuccess checkout message (fst created) MsgInitiated))))
    w1 = (resp, w') ->
  payments (db w') = payments (db w1) \/
  exists k row,
    objects_filter (has_checkout_request_id (MPesaPayment.checkout_request_id row))
                   (payments (db w1)) = [] /\
    payments (db w') = <[k := row]> (payments (db w1)).
Proof.
  unfold create_payment, bind at 1 2, get_db. cbn [fst snd].
  destruct (MPesaPayment.not_null _) eqn:Hnn; [|intros [= <- <-]; left; reflexivity].
  destruct (objects_filter _ (payments (db w1))) as [|x l] eqn:Hnone;
    [|intros [= <- <-]; left; reflexivity].
  unfold objects_create. cbn [fst snd].
  set (k := next_key (payments (db w1))).
  unfold bind, put_db, ret. cbn [fst snd db net service].
  unfold link_sale.
  destruct (truthy cart_id).
  2:{ intros [= <- <-]. right. eexists k, _. split; [|reflexivity]. exact Hnone. }
  unfold bind, lift. destruct (pk_of_json R cart_id) as [e|key].
  { intros [= <- <-]. right. eexists k, _. split; [|reflexivity]. exact Hnone. }
  unfold get_db. cbn [fst snd db net service carts set_payments].
  destruct (carts (db w1) !! key).
  2:{ intros [= <- <-]. right. eexists k, _. split; [|reflexivity]. exact Hnone. }
  change (sales (set_payments _ (db w1))) with (sales (db w1)).
  destruct (objects_get _ (sales (db w1))) as [e|[sale_id sl]].
  - destruct e; intros [= <- <-]; right; eexists k, _;
      (split; [|reflexivity]); exact Hnone.
  - unfold save_payment. rewrite not_null_set_sale, Hnn.
    unfold bind, get_db, put_db. cbn [fst snd db net service payments].
    intros [= <- <-]. right. eexists k, _.
    split; [|cbn; rewrite insert_insert_eq; reflexivity]. exact Hnone.
Qed.

(** The payment table after a run of the initiation view. *)
Lemma initiate_payments_table env cfg req w x w' :
  initiate_mpesa_payment R env cfg req w = (x, w') ->
  payments (db w') = payments (db w) \/
  exists k row,
    objects_filter (has_checkout_request_id (MPesaPayment.checkout_request_id row))
                   (payments (db w)) = [] /\
    payments (db w') = <[k := row]> (payments (db w)).
Proof.
  unfold initiate_mpesa_payment.
  destruct (String.eqb (method req) "POST"); [|intros [= <- <-]; left; reflexivity].
  unfold try_catch, initiate_body.
  destruct (body req) as [| |data]; try (intros [= <- <-]; left; reflexivity).
  unfold bind at 1, lift at 1.
  destruct (initiate_fields data) as [e|[[[phone amount] cart_id] reference]];
    [intros [= <- <-]; left; reflexivity|].
  destruct (String.eqb phone ""); [intros [= <- <-]; left; reflexivity|].
  destruct (truthy amount); cbn [negb]; [|intros [= <- <-]; left; reflexivity].
  destruct (py_float R amount) as [e|f] eqn:Efl.
  { destruct (py_float_error _ _ _ Efl) as [->| ->]; cbn;
      intros [= <- <-]; left; reflexivity. }
  destruct (float_le_zero f); [intros [= <- <-]; left; reflexivity|].
  unfold bind at 1, put_service at 1.
  set (w0 := mkWorld (db w) (net w) (MPesaService_init cfg)).
  set (ref := if truthy cart_id then _ else reference).
  unfold bind at 1.
  destruct (initiate_stk_push_spec R env (JStr phone) (JFloat f) ref
              "Payment for goods/services" w0) as (res & _ & Hfst & Hdb & _).
  destruct (initiate_stk_push R env (JStr phone) (JFloat f) ref
              "Payment for goods/services" w0) as [y w1].
  cbn [fst snd] in Hfst, Hdb. subst y. change (db w0) with (db w) in Hdb.
  destruct res as [checkout merchant customer code description|err].
  2:{ intros [= <- <-]. left. rewrite Hdb. reflexivity. }
  match goal with
  | |- context [bind (create_payment ?a ?b ?c ?d ?e) ?k ?w] =>
      destruct (bind (create_payment a b c d e) k w) as [r w2] eqn:Hrun
  end.
  apply create_and_link_table in Hrun. rewrite Hdb in Hrun.
  destruct r; cbn; intros [= <- <-]; exact Hrun.
Qed.

(** X9: no two payment rows ever share a CheckoutRequestID.  If the
    identifiers of the stored rows are pairwise different, they still are
    after [initiate_mpesa_payment] and after [mpesa_callback], whatever the
    request: the initiation inserts a row only under an identifier no row
    has, the callback never rewrites an identifier. *)
Theorem views_keep_checkout_ids_unique env cfg req w :
  unique_checkout_ids (payments (db w)) ->
  unique_checkout_ids (payments (db (snd (initiate_mpesa_payment R env cfg req w)))) /\
  unique_checkout_ids (payments (db (snd (mpesa_callback R env req w)))).
Proof.
  intros Huniq. split.
  - destruct (initiate_mpesa_payment R env cfg req w) as [x w'] eqn:Hrun. cbn [snd].
    apply initiate_payments_table in Hrun as [->|(k & row & Hnone & ->)]; [exact Huniq|].
    apply unique_insert_new; assumption.
  - destruct (mpesa_callback R env req w) as [a w'] eqn:Hrun. cbn [snd].
    apply mpesa_callback_row in Hrun as [->|(k & p & p' & Hk & -> & Hsame & _)];
      [exact Huniq|].
    cbn. eapply unique_insert_same; [exact Huniq|exact Hk|]. apply Hsame.
Qed.

(** ** The status endpoint *)

(** X10: [check_payment_status] only reads: the world after it is the world
    before, whatever the identifier.  It answers 404 with the not-found body
    exactly when no stored row has the identifier of the address. *)
Theorem check_payment_status_reads_only checkout_request_id w :
  snd (check_payment_status checkout_request_id w) = w /\
  (fst (check_payment_status checkout_request_id w) = inr (mkResponse 404 StatusNotFound)
   <-> forall k p, payments (db w) !! k = Some p ->
                   has_checkout_request_id (JStr checkout_request_id) p = false).
Proof.
  unfold check_payment_status, bind, get_db. cbn [fst snd].
  rewrite <- objects_filter_nil. unfold objects_get.
  destruct (objects_filter _ (payments (db w))) as [|[k p] [|r l]]; cbn.
  - split; [reflexivity|]. split; reflexivity || auto.
  - split; [reflexivity|]. split; intros H; discriminate H.
  - split; [reflexivity|]. split; intros H; discriminate H.
Qed.

(** The row a successful creation leaves: fresh key, no other row with the
    identifier, and the fields of the initiation. *)
Lemma create_and_link_row env phone amount checkout merchant message cart_id w1 r w' :
  bind (create_payment env phone amount checkout merchant)
    (fun created =>
       bind (link_sale R env cart_id (fst created) (snd created))
         (fun _ => ret (mkResponse 200
                          (InitSuccess checkout message (fst created) MsgInitiated))))
    w1 = (inr r, w') ->
  exists k sale updated,
    r = mkResponse 200 (InitSuccess checkout message k MsgInitiated) /\
    objects_filter (has_checkout_request_id checkout) (payments (db w1)) = [] /\
    payments (db w') =
    <[k := MPesaPayment.mk sale phone amount checkout merchant "" None pending ""
                           (JStr "") (now env) updated]> (payments (db w1)).
Proof.
  unfold create_payment, bind at 1 2, get_db. cbn [fst snd].
  destruct (MPesaPayment.not_null _) eqn:Hnn; [|discriminate].
  destruct (objects_filter _ (payments (db w1))) as [|x l] eqn:Hnone; [|discriminate].
  unfold objects_create. cbn [fst snd].
  set (k := next_key (payments (db w1))).
  unfold bind, put_db, ret. cbn [fst snd db net service].
  unfold link_sale.
  destruct (truthy cart_id).
  2:{ intros [= <- <-]. eexists k, _, _. split; [reflexivity|]. split; [reflexivity|].
      reflexivity. }
  unfold bind, lift. destruct (pk_of_json R cart_id) as [e|key]; [discriminate|].
  unfold get_db. cbn [fst snd db net service carts set_payments].
  destruct (carts (db w1) !! key).
  2:{ intros [= <- <-]. eexists k, _, _. split; [reflexivity|]. split; [reflexivity|].
      reflexivity. }
  change (sales (set_payments _ (db w1))) with (sales (db w1)).
  destruct (objects_get _ (sales (db w1))) as [e|[sale_id sl]].
  - destruct e; try discriminate.
    intros [= <- <-]. eexists k, _, _. split; [reflexivity|]. split; [reflexivity|].
    reflexivity.
  - unfold save_payment. rewrite not_null_set_sale, Hnn.
    unfold bind, get_db, put_db. cbn [fst snd db net service payments].
    intros [= <- <-]. eexists k, _, _. split; [reflexivity|]. split; [reflexivity|].
    cbn. rewrite insert_insert_eq. reflexivity.
Qed.

Lemma initiate_success_row env cfg req w st checkout message k m w' :
  initiate_mpesa_payment R env cfg req w
  = (inr (mkResponse st (InitSuccess checkout message k m)), w') ->
  exists sale phone amount merchant updated table,
    objects_filter (has_checkout_request_id checkout) table = [] /\
    payments (db w') =
    <[k := MPesaPayment.mk sale phone amount checkout merchant "" None pending ""
                           (JStr "") (now env) updated]> table.
Proof.
  unfold initiate_mpesa_payment.
  destruct (String.eqb (method req) "POST"); [|discriminate].
  unfold try_catch, initiate_body.
  destruct (body req) as [| |data]; try discriminate.
  unfold bind at 1, lift at 1.
  destruct (initiate_fields data) as [e|[[[phone amount] cart_id] reference]];
    [discriminate|].
  destruct (String.eqb phone ""); [discriminate|].
  destruct (truthy amount); cbn [negb]; [|discriminate].
  destruct (py_float R amount) as [e|f] eqn:Efl.
  { destruct (py_float_error _ _ _ Efl) as [->| ->]; cbn; discriminate. }
  destruct (float_le_zero f); [discriminate|].
  unfold bind at 1, put_service at 1.
  set (w0 := mkWorld (db w) (net w) (MPesaService_init cfg)).
  set (ref := if truthy cart_id then _ else reference).
  unfold bind at 1.
  destruct (initiate_stk_push R env (JStr phone) (JFloat f) ref
              "Payment for goods/services" w0) as [[e|res] w1]; [discriminate|].
  destruct res as [checkout' merchant customer code description|err]; [|discriminate].
  match goal with
  | |- context [bind (create_payment ?a ?b ?c ?d ?e) ?k ?w] =>
      destruct (bind (create_payment a b c d e) k w) as [[e'|r] w2] eqn:Hrun
  end; [discriminate|].
  destruct (create_and_link_row _ _ _ _ _ _ _ _ _ _ Hrun)
    as (k' & sale & upd & -> & Hnone & Hrow).
  intros H. injection H as Hst Hc Hm Hk Hmsg Hw. subst.
  exists sale, phone, f, merchant, upd, (payments (db w1)). auto.
Qed.

(** X11: initiation and status fit together.  When
    [initiate_mpesa_payment] answers with success, a string [s] as
    [checkout_request_id] and payment id [k], then [check_payment_status] for
    [s], asked right after, finds the row [k] and reports it: status
    [pending], no receipt, the amount and the phone of the row, created at
    the time of the initiation, not successful; and it changes nothing. *)
Theorem status_after_initiation env cfg req w st s message k m :
  fst (initiate_mpesa_payment R env cfg req w)
  = inr (mkResponse st (InitSuccess (JStr s) message k m)) ->
  exists row,
    payments (db (snd (initiate_mpesa_payment R env cfg req w))) !! k = Some row /\
    check_payment_status s (snd (initiate_mpesa_payment R env cfg req w))
    = (inr (mkResponse 200
              (StatusFound pending "" (MPesaPayment.amount row)
                           (MPesaPayment.phone_number row) (now env) false)),
       snd (initiate_mpesa_payment R env cfg req w)).
Proof.
  destruct (initiate_mpesa_payment R env cfg req w) as [x w'] eqn:Hrun.
  cbn [fst snd]. intros ->.
  apply initiate_success_row in Hrun
    as (sale & phone & amount & merchant & upd & table & Hnone & Hrow).
  eexists. split; [rewrite Hrow; apply lookup_insert_eq|].
  unfold check_payment_status, bind, get_db. cbn [fst snd]. rewrite Hrow.
  erewrite objects_get_create; [reflexivity|exact Hnone|].
  unfold has_checkout_request_id. cbn. apply String.eqb_refl.
Qed.

(** X12: callback and status fit together.  After a callback for the
    identifier [s] of a stored row that was acknowledged with code 0,
    [check_payment_status] for [s] finds that row and reports the status the
    result code gave it ([successful] for a code equal to 0, [failed]
    otherwise), [is_successful] accordingly, the receipt and the amount as
    the callback left them, and the phone and creation time of the
    initiation; it changes nothing. *)
Theorem status_after_callback env data sk w stk s rc desc k p :
  callback_details data = inr (stk, JStr s, rc, desc) ->
  objects_get (has_checkout_request_id (JStr s)) (payments (db w)) = inr (k, p) ->
  fst (mpesa_callback R env (mkRequest "POST" (Parsed data) sk) w) = inr (ack 0 "Success") ->
  exists p',
    payments (db (snd (mpesa_callback R env (mkRequest "POST" (Parsed data) sk) w))) !! k
    = Some p' /\
    check_payment_status s (snd (mpesa_callback R env (mkRequest "POST" (Parsed data) sk) w))
    = (inr (mkResponse 200
              (StatusFound (if eq_zero rc then successful else failed)
                           (MPesaPayment.mpesa_receipt_number p') (MPesaPayment.amount p')
                           (MPesaPayment.phone_number p) (MPesaPayment.created_at p)
                           (eq_zero rc))),
       snd (mpesa_callback R env (mkRequest "POST" (Parsed data) sk) w)).
Proof.
  intros Hd Hget. rewrite mpesa_callback_cases. cbn [method body].
  change (String.eqb "POST" "POST") with true. cbn iota.
  unfold callback_outcome. rewrite Hd.
  destruct (truthy (JStr s)); [|discriminate].
  rewrite Hget.
  destruct (apply_callback R stk rc desc p) as [e|p'] eqn:Happ.
  { unfold error_ack. destruct (is_JSONDecodeError e); discriminate. }
  destruct (MPesaPayment.not_null p'); [|discriminate].
  intros _. cbn [fst snd].
  destruct (apply_callback_inr _ _ _ _ _ _ Happ) as (r & a & d & -> & _).
  eexists. split; [cbn; apply lookup_insert_eq|].
  unfold check_payment_status, bind, get_db, saved. cbn [fst snd db payments set_payments].
  erewrite objects_get_insert; [|exact Hget|].
  2:{ rewrite has_checkout_request_id_kept. apply objects_get_found in Hget. apply Hget. }
  unfold ret. f_equal. f_equal. f_equal.
  destruct p, (eq_zero rc); reflexivity.
Qed.

End PaymentRows.

(** ** The stock methods of [Product] *)

Lemma next_key_insert_fresh {A : Type} (table : gmap Z A) (a : A) :
  next_key (<[next_key table := a]> table) <> next_key table /\
  table !! next_key (<[next_key table := a]> table) = None.
Proof.
  pose proof (next_key_fresh (<[next_key table := a]> table)) as Hf.
  set (k2 := next_key (<[next_key table := a]> table)) in *.
  destruct (decide (k2 = next_key table)) as [E|E].
  - rewrite E, lookup_insert_eq in Hf. discriminate Hf.
  - split; [exact E|]. rewrite lookup_insert_ne in Hf by congruence. exact Hf.
Qed.

(** X13: [remove_stock] never sells what is not there.  It raises a
    [ValueError], and leaves the world untouched, exactly when the quantity
    exceeds the stock of the object; otherwise the count it returns and
    stores is the stock less the quantity, which is not negative.  The sign
    of the quantity is not looked at. *)
Theorem remove_stock_guard k self quantity reason user w :
  match fst (remove_stock k self quantity reason user w) with
  | inl e =>
      Product.stock self < quantity /\ is_ValueError e = true /\
      snd (remove_stock k self quantity reason user w) = w
  | inr (n, self') =>
      quantity <= Product.stock self /\ n = Product.stock self - quantity /\ 0 <= n /\
      Product.stock self' = n /\
      products (db (snd (remove_stock k self quantity reason user w))) !! k = Some self'
  end.
Proof.
  unfold remove_stock.
  destruct (Z.ltb_spec (Product.stock self) quantity) as [Hlt|Hle].
  - cbn. auto.
  - cbn. repeat split; try lia. apply lookup_insert_eq.
Qed.

(** X14: each of the three stock methods writes the audit trail.
    [add_stock], [remove_stock] (on a quantity in stock) and [set_stock]
    store the new count for the product and add exactly one movement, under
    a key not in use, whose [previous_quantity] is the stock before and whose
    [new_quantity] is the stock stored; its type is [in], [out] or
    [adjustment] and its quantity the quantity moved, for [set_stock] the
    absolute difference.  No other table and no earlier movement changes. *)
Theorem stock_methods_log_the_change k self quantity reason user w :
  (exists m, stock_change_logged k self (Product.stock self + quantity) m w
               (add_stock k self quantity reason user w) /\
             StockMovement.movement_type m = "in"%string /\
             StockMovement.quantity m = quantity) /\
  (quantity <= Product.stock self ->
   exists m, stock_change_logged k self (Product.stock self - quantity) m w
               (remove_stock k self quantity reason user w) /\
             StockMovement.movement_type m = "out"%string /\
             StockMovement.quantity m = quantity) /\
  (exists m, stock_change_logged k self quantity m w
               (set_stock k self quantity reason user w) /\
             StockMovement.movement_type m = "adjustment"%string /\
             StockMovement.quantity m = Z.abs (quantity - Product.stock self)).
Proof.
  split; [|split].
  - eexists. split; [unfold stock_change_logged; cbn;
                     repeat split; try reflexivity; apply next_key_fresh|].
    split; reflexivity.
  - intros H. rewrite (remove_stock_records k self quantity reason user w H).
    eexists. split; [unfold stock_change_logged; cbn;
                     repeat split; try reflexivity; apply next_key_fresh|].
    split; reflexivity.
  - eexists. split; [unfold stock_change_logged; cbn;
                     repeat split; try reflexivity; apply next_key_fresh|].
    split; reflexivity.
Qed.

(** X15: [add_stock] and then [remove_stock] of the same quantity, on an
    object whose stock is not negative, is a round trip: the second call
    does not raise, the object and the stored product are as at the start,
    no other product changes, and the log has grown by two movements that
    mirror each other (the count after the first is the count before the
    second, and the count after the second the count before the first). *)
Theorem add_then_remove_stock k self quantity reason user w :
  0 <= Product.stock self ->
  exists w1 self1 w2,
    add_stock k self quantity reason user w = (inr (Product.stock self + quantity, self1), w1) /\
    remove_stock k self1 quantity reason user w1 = (inr (Product.stock self, self), w2) /\
    products (db w2) !! k = Some self /\
    (forall k', k' <> k -> products (db w2) !! k' = products (db w) !! k') /\
    exists k1 k2 m1 m2,
      k1 <> k2 /\ movements (db w) !! k1 = None /\ movements (db w) !! k2 = None /\
      movements (db w2) = <[k2 := m2]> (<[k1 := m1]> (movements (db w))) /\
      StockMovement.new_quantity m1 = StockMovement.previous_quantity m2 /\
      StockMovement.new_quantity m2 = StockMovement.previous_quantity m1.
Proof.
  intros Hs.
  assert (Hback : Product.set_stock (Product.stock self + quantity - quantity)
                    (Product.set_stock (Product.stock self + quantity) self) = self).
  { replace (Product.stock self + quantity - quantity) with (Product.stock self) by lia.
    destruct self; reflexivity. }
  exists (snd (add_stock k self quantity reason user w)),
         (Product.set_stock (Product.stock self + quantity) self),
         (snd (remove_stock k (Product.set_stock (Product.stock self + quantity) self)
                 quantity reason user (snd (add_stock k self quantity reason user w)))).
  split; [reflexivity|].
  rewrite remove_stock_records by (cbn; lia).
  cbn [Product.stock Product.set_stock]. rewrite Hback.
  split.
  { f_equal. f_equal. f_equal. lia. }
  cbn. split; [apply lookup_insert_eq|].
  split.
  { intros k' Hk'. rewrite !lookup_insert_ne by congruence. reflexivity. }
  set (m1 := StockMovement.mk k "in" quantity (Product.stock self)
               (Product.stock self + quantity) reason user).
  destruct (next_key_insert_fresh (movements (db w)) m1) as [Hne Hfresh].
  eexists (next_key (movements (db w))),
          (next_key (<[next_key (movements (db w)) := m1]> (movements (db w)))), m1, _.
  split; [intros E; apply Hne; symmetry; exact E|].
  split; [apply next_key_fresh|].
  split; [exact Hfresh|].
  split; [reflexivity|].
  split; cbn; lia.
Qed.

(** ** The cart and the checkout *)

Section Checkout.
Context (env : Env).

Lemma same_ledger_refl w : same_ledger w w.
Proof. repeat split. Qed.

Lemma same_ledger_trans w1 w2 w3 :
  same_ledger w1 w2 -> same_ledger w2 w3 -> same_ledger w1 w3.
Proof. unfold same_ledger. intros (?&?&?&?) (?&?&?&?). repeat split; congruence. Qed.

Lemma get_cart_ledger req w :
  same_ledger w (snd (get_cart env req w)) /\
  products (db (snd (get_cart env req w))) = products (db w) /\
  cart_items (db (snd (get_cart env req w))) = cart_items (db w) /\
  sales (db (snd (get_cart env req w))) = sales (db w).
Proof.
  unfold get_cart, bind, get_db.
  destruct (objects_get _ (carts (db w))) as [e|found]; [|repeat split].
  destruct e; repeat split.
Qed.

Lemma create_sale_ledger cart_id total payment_method w :
  same_ledger w (snd (create_sale cart_id total payment_method w)) /\
  cart_items (db (snd (create_sale cart_id total payment_method w))) = cart_items (db w).
Proof.
  unfold create_sale, bind, get_db.
  destruct (Sale.not_null _); [|repeat split].
  destruct (objects_filter _ (sales (db w))); repeat split.
Qed.

Lemma update_stock_ledger items : forall w r w',
  update_stock items w = (r, w') ->
  same_ledger w w' /\
  cart_items (db w') = cart_items (db w) /\
  carts (db w') = carts (db w) /\
  sales (db w') = sales (db w).
Proof.
  induction items as [|[k item] rest IH]; intros w r w'.
  { intros [= <- <-]. repeat split. }
  cbn [update_stock]. unfold bind at 1, get_db at 1.
  destruct (products (db w) !! CartItem.product item) as [product|];
    [|intros [= <- <-]; repeat split].
  unfold bind at 1, save_product at 1, bind at 1, get_db at 1, put_db at 1.
  cbn [fst snd]. intros H. apply IH in H. unfold same_ledger in *. simpl in H.
  exact H.
Qed.

Lemma checkout_ledger req w r w' :
  checkout env req w = (r, w') ->
  same_ledger w w' /\ cart_items (db w') = cart_items (db w).
Proof.
  unfold checkout.
  destruct (String.eqb (method req) "POST"); [|intros [= <- <-]; repeat split].
  unfold bind at 1.
  destruct (body req) as [| |data]; try (intros [= <- <-]; repeat split).
  unfold ret at 1. unfold bind at 1, lift at 1.
  destruct (py_get data "payment_method" (JStr "cash")) as [e|payment_method];
    [intros [= <- <-]; repeat split|].
  unfold bind at 1.
  pose proof (get_cart_ledger req w) as (Hcart & _ & Hci & _).
  destruct (get_cart env req w) as [[e|cart] w1]; cbn [snd] in Hcart, Hci;
    [intros [= <- <-]; auto|].
  unfold bind at 1, get_db at 1. unfold bind at 1.
  pose proof (create_sale_ledger (fst cart)
                (cart_total (cart_items_of (fst cart) (db w1))) payment_method w1)
    as (Hsale & Hci2).
  pose proof (same_ledger_trans _ _ _ Hcart Hsale) as H2.
  destruct (create_sale _ _ _ w1) as [[e|sale_id] w2]; cbn [snd] in Hsale, Hci2, H2 |- *;
    [intros [= <- <-]; split; [exact H2|congruence]|].
  unfold bind at 1, get_db at 1. unfold bind at 1.
  destruct (update_stock _ w2) as [[e|u] w3] eqn:Hrun.
  - apply update_stock_ledger in Hrun as (Hstock & Hci3 & _).
    pose proof (same_ledger_trans _ _ _ H2 Hstock) as H3.
    intros [= <- <-]. split; [exact H3|congruence].
  - apply update_stock_ledger in Hrun as (Hstock & Hci3 & _).
    pose proof (same_ledger_trans _ _ _ H2 Hstock) as H3.
    intros [= <- <-]. cbn. split; [|congruence].
    destruct H3 as (?&?&?&?). repeat split; assumption.
Qed.

(** X16: whatever the request and however it ends, [checkout] writes no
    payment row and no stock movement, makes no call to the provider, leaves
    the service object alone and neither adds, changes nor removes a cart
    line. *)
Theorem checkout_keeps_the_ledger req w :
  same_ledger w (snd (checkout env req w)) /\
  cart_items (db (snd (checkout env req w))) = cart_items (db w).
Proof.
  destruct (checkout env req w) as [r w'] eqn:Hrun.
  exact (checkout_ledger _ _ _ _ Hrun).
Qed.

(** The stock loop, when every line names a stored product: it ends, and
    every product has lost the pieces sold of it. *)
Lemma update_stock_spec items : forall w,
  (forall i, In i items -> is_Some (products (db w) !! CartItem.product (snd i))) ->
  exists w',
    update_stock items w = (inr tt, w') /\
    forall k, products (db w') !! k
              = (fun p => Product.set_stock (Product.stock p - sold k items) p)
                  <$> products (db w) !! k.
Proof.
  induction items as [|[ik item] rest IH]; intros w Hall.
  { exists w. split; [reflexivity|]. intros k. cbn.
    destruct (products (db w) !! k) as [p|]; [|reflexivity]. cbn.
    rewrite Z.sub_0_r. destruct p; reflexivity. }
  cbn [update_stock]. unfold bind at 1, get_db at 1.
  destruct (Hall (ik, item) (or_introl eq_refl)) as [p Hp]. cbn [snd] in Hp.
  rewrite Hp.
  unfold bind at 1, save_product at 1, bind at 1, get_db at 1, put_db at 1.
  cbn [fst snd].
  match goal with |- context [update_stock rest ?w0] => set (w1 := w0) end.
  destruct (IH w1) as (w' & Hok & Hk).
  { intros i Hi. destruct (Hall i (or_intror Hi)) as [q Hq].
    subst w1. cbn.
    destruct (decide (CartItem.product item = CartItem.product i.2)) as [E|E].
    - rewrite <- E, lookup_insert_eq. eauto.
    - rewrite lookup_insert_ne by exact E. eauto. }
  exists w'. split; [exact Hok|].
  intros k. rewrite Hk. subst w1. cbn [db products set_products sold foldr snd].
  fold (sold k rest).
  destruct (Z.eqb_spec (CartItem.product item) k) as [E|E].
  - subst k. rewrite lookup_insert_eq, Hp. cbn. f_equal.
    destruct p; unfold Product.set_stock; cbn. f_equal. lia.
  - rewrite lookup_insert_ne by exact E. reflexivity.
Qed.

Lemma get_cart_found (env0 : Env) key c cart w b m :
  key <> ""%string ->
  objects_get (open_cart key) (carts (db w)) = inr (c, cart) ->
  get_cart env0 (mkRequest m b (Some key)) w = (inr (c, cart), w).
Proof.
  intros Hkey Hget. unfold get_cart, bind, get_db. cbn [session_key fst snd].
  destruct (String.eqb_spec key ""); [contradiction|].
  unfold open_cart in Hget. rewrite Hget. reflexivity.
Qed.

(** X17: a checkout that goes through, and one that does not.  For a POST
    with a JSON object, a session that has one open cart, no sale yet for
    that cart and every line naming a stored product: when the
    [payment_method] of the request is not [null], [checkout] answers 200
    with the id of the new sale and the total, the sum of quantity times
    price over the lines of the cart; it stores one sale for the cart with
    that total and the payment method of the request (cash when none is
    given), marks the cart completed, and takes from every product the
    pieces sold of it, with no test of what is in stock: the count may go
    below zero.  When the [payment_method] is [null] the column refuses it:
    the view raises an [IntegrityError], and no sale is stored, no stock
    taken and the cart left open. *)
Theorem checkout_sells_the_cart kv key c cart w :
  key <> ""%string ->
  objects_get (open_cart key) (carts (db w)) = inr (c, cart) ->
  objects_filter (fun s => Sale.cart s =? c) (sales (db w)) = [] ->
  (forall i, In i (cart_items_of c (db w)) ->
             is_Some (products (db w) !! CartItem.product (snd i))) ->
  (assoc "payment_method" kv <> Some JNull ->
   exists w',
     checkout env (mkRequest "POST" (Parsed (JObj kv)) (Some key)) w
     = (inr (mkResponse 200 (CheckoutDone (next_key (sales (db w)))
                                          (cart_total (cart_items_of c (db w))))), w') /\
     sales (db w')
     = <[next_key (sales (db w)) :=
           Sale.mk c (cart_total (cart_items_of c (db w)))
                   (default (JStr "cash") (assoc "payment_method" kv))]> (sales (db w)) /\
     carts (db w') = <[c := Cart.mk (Cart.session_id cart) true]> (carts (db w)) /\
     (forall k, products (db w') !! k
                = (fun p => Product.set_stock
                              (Product.stock p - sold k (cart_items_of c (db w))) p)
                    <$> products (db w) !! k)) /\
  (assoc "payment_method" kv = Some JNull ->
   checkout env (mkRequest "POST" (Parsed (JObj kv)) (Some key)) w
   = (inl IntegrityError, w)).
Proof.
  intros Hkey Hget Hnew Hall. split.
  2:{ intros Hpm. unfold checkout. cbn [method body].
      change (String.eqb "POST" "POST") with true. cbn iota.
      unfold bind at 1. unfold ret at 1. unfold bind at 1, lift at 1.
      cbn [py_get]. rewrite Hpm.
      unfold bind at 1. rewrite (get_cart_found env key c cart w _ _ Hkey Hget).
      unfold bind at 1, get_db at 1. unfold bind at 1. cbn [fst snd].
      reflexivity. }
  intros Hpm.
  unfold checkout. cbn [method body].
  change (String.eqb "POST" "POST") with true. cbn iota.
  unfold bind at 1. unfold ret at 1. unfold bind at 1, lift at 1.
  cbn [py_get].
  unfold bind at 1. rewrite (get_cart_found env key c cart w _ _ Hkey Hget).
  unfold bind at 1, get_db at 1. unfold bind at 1. cbn [fst snd].
  unfold create_sale at 1. unfold bind at 1, get_db at 1.
  unfold Sale.not_null. cbn [Sale.payment_method].
  assert (Hnn : not_none (match assoc "payment_method" kv with
                          | Some v => v
                          | None => JStr "cash"
                          end) = true).
  { destruct (assoc "payment_method" kv) as [[]|]; try reflexivity. congruence. }
  rewrite Hnn, Hnew.
  unfold objects_create. unfold bind at 1, put_db at 1. unfold ret at 1.
  unfold bind at 1, get_db at 1. cbn [fst snd db].
  set (total := cart_total (cart_items_of c (db w))).
  set (method := match assoc "payment_method" kv with Some v => v | None => JStr "cash" end).
  change (cart_items_of c (set_sales _ (db w))) with (cart_items_of c (db w)).
  match goal with |- context [mkWorld ?d (net w) (service w)] =>
    set (w2 := mkWorld d (net w) (service w)) end.
  destruct (update_stock_spec (cart_items_of c (db w)) w2 Hall) as (w3 & Hrun & Hprod).
  pose proof (update_stock_ledger _ _ _ _ Hrun) as (_ & _ & Hcarts & Hsales).
  unfold bind at 1. rewrite Hrun.
  unfold bind, get_db, put_db, ret. cbn [fst snd db].
  eexists. split; [reflexivity|]. cbn.
  split; [rewrite Hsales; subst w2 method; cbn;
          destruct (assoc "payment_method" kv); reflexivity|].
  split; [rewrite Hcarts; reflexivity|].
  exact Hprod.
Qed.

(** The cart [get_cart] gave a session is the cart it gives it again. *)
Lemma get_cart_again env' m1 b1 m2 b2 key w c cart w1 :
  key <> ""%string ->
  get_cart env (mkRequest m1 b1 (Some key)) w = (inr (c, cart), w1) ->
  get_cart env' (mkRequest m2 b2 (Some key)) w1 = (inr (c, cart), w1).
Proof.
  intros Hkey. unfold get_cart. unfold bind, get_db. cbn [session_key fst snd].
  destruct (String.eqb_spec key ""); [contradiction|].
  destruct (objects_get _ (carts (db w))) as [e|found] eqn:Hget.
  - destruct e; try discriminate.
    unfold objects_create, put_db, ret. cbn [fst snd]. intros [= <- <- <-].
    apply objects_get_none in Hget. cbn [db carts set_carts].
    rewrite (objects_get_create _ _ _ _ Hget); [reflexivity|].
    cbn. rewrite String.eqb_refl. reflexivity.
  - unfold ret. intros [= -> <-]. rewrite Hget. reflexivity.
Qed.

(** Completing the one open cart of a session leaves the session without an
    open cart. *)
Lemma objects_get_completed key c cart (table : gmap Z Cart.t) :
  objects_get (open_cart key) table = inr (c, cart) ->
  objects_filter (open_cart key) (<[c := Cart.mk (Cart.session_id cart) true]> table) = [].
Proof.
  intros Hget. apply objects_get_inr, objects_filter_singleton in Hget.
  unfold objects_filter. apply map_to_list_empty_iff.
  rewrite map_filter_insert_False.
  2:{ cbn. unfold open_cart. cbn. rewrite andb_false_r. discriminate. }
  rewrite map_filter_delete, Hget. apply delete_singleton_eq.
Qed.

(** X18: [get_cart] is stable for as long as the table of carts is not
    written.  Once a request of a session has been given a cart, a later
    request of that session, at whatever time and by whatever method, on any
    state with the same carts (lines, products, sales and payments may have
    changed) gets the same cart and writes nothing.  It ends with the
    completion of the cart: on a state where that cart has been marked
    completed, as [checkout] does, the next request of the session is given
    a new cart, created open under a key not in use.  The cart belongs to
    the session and is open; and the first call either found it, writing
    nothing, or created it under a key not in use, writing nothing else. *)
Theorem get_cart_is_stable env' m1 b1 m2 b2 key w c cart w1 :
  key <> ""%string ->
  get_cart env (mkRequest m1 b1 (Some key)) w = (inr (c, cart), w1) ->
  (forall w2, carts (db w2) = carts (db w1) ->
     get_cart env' (mkRequest m2 b2 (Some key)) w2 = (inr (c, cart), w2)) /\
  (forall w2,
     carts (db w2) = <[c := Cart.mk (Cart.session_id cart) true]> (carts (db w1)) ->
     exists c',
       c' <> c /\ carts (db w2) !! c' = None /\
       get_cart env' (mkRequest m2 b2 (Some key)) w2
       = (inr (c', Cart.mk key false),
          mkWorld (set_carts (<[c' := Cart.mk key false]> (carts (db w2))) (db w2))
                  (net w2) (service w2))) /\
  Cart.session_id cart = key /\ Cart.is_completed cart = false /\
  (w1 = w \/
   carts (db w) !! c = None /\
   db w1 = set_carts (<[c := cart]> (carts (db w))) (db w)).
Proof.
  intros Hkey Hrun.
  assert (Hopen : objects_get (open_cart key) (carts (db w1)) = inr (c, cart)).
  { pose proof (get_cart_again env _ _ m2 b2 _ _ _ _ _ Hkey Hrun) as Hagain.
    revert Hagain. unfold get_cart, bind, get_db. cbn [session_key fst snd].
    destruct (String.eqb_spec key ""); [contradiction|].
    unfold open_cart.
    destruct (objects_get _ (carts (db w1))) as [e|found]; [|unfold ret; congruence].
    destruct e; try discriminate.
    unfold objects_create, put_db, ret. cbn [fst snd]. intros [= Hc _ _].
    pose proof (next_key_fresh (carts (db w1))) as Hf. rewrite Hc in Hf.
    revert Hrun. unfold get_cart, bind, get_db. cbn [session_key fst snd].
    destruct (String.eqb_spec key ""); [contradiction|].
    destruct (objects_get _ (carts (db w))) as [e|found] eqn:Hget.
    - destruct e; try discriminate.
      unfold objects_create, put_db, ret. cbn [fst snd]. intros [= <- <- <-].
      cbn in Hf. rewrite lookup_insert_eq in Hf. discriminate Hf.
    - unfold ret. intros [= -> <-].
      apply objects_get_found in Hget as [Hk _]. rewrite Hk in Hf. discriminate Hf. }
  split; [|split].
  - intros w2 Hsame. apply get_cart_found; [exact Hkey|]. rewrite Hsame. exact Hopen.
  - intros w2 Hdone.
    exists (next_key (carts (db w2))).
    pose proof (next_key_fresh (carts (db w2))) as Hfresh.
    split.
    { intros E. rewrite E, Hdone, lookup_insert_eq in Hfresh. discriminate Hfresh. }
    split; [exact Hfresh|].
    unfold get_cart, bind, get_db. cbn [session_key fst snd].
    destruct (String.eqb_spec key ""); [contradiction|].
    pose proof (objects_get_completed _ _ _ _ Hopen) as Hnone.
    rewrite <- Hdone in Hnone. apply objects_get_none in Hnone.
    unfold open_cart in Hnone. rewrite Hnone. reflexivity.
  - revert Hrun. unfold get_cart. unfold bind, get_db. cbn [session_key fst snd].
    destruct (String.eqb_spec key ""); [contradiction|].
    destruct (objects_get _ (carts (db w))) as [e|found] eqn:Hget.
    + destruct e; try discriminate.
      unfold objects_create, put_db, ret. cbn [fst snd]. intros [= <- <- <-].
      split; [reflexivity|]. split; [reflexivity|].
      right. split; [apply next_key_fresh|reflexivity].
    + unfold ret. intros [= -> <-].
      pose proof (objects_get_found _ _ _ _ Hget) as [_ HP].
      apply andb_prop in HP as [Hs Hc]. apply String.eqb_eq in Hs.
      split; [exact Hs|].
      split; [destruct (Cart.is_completed cart); [discriminate|reflexivity]|].
      left. reflexivity.
Qed.

End Checkout.

Section CartEndpoints.
Context (R : Runtime) (env : Env) (int_of_str : string -> option Z).

Lemma objects_filter_unique (c p : Z) (table : gmap Z CartItem.t) :
  one_line_per_product table ->
  objects_filter (line_of c p) table = [] \/
  exists r, objects_filter (line_of c p) table = [r].
Proof.
  intros Huniq. unfold objects_filter.
  pose proof (NoDup_map_to_list
                (filter (fun kv : Z * CartItem.t => line_of c p kv.2 = true) table)) as Hnd.
  destruct (map_to_list _) as [|[k1 i1] [|[k2 i2] l]] eqn:E; [auto|eauto|].
  exfalso.
  assert (H1 : (k1, i1) ∈ map_to_list
            (filter (fun kv : Z * CartItem.t => line_of c p kv.2 = true) table))
    by (rewrite E; left).
  assert (H2 : (k2, i2) ∈ map_to_list
            (filter (fun kv : Z * CartItem.t => line_of c p kv.2 = true) table))
    by (rewrite E; right; left).
  apply elem_of_map_to_list, map_lookup_filter_Some in H1 as [H1 P1].
  apply elem_of_map_to_list, map_lookup_filter_Some in H2 as [H2 P2].
  cbn in P1, P2. unfold line_of in P1, P2.
  apply andb_prop in P1 as [C1 Q1]. apply andb_prop in P2 as [C2 Q2].
  apply Z.eqb_eq in C1, Q1, C2, Q2.
  assert (k1 = k2) by (eapply Huniq; eauto; congruence). subst k2.
  assert (i1 = i2) by congruence. subst i2.
  apply NoDup_cons in Hnd as [Hnot _]. apply Hnot. left.
Qed.

Lemma one_line_insert_same table k old line :
  one_line_per_product table -> table !! k = Some old ->
  CartItem.cart line = CartItem.cart old -> CartItem.product line = CartItem.product old ->
  one_line_per_product (<[k := line]> table).
Proof.
  intros Huniq Hk Hc Hp k1 k2 i1 i2 H1 H2 Hc12 Hp12.
  destruct (decide (k1 = k)) as [->|N1]; destruct (decide (k2 = k)) as [->|N2];
    [reflexivity| | |].
  - rewrite lookup_insert_eq in H1. rewrite lookup_insert_ne in H2 by congruence.
    injection H1 as <-. eapply Huniq; eauto; congruence.
  - rewrite lookup_insert_eq in H2. rewrite lookup_insert_ne in H1 by congruence.
    injection H2 as <-. eapply Huniq; eauto; congruence.
  - rewrite lookup_insert_ne in H1, H2 by congruence. eapply Huniq; eauto.
Qed.

Lemma one_line_insert_new table k line :
  one_line_per_product table ->
  (forall k' i, table !! k' = Some i ->
     line_of (CartItem.cart line) (CartItem.product line) i = false) ->
  one_line_per_product (<[k := line]> table).
Proof.
  intros Huniq Hnone k1 k2 i1 i2 H1 H2 Hc12 Hp12.
  destruct (decide (k1 = k)) as [->|N1]; destruct (decide (k2 = k)) as [->|N2];
    [reflexivity| | |].
  - rewrite lookup_insert_eq in H1. rewrite lookup_insert_ne in H2 by congruence.
    injection H1 as <-. apply Hnone in H2. unfold line_of in H2.
    rewrite Hc12, Hp12, !Z.eqb_refl in H2. discriminate H2.
  - rewrite lookup_insert_eq in H2. rewrite lookup_insert_ne in H1 by congruence.
    injection H2 as <-. apply Hnone in H1. unfold line_of in H1.
    rewrite <- Hc12, <- Hp12, !Z.eqb_refl in H1. discriminate H1.
  - rewrite lookup_insert_ne in H1, H2 by congruence. eapply Huniq; eauto.
Qed.

(** The [get_or_create] of a line, on a table with one line per product at
    most: it never raises, and one line is written. *)
Lemma add_line_keeps_one_line cart_id product_id quantity price w :
  one_line_per_product (cart_items (db w)) ->
  exists k line,
    add_line cart_id product_id quantity price w
    = (inr tt, mkWorld (set_cart_items (<[k := line]> (cart_items (db w))) (db w))
                       (net w) (service w)) /\
    one_line_per_product (<[k := line]> (cart_items (db w))) /\
    CartItem.cart line = cart_id /\ CartItem.product line = product_id /\
    match cart_items (db w) !! k with
    | Some old =>
        CartItem.quantity line = CartItem.quantity old + quantity /\
        CartItem.price line = CartItem.price old
    | None =>
        CartItem.quantity line = quantity /\ CartItem.price line = price
    end.
Proof.
  intros Huniq. unfold add_line, bind, get_db. cbn [fst snd].
  unfold objects_get.
  destruct (objects_filter_unique cart_id product_id _ Huniq) as [Hnone|[[k old] Hone]].
  - rewrite Hnone. unfold objects_create, put_db. cbn [fst snd].
    pose proof (next_key_fresh (cart_items (db w))) as Hfresh.
    eexists _, _. split; [reflexivity|].
    split.
    { apply one_line_insert_new; [exact Huniq|].
      cbn. apply objects_filter_nil. exact Hnone. }
    rewrite Hfresh. repeat split.
  - rewrite Hone. unfold put_db. cbn [fst snd].
    apply objects_filter_singleton in Hone as Hf.
    assert (Hk : cart_items (db w) !! k = Some old /\ line_of cart_id product_id old = true).
    { assert (H : filter (fun kv : Z * CartItem.t => line_of cart_id product_id kv.2 = true)
                    (cart_items (db w)) !! k = Some old)
        by (rewrite Hf; apply lookup_singleton_eq).
      apply map_lookup_filter_Some in H. exact H. }
    destruct Hk as [Hk HP]. unfold line_of in HP.
    apply andb_prop in HP as [HC HQ]. apply Z.eqb_eq in HC, HQ.
    eexists _, _. split; [reflexivity|].
    split.
    { eapply one_line_insert_same; [exact Huniq|exact Hk|reflexivity|reflexivity]. }
    rewrite Hk. cbn. auto.
Qed.

(** X19: adding to the cart accumulates.  For a POST that names a stored
    product and a quantity [int] accepts, in a world where no cart holds two
    lines of one product, [add_to_cart] answers 200 and writes exactly one
    cart line, that of the product in the cart of the session: a line that
    was there gets the quantity added and keeps the price it had, whatever
    the product costs now; otherwise the line is new, with the quantity and
    the current price.  No cart holds two lines of one product afterwards.
    Products, payments, movements and the network log are untouched; the
    quantity is neither required to be positive nor compared with the
    stock. *)
Theorem add_to_cart_accumulates kv sk w n product_id key product c cart w1 :
  py_int int_of_str (default (JInt 1) (assoc "quantity" kv)) = inr n ->
  assoc "product_id" kv = Some product_id ->
  product_id <> JNull ->
  pk_of_json R product_id = inr key ->
  products (db w) !! key = Some product ->
  get_cart env (mkRequest "POST" (Parsed (JObj kv)) sk) w = (inr (c, cart), w1) ->
  one_line_per_product (cart_items (db w)) ->
  exists k line w',
    add_to_cart R env int_of_str (mkRequest "POST" (Parsed (JObj kv)) sk) w
    = (inr (mkResponse 200 AddDone), w') /\
    cart_items (db w') = <[k := line]> (cart_items (db w)) /\
    one_line_per_product (cart_items (db w')) /\
    CartItem.cart line = c /\ CartItem.product line = key /\
    match cart_items (db w) !! k with
    | Some old =>
        CartItem.quantity line = CartItem.quantity old + n /\
        CartItem.price line = CartItem.price old
    | None =>
        CartItem.quantity line = n /\ CartItem.price line = Product.price product
    end /\
    products (db w') = products (db w) /\
    same_ledger w w'.
Proof.
  intros Hq Hpid Hnn Hkey Hprod Hcart Huniq.
  unfold add_to_cart. cbn [method body].
  change (String.eqb "POST" "POST") with true. cbn iota.
  unfold bind at 1. unfold ret at 1. unfold bind at 1, lift at 1. cbn [py_get].
  unfold bind at 1, lift at 1. cbn [py_get].
  unfold bind at 1, lift at 1.
  replace (match assoc "quantity" kv with Some v => v | None => JInt 1 end)
    with (default (JInt 1) (assoc "quantity" kv))
    by (destruct (assoc "quantity" kv); reflexivity).
  rewrite Hq, Hpid. unfold bind at 1.
  assert (Hfound : get_product_or_404 R product_id w = (inr (Some (key, product)), w)).
  { unfold get_product_or_404.
    destruct product_id; try contradiction;
      unfold bind, lift, get_db, ret; rewrite Hkey; cbn [fst snd]; rewrite Hprod;
      reflexivity. }
  rewrite Hfound. unfold bind at 1. rewrite Hcart. cbn [fst snd].
  pose proof (get_cart_ledger env (mkRequest "POST" (Parsed (JObj kv)) sk) w)
    as (Hl & Hp & Hci & _).
  rewrite Hcart in Hl, Hp, Hci. cbn [snd] in Hl, Hp, Hci.
  rewrite <- Hci in Huniq.
  destruct (add_line_keeps_one_line c key n (Product.price product) w1 Huniq)
    as (k & line & Hrun & Hinv & Hc & Hk & Hold).
  unfold bind at 1. rewrite Hrun. unfold ret.
  eexists k, line, _. split; [reflexivity|]. cbn [db cart_items set_cart_items].
  rewrite Hci in *.
  split; [reflexivity|]. split; [exact Hinv|]. split; [exact Hc|]. split; [exact Hk|].
  split; [exact Hold|]. split; [exact Hp|].
  destruct Hl as (?&?&?&?). repeat split; assumption.
Qed.

(** X20: a product that is not there.  For a POST whose quantity [int]
    accepts and whose [product_id] is missing, null, or the key of no stored
    product, [add_to_cart] ends in the 404 of [get_object_or_404] with the
    world exactly as before: the lookup of the product comes before
    [get_cart], so not even a cart is created for the session. *)
Theorem add_to_cart_unknown_product kv sk w n :
  py_int int_of_str (default (JInt 1) (assoc "quantity" kv)) = inr n ->
  match assoc "product_id" kv with
  | None | Some JNull => True
  | Some product_id =>
      exists key, pk_of_json R product_id = inr key /\ products (db w) !! key = None
  end ->
  add_to_cart R env int_of_str (mkRequest "POST" (Parsed (JObj kv)) sk) w
  = (inr (mkResponse 404 AddNotFound), w).
Proof.
  intros Hq Hp. unfold add_to_cart. cbn [method body].
  change (String.eqb "POST" "POST") with true. cbn iota.
  unfold bind at 1. unfold ret at 1. unfold bind at 1, lift at 1. cbn [py_get].
  unfold bind at 1, lift at 1. cbn [py_get].
  unfold bind at 1, lift at 1.
  replace (match assoc "quantity" kv with Some v => v | None => JInt 1 end)
    with (default (JInt 1) (assoc "quantity" kv))
    by (destruct (assoc "quantity" kv); reflexivity).
  rewrite Hq. unfold bind at 1.
  destruct (assoc "product_id" kv) as [pid|]; [|reflexivity].
  destruct pid; try reflexivity;
    destruct Hp as (key & Hkey & Hnone);
    unfold get_product_or_404, bind, lift, get_db, ret; rewrite Hkey; cbn [fst snd];
    rewrite Hnone; reflexivity.
Qed.

Lemma cart_lines_total d items lines :
  cart_lines d items = inr lines ->
  foldr (fun l acc => line_total l + acc) 0 lines = cart_total items /\
  foldr (fun l acc => line_quantity l * line_price l + acc) 0 lines = cart_total items.
Proof.
  revert lines. induction items as [|[k item] rest IH]; intros lines.
  { intros [= <-]. split; reflexivity. }
  cbn [cart_lines].
  destruct (products d !! CartItem.product item) as [product|]; [|discriminate].
  destruct (cart_lines d rest) as [e|ls]; [discriminate|].
  intros [= <-]. destruct (IH ls eq_refl) as (Ht & Hq).
  cbn. rewrite Ht, Hq. split; reflexivity.
Qed.

(** X21: the total the cart shows is the total the checkout charges.  When
    [get_cart_items] has answered a session with lines and a total, and a
    checkout of that session on the world it left goes through, the total of
    the sale is the total shown, which is the sum of quantity times price
    over the lines shown. *)
Theorem cart_total_is_the_checkout_total env' key m b kv w lines total st w1 sale_id charged
    st' w2 :
  key <> ""%string ->
  get_cart_items env (mkRequest m b (Some key)) w
  = (inr (mkResponse st (lines, total)), w1) ->
  checkout env' (mkRequest "POST" (Parsed (JObj kv)) (Some key)) w1
  = (inr (mkResponse st' (CheckoutDone sale_id charged)), w2) ->
  charged = total /\
  total = foldr (fun l acc => line_quantity l * line_price l + acc) 0 lines.
Proof.
  intros Hkey. unfold get_cart_items. unfold bind at 1.
  destruct (get_cart env (mkRequest m b (Some key)) w) as [[e|[c cart]] w0] eqn:Hcart;
    [discriminate|].
  pose proof (get_cart_again env env' m b "POST" (Parsed (JObj kv)) key w c cart w0
                Hkey Hcart) as Hagain.
  unfold bind at 1, get_db at 1. unfold bind at 1, lift at 1. cbn [fst snd].
  destruct (cart_lines (db w0) (cart_items_of c (db w0))) as [e|ls] eqn:Hlines;
    [discriminate|].
  unfold ret. intros [= <- <- <- <-].
  destruct (cart_lines_total _ _ _ Hlines) as (Htotal & Hsum).
  unfold checkout. cbn [method body].
  change (String.eqb "POST" "POST") with true. cbn iota.
  unfold bind at 1. unfold ret at 1. unfold bind at 1, lift at 1. cbn [py_get].
  unfold bind at 1. rewrite Hagain.
  unfold bind at 1, get_db at 1. unfold bind at 1. cbn [fst snd].
  destruct (create_sale _ _ _ w0) as [[e|sid] w3]; [discriminate|].
  unfold bind at 1, get_db at 1. unfold bind at 1.
  destruct (update_stock _ w3) as [[e|u] w4]; [discriminate|].
  unfold bind, get_db, put_db, ret. cbn [fst snd].
  intros [= <- <- <- <-]. split; [symmetry; exact Htotal|].
  rewrite Htotal, Hsum. reflexivity.
Qed.

(** X22: [remove_from_cart] removes a line of the caller's cart only.  Given
    the cart [get_cart] finds or creates for the request, the view always
    answers 200 with success; it adds and changes no line; a line that is
    gone afterwards is the line of the address and belonged to that cart; a
    line of the address that belongs to that cart is gone; lines of other
    carts, products, payments, movements and the network log are
    untouched. *)
Theorem remove_from_cart_own_lines_only req item_id w c cart w1 :
  get_cart env req w = (inr (c, cart), w1) ->
  exists w',
    remove_from_cart env req item_id w = (inr (mkResponse 200 true), w') /\
    (forall k item, cart_items (db w') !! k = Some item ->
                    cart_items (db w) !! k = Some item) /\
    (forall k item, cart_items (db w) !! k = Some item ->
                    cart_items (db w') !! k = None ->
                    k = item_id /\ CartItem.cart item = c) /\
    (forall item, cart_items (db w) !! item_id = Some item -> CartItem.cart item = c ->
                  cart_items (db w') !! item_id = None) /\
    products (db w') = products (db w) /\
    same_ledger w w'.
Proof.
  intros Hcart. unfold remove_from_cart. unfold bind at 1. rewrite Hcart.
  pose proof (get_cart_ledger env req w) as (Hl & Hp & Hci & _).
  rewrite Hcart in Hl, Hp, Hci. cbn [snd] in Hl, Hp, Hci.
  unfold bind at 1, get_db at 1. cbn [fst snd]. rewrite Hci.
  destruct (cart_items (db w) !! item_id) as [found|] eqn:Hfound.
  - destruct (Z.eqb_spec (CartItem.cart found) c) as [Hc|Hc].
    + unfold bind, put_db, ret. cbn [fst snd]. eexists. split; [reflexivity|].
      cbn [db cart_items set_cart_items products]. rewrite ?Hci.
      split.
      { intros k item Hk. apply lookup_delete_Some in Hk as [_ Hk]. exact Hk. }
      split.
      { intros k item Hk Hgone. apply lookup_delete_None in Hgone as [<-|Hgone].
        - split; [reflexivity|]. congruence.
        - congruence. }
      split; [intros; apply lookup_delete_eq|].
      split; [exact Hp|]. destruct Hl as (?&?&?&?). repeat split; assumption.
    + unfold bind, ret. cbn [fst snd]. eexists. split; [reflexivity|]. rewrite ?Hci.
      split; [auto|]. split; [intros; congruence|].
      split; [intros item Hi; congruence|]. split; [exact Hp|exact Hl].
  - unfold bind, ret. cbn [fst snd]. eexists. split; [reflexivity|]. rewrite ?Hci.
    split; [auto|]. split; [intros; congruence|].
    split; [intros; congruence|]. split; [exact Hp|exact Hl].
Qed.

End CartEndpoints.

(** ** Stock status *)

(** X23: every product has a status that is displayed.  [Product.status]
    is [out_of_stock] exactly when the stock is zero or less, [low_stock]
    exactly when it is above zero and at most the minimum level, [in_stock]
    exactly when it is above both; so the defaults of the two lookups are
    dead: [status_display] is never [Unknown] and the colour of the admin
    list never [gray]. *)
Theorem product_status_is_displayed p :
  product_status_display p <> "Unknown"%string /\
  admin_status_color p <> "gray"%string /\
  (product_status p = "out_of_stock"%string <-> Product.stock p <= 0) /\
  (product_status p = "low_stock"%string
   <-> 0 < Product.stock p <= Product.min_stock_level p) /\
  (product_status p = "in_stock"%string
   <-> 0 < Product.stock p /\ Product.min_stock_level p < Product.stock p).
Proof.
  unfold product_status_display, admin_status_color, product_status.
  destruct (Z.leb_spec (Product.stock p) 0);
    [|destruct (Z.leb_spec (Product.stock p) (Product.min_stock_level p))];
    cbn; repeat split; try discriminate; try lia; intros; try lia; try discriminate.
Qed.


Import Reference.

(** ** The scenarios of the specification, run *)

(** Initiation for 0712345678 and 500, accepted as [ws_1]: one pending row. *)
Example scenario_initiated :
  payments (db w_initiated) = {[1 := pending_row "0712345678" "ws_1" 500]}.
Proof. vm_compute. reflexivity. Qed.

(** The success callback with receipt ABC123 and amount 500. *)
Example scenario_success :
  (MPesaPayment.status <$>
     payments (db (snd (mpesa_callback runtime (env_at 2000)
                          (post (callback "ws_1" (JInt 0) success_items))
                          w_initiated))) !! 1) = Some successful /\
  (MPesaPayment.mpesa_receipt_number <$>
     payments (db (snd (mpesa_callback runtime (env_at 2000)
                          (post (callback "ws_1" (JInt 0) success_items))
                          w_initiated))) !! 1) = Some "ABC123"%string.
Proof. split; vm_compute; reflexivity. Qed.

(** The callback of a cancellation: the row is failed, code 1032. *)
Example scenario_cancelled :
  (MPesaPayment.status <$> payments (db w_cancelled) !! 1) = Some failed /\
  (MPesaPayment.result_code <$> payments (db w_cancelled) !! 1) = Some "1032"%string.
Proof. split; vm_compute; reflexivity. Qed.

(** A callback for an id no row has: code 1, the world as it was. *)
Example scenario_unknown_id :
  mpesa_callback runtime (env_at 2000) (post (callback "ws_9" (JInt 0) success_items))
                 w_initiated
  = (inr (ack 1 "Payment not found"), w_initiated).
Proof. vm_compute. reflexivity. Qed.

(** A callback without CheckoutRequestID, and a body that is not JSON. *)
Example scenario_missing_id :
  mpesa_callback runtime (env_at 2000) (post (JObj [("Body", JObj [])])) w_initiated
  = (inr (ack 1 "Missing CheckoutRequestID"), w_initiated) /\
  mpesa_callback runtime (env_at 2000) (mkRequest "POST" BadJson None) w_initiated
  = (inr (ack 1 "Invalid JSON"), w_initiated).
Proof. split; vm_compute; reflexivity. Qed.

(** An initiation with a phone of no known shape: status 400, no call, no
    row. *)
Example scenario_invalid_phone :
  let r := initiate_mpesa_payment runtime env cfg
             (post (JObj [("phone_number", JStr "12345"); ("amount", JInt 500)]))
             (world empty_db) in
  fst r = inr (mkResponse 400 (InitFailure (MsgGateway (ValidationError
            (ValueError (Some "Invalid phone number format: 12345"%string)))))) /\
  net (snd r) = [] /\ db (snd r) = empty_db.
Proof. repeat split; vm_compute; reflexivity. Qed.

(** An initiation that the provider declines: status 400, one push, no
    row. *)
Example scenario_declined :
  let r := initiate_mpesa_payment runtime env_declining cfg (post initiation)
             (world empty_db) in
  fst r = inr (mkResponse 400 (InitFailure (MsgGateway (ProviderDeclined
            (JStr "Unable to lock subscriber") (JStr "1"))))) /\
  length (pushes (net (snd r))) = 1%nat /\
  db (snd r) = empty_db.
Proof. repeat split; vm_compute; reflexivity. Qed.

(** ** The claims at concrete inputs *)



(** A callback without [ResultDesc], here of a cancellation: [save] refuses
    the row, the acknowledgment is code 1 and the row stays [pending]. *)
Example callback_without_description_is_refused :
  mpesa_callback runtime (env_at 2000)
    (post (callback_without_description "ws_1" (JInt 1032))) w_initiated
  = (inr (ack 1 "Processing error"), w_initiated) /\
  (MPesaPayment.status <$> payments (db w_initiated) !! 1) = Some pending.
Proof. split; vm_compute; reflexivity. Qed.

(** C2, counterexample: the same success callback delivered at time 2000
    and again at time 3000; the second delivery writes the row again, its
    [updated_at] moves from 2000 to 3000. *)
Example duplicate_delivery_rewrites_row :
  (MPesaPayment.updated_at <$>
     payments (db (snd (mpesa_callback runtime (env_at 2000)
                          (post (callback "ws_1" (JInt 0) success_items))
                          w_initiated))) !! 1) = Some 2000 /\
  (MPesaPayment.updated_at <$>
     payments (db (snd (mpesa_callback runtime (env_at 3000)
                          (post (callback "ws_1" (JInt 0) success_items))
                          (snd (mpesa_callback runtime (env_at 2000)
                                  (post (callback "ws_1" (JInt 0) success_items))
                                  w_initiated))))) !! 1) = Some 3000.
Proof. split; vm_compute; reflexivity. Qed.

(** C6, counterexample: the phone 0712345678 is stored as given, while the
    push carries 254712345678. *)
Example stored_phone_is_not_normalized :
  (MPesaPayment.phone_number <$> payments (db w_initiated) !! 1)
  = Some "0712345678"%string /\
  map PartyA (pushes (net w_initiated)) = ["254712345678"%string] /\
  format_phone_number "0712345678" = inr "254712345678"%string.
Proof. repeat split; vm_compute; reflexivity. Qed.

(** C6, witness: the amended statement at the initiation of the scenario. *)
Lemma initiation_stores_submitted_phone_witness :
  (exists raw, py_get initiation "phone_number" (JStr "") = inr (JStr raw) /\
               "0712345678"%string = strip raw) /\
  (exists row,
     payments (db (snd (initiate_mpesa_payment runtime env cfg (post initiation)
                          (world empty_db)))) !! 1 = Some row /\
     MPesaPayment.phone_number row = "0712345678"%string /\
     MPesaPayment.status row = pending) /\
  (exists evs payload,
     net (snd (initiate_mpesa_payment runtime env cfg (post initiation) (world empty_db)))
     = net (world empty_db) ++ evs /\
     pushes evs = [payload] /\
     format_phone_number "0712345678" = inr (PartyA payload) /\
     PhoneNumber payload = PartyA payload).
Proof.
  eapply (initiation_stores_submitted_phone runtime env cfg initiation None
            (world empty_db));
    vm_compute; reflexivity.
Defined.



(** Metadata without a receipt and with a date that is no date: the
    transition is saved all the same, receipt and date left unset. *)
Example partial_metadata_is_saved :
  payments (db (snd (mpesa_callback runtime (env_at 2000)
                       (post (callback "ws_1" (JInt 0) partial_items)) w_initiated))) !! 1
  = Some (MPesaPayment.mk None "0712345678" (FFinite (inject_Z 450)) (JStr "ws_1")
            (JStr "29115-34620561-1") "" None successful "0"
            (JStr "The service request is processed.") 1000 2000).
Proof. vm_compute. reflexivity. Qed.

(** C8, counterexample: the amount 1.5 is not refused; the push is made
    with [Amount] 1. *)
Example fractional_amount_is_truncated :
  validate_amount runtime (JFloat (FFinite (3 # 2))) = inr 1 /\
  map Amount
    (pushes (net (snd (initiate_stk_push runtime env (JStr "0712345678")
                         (JFloat (FFinite (3 # 2))) (JStr "POS Payment")
                         "Goods/Services" (world empty_db))))) = [1].
Proof. split; vm_compute; reflexivity. Qed.

(** A reference of twenty characters goes out as its first twelve. *)
Example long_reference_is_cut :
  map AccountReference
    (pushes (net (snd (initiate_stk_push runtime env (JStr "0712345678") (JInt 500)
                         (JStr "INVOICE-2024-000123X") "Goods/Services"
                         (world empty_db))))) = [JStr "INVOICE-2024"].
Proof. vm_compute. reflexivity. Qed.

(** C10, counterexample: a pending row and a callback whose ResultCode is
    the float 0.0, an encoding of zero that is not an integer: the row is
    [successful] with result code 0.0, not [failed]. *)
Example float_zero_takes_success_branch :
  (MPesaPayment.status <$>
     payments (db (snd (mpesa_callback runtime (env_at 2000)
                          (post (callback "ws_1" (JFloat (FFinite 0)) []))
                          w_initiated))) !! 1) = Some successful /\
  (MPesaPayment.result_code <$>
     payments (db (snd (mpesa_callback runtime (env_at 2000)
                          (post (callback "ws_1" (JFloat (FFinite 0)) []))
                          w_initiated))) !! 1) = Some "0.0"%string.
Proof. split; vm_compute; reflexivity. Qed.

(** C10, witness: the amended statement at the string 0: failure branch,
    status failed, result code 0. *)
Lemma callback_zero_test_witness :
  mpesa_callback runtime (env_at 2000)
    (mkRequest "POST" (Parsed (callback "ws_1" (JStr "0") [])) None) w_initiated
  = (inr (ack 0 "Success"),
     saved (env_at 2000) 1
       (MPesaPayment.set_result failed "0" (JStr "The service request is processed.")
          (pending_row "0712345678" "ws_1" 500))
       w_initiated).
Proof.
  assert (Hd : callback_details (callback "ws_1" (JStr "0") [])
               = inr (stk_callback "ws_1" (JStr "0") [], JStr "ws_1", JStr "0",
                      JStr "The service request is processed."))
    by (vm_compute; reflexivity).
  assert (Hget : objects_get (has_checkout_request_id (JStr "ws_1"))
                   (payments (db w_initiated))
                 = inr (1, pending_row "0712345678" "ws_1" 500))
    by (vm_compute; reflexivity).
  destruct (callback_zero_test runtime (env_at 2000) _ None _ _ _ _ _ _ _
              Hd eq_refl Hget) as (_ & H & _).
  apply (H "0"%string); [reflexivity|discriminate|discriminate].
Defined.

(** C5: a local number that is too short is not refused. *)
Example format_phone_number_short_local :
  format_phone_number "0123" = inr "254123"%string /\
  format_phone_number "254" = inr "254"%string.
Proof. split; reflexivity. Qed.

(** C9: checkout of a cart with two pieces of a product in stock at 5: the
    stock is 3 afterwards and no movement was written; [remove_stock] for
    the same sale writes one. *)
Example checkout_decrements_without_movement :
  (Product.stock <$> products (db (snd (checkout env checkout_request (world shop_db)))) !! 1)
  = Some 3 /\
  movements (db (snd (checkout env checkout_request (world shop_db)))) = ∅ /\
  movements (db (snd (remove_stock 1 (Product.mk "Soap" 1000 5 10) 2 "sale" None
                        (world shop_db))))
  = {[1 := StockMovement.mk 1 "out" 2 5 3 "sale" None]}.
Proof. repeat split; vm_compute; reflexivity. Qed.

(** ** The further properties at concrete inputs *)

Lemma format_phone_number_canonical_witness :
  startswith "254712345678" "254" = true /\
  forallb isdigit (chars "254712345678") = true /\
  (3 <= String.length "254712345678")%nat.
Proof. apply (format_phone_number_canonical "+254 712-345-678"). reflexivity. Defined.

Lemma format_phone_number_idempotent_witness :
  format_phone_number "254712345678" = inr "254712345678"%string.
Proof. apply (format_phone_number_idempotent "0712 345 678"). reflexivity. Defined.

Lemma format_phone_number_ignores_separators_witness :
  format_phone_number ("0712" +:+ String "-" "345678")
  = format_phone_number ("0712" +:+ "345678").
Proof. apply format_phone_number_ignores_separators. reflexivity. Defined.

Lemma token_cached_until_expiry_witness :
  _ensure_token Reference.runtime (Reference.env_at 4499)
    (snd (get_access_token Reference.runtime Reference.env
            (Reference.world Reference.empty_db)))
  = (inr (JStr "token"),
     snd (get_access_token Reference.runtime Reference.env
            (Reference.world Reference.empty_db)))
  /\
  _ensure_token Reference.runtime (Reference.env_at 4500)
    (snd (get_access_token Reference.runtime Reference.env
            (Reference.world Reference.empty_db)))
  = get_access_token Reference.runtime (Reference.env_at 4500)
      (snd (get_access_token Reference.runtime Reference.env
              (Reference.world Reference.empty_db))).
Proof.
  split.
  - apply (proj1 (token_cached_until_expiry Reference.runtime Reference.env
                    (Reference.env_at 4499) (Reference.world Reference.empty_db)
                    (JStr "token") eq_refl)); [reflexivity|].
    simpl; lia.
  - apply (proj2 (token_cached_until_expiry Reference.runtime Reference.env
                    (Reference.env_at 4500) (Reference.world Reference.empty_db)
                    (JStr "token") eq_refl)).
    right. simpl; lia.
Defined.

Lemma push_is_signed_and_addressed_witness :
  exists url auth payload,
    In (StkPushRequest url auth payload) (net (Reference.world Reference.empty_db)) \/
    (signed_by Reference.runtime Reference.env
               (service (Reference.world Reference.empty_db)) url payload /\
     1 <= Amount payload /\
     PhoneNumber payload = PartyA payload /\
     exists rest, PartyA payload = ("254" +:+ rest)%string /\
                  forallb isdigit (chars rest) = true).
Proof.
  eexists _, _, _.
  apply (push_is_signed_and_addressed Reference.runtime Reference.env
           (JStr "0712 345 678") (JInt 500) (JStr "POS000007") "Payment for goods"
           (Reference.world Reference.empty_db)).
  vm_compute. right. left. reflexivity.
Defined.

Lemma views_keep_checkout_ids_unique_witness :
  unique_checkout_ids
    (payments (db (snd (initiate_mpesa_payment Reference.runtime (Reference.env_at 1200)
                          Reference.cfg (Reference.post Reference.initiation)
                          Reference.w_initiated)))) /\
  unique_checkout_ids
    (payments (db (snd (mpesa_callback Reference.runtime (Reference.env_at 1200)
                          (Reference.post Reference.initiation) Reference.w_initiated)))).
Proof.
  apply (views_keep_checkout_ids_unique Reference.runtime (Reference.env_at 1200)
           Reference.cfg (Reference.post Reference.initiation) Reference.w_initiated).
  intros k1 k2 p1 p2 H1 H2 _.
  assert (E : payments (db Reference.w_initiated)
              = {[1 := Reference.pending_row "0712345678" "ws_1" 500]})
    by (vm_compute; reflexivity).
  rewrite E in H1, H2.
  apply lookup_singleton_Some in H1 as [<- _].
  apply lookup_singleton_Some in H2 as [<- _].
  reflexivity.
Defined.

Lemma status_after_initiation_witness :
  exists row,
    payments (db (snd (initiate_mpesa_payment Reference.runtime Reference.env Reference.cfg
                         (Reference.post Reference.initiation)
                         (Reference.world Reference.empty_db)))) !! 1 = Some row /\
    check_payment_status "ws_1"
      (snd (initiate_mpesa_payment Reference.runtime Reference.env Reference.cfg
              (Reference.post Reference.initiation) (Reference.world Reference.empty_db)))
    = (inr (mkResponse 200
              (StatusFound pending "" (MPesaPayment.amount row)
                           (MPesaPayment.phone_number row) (now Reference.env) false)),
       snd (initiate_mpesa_payment Reference.runtime Reference.env Reference.cfg
              (Reference.post Reference.initiation) (Reference.world Reference.empty_db))).
Proof.
  eapply (status_after_initiation Reference.runtime Reference.env Reference.cfg
            (Reference.post Reference.initiation) (Reference.world Reference.empty_db)).
  vm_compute. reflexivity.
Defined.

Lemma status_after_callback_witness :
  exists p',
    payments (db (snd (mpesa_callback Reference.runtime (Reference.env_at 1500)
                         (mkRequest "POST"
                            (Parsed (Reference.callback "ws_1" (JInt 0)
                                       Reference.success_items)) None)
                         Reference.w_initiated))) !! 1 = Some p' /\
    check_payment_status "ws_1"
      (snd (mpesa_callback Reference.runtime (Reference.env_at 1500)
              (mkRequest "POST"
                 (Parsed (Reference.callback "ws_1" (JInt 0) Reference.success_items)) None)
              Reference.w_initiated))
    = (inr (mkResponse 200
              (StatusFound (if eq_zero (JInt 0) then successful else failed)
                 (MPesaPayment.mpesa_receipt_number p') (MPesaPayment.amount p')
                 (MPesaPayment.phone_number (Reference.pending_row "0712345678" "ws_1" 500))
                 (MPesaPayment.created_at (Reference.pending_row "0712345678" "ws_1" 500))
                 (eq_zero (JInt 0)))),
       snd (mpesa_callback Reference.runtime (Reference.env_at 1500)
              (mkRequest "POST"
                 (Parsed (Reference.callback "ws_1" (JInt 0) Reference.success_items)) None)
              Reference.w_initiated)).
Proof.
  eapply (status_after_callback Reference.runtime (Reference.env_at 1500)
            (Reference.callback "ws_1" (JInt 0) Reference.success_items) None
            Reference.w_initiated).
  - vm_compute. reflexivity.
  - vm_compute. reflexivity.
  - vm_compute. reflexivity.
Defined.

Lemma add_then_remove_stock_witness :
  exists w1 self1 w2,
    add_stock 1 (Product.mk "Soap" 1000 5 10) 3 "delivery" None
              (Reference.world Reference.shop_db)
    = (inr (Product.stock (Product.mk "Soap" 1000 5 10) + 3, self1), w1) /\
    remove_stock 1 self1 3 "delivery" None w1
    = (inr (Product.stock (Product.mk "Soap" 1000 5 10), Product.mk "Soap" 1000 5 10), w2) /\
    products (db w2) !! 1 = Some (Product.mk "Soap" 1000 5 10) /\
    (forall k', k' <> 1 ->
                products (db w2) !! k' = products (db (Reference.world Reference.shop_db)) !! k') /\
    exists k1 k2 m1 m2,
      k1 <> k2 /\
      movements (db (Reference.world Reference.shop_db)) !! k1 = None /\
      movements (db (Reference.world Reference.shop_db)) !! k2 = None /\
      movements (db w2)
      = <[k2 := m2]> (<[k1 := m1]> (movements (db (Reference.world Reference.shop_db)))) /\
      StockMovement.new_quantity m1 = StockMovement.previous_quantity m2 /\
      StockMovement.new_quantity m2 = StockMovement.previous_quantity m1.
Proof.
  apply (add_then_remove_stock 1 (Product.mk "Soap" 1000 5 10) 3 "delivery" None
           (Reference.world Reference.shop_db)).
  simpl. lia.
Defined.

Lemma checkout_sells_the_cart_witness :
  (exists w',
     checkout Reference.env (mkRequest "POST" (Parsed (JObj [])) (Some "abc"))
              (Reference.world Reference.shop_db)
     = (inr (mkResponse 200
               (CheckoutDone (next_key (sales (db (Reference.world Reference.shop_db))))
                  (cart_total (cart_items_of 1 (db (Reference.world Reference.shop_db)))))),
        w') /\
     sales (db w')
     = <[next_key (sales (db (Reference.world Reference.shop_db))) :=
           Sale.mk 1 (cart_total (cart_items_of 1 (db (Reference.world Reference.shop_db))))
                   (default (JStr "cash") (assoc "payment_method" []))]>
         (sales (db (Reference.world Reference.shop_db))) /\
     carts (db w')
     = <[1 := Cart.mk (Cart.session_id (Cart.mk "abc" false)) true]>
         (carts (db (Reference.world Reference.shop_db))) /\
     (forall k, products (db w') !! k
                = (fun p => Product.set_stock
                              (Product.stock p
                               - sold k (cart_items_of 1 (db (Reference.world Reference.shop_db))))
                              p)
                    <$> products (db (Reference.world Reference.shop_db)) !! k)) /\
  checkout Reference.env
    (mkRequest "POST" (Parsed (JObj [("payment_method", JNull)])) (Some "abc"))
    (Reference.world Reference.shop_db)
  = (inl IntegrityError, Reference.world Reference.shop_db).
Proof.
  assert (Hget : objects_get (open_cart "abc") (carts (db (Reference.world Reference.shop_db)))
                 = inr (1, Cart.mk "abc" false)) by (vm_compute; reflexivity).
  assert (Hnew : objects_filter (fun s => Sale.cart s =? 1)
                   (sales (db (Reference.world Reference.shop_db))) = [])
    by (vm_compute; reflexivity).
  assert (Hall : forall i, In i (cart_items_of 1 (db (Reference.world Reference.shop_db))) ->
                   is_Some (products (db (Reference.world Reference.shop_db))
                              !! CartItem.product (snd i))).
  { intros i Hi. vm_compute in Hi. destruct Hi as [<-|[]]. vm_compute. eauto. }
  split.
  - apply (proj1 (checkout_sells_the_cart Reference.env [] "abc" 1 (Cart.mk "abc" false)
                    (Reference.world Reference.shop_db)
                    ltac:(discriminate) Hget Hnew Hall)).
    discriminate.
  - apply (proj2 (checkout_sells_the_cart Reference.env [("payment_method", JNull)] "abc" 1
                    (Cart.mk "abc" false) (Reference.world Reference.shop_db)
                    ltac:(discriminate) Hget Hnew Hall)).
    reflexivity.
Defined.

Lemma get_cart_is_stable_witness :
  get_cart (Reference.env_at 2000) (mkRequest "POST" (Parsed (JObj [])) (Some "abc"))
           (snd (add_to_cart Reference.runtime Reference.env Reference.number
                   (mkRequest "POST" (Parsed (JObj [("product_id", JInt 1)])) (Some "abc"))
                   (Reference.world Reference.shop_db)))
  = (inr (1, Cart.mk "abc" false),
     snd (add_to_cart Reference.runtime Reference.env Reference.number
            (mkRequest "POST" (Parsed (JObj [("product_id", JInt 1)])) (Some "abc"))
            (Reference.world Reference.shop_db))) /\
  exists c',
    c' <> 1 /\
    carts (db (snd (checkout Reference.env Reference.checkout_request
                      (Reference.world Reference.shop_db)))) !! c' = None /\
    fst (get_cart (Reference.env_at 2000) (mkRequest "POST" (Parsed (JObj [])) (Some "abc"))
           (snd (checkout Reference.env Reference.checkout_request
                   (Reference.world Reference.shop_db))))
    = inr (c', Cart.mk "abc" false).
Proof.
  destruct (get_cart_is_stable Reference.env (Reference.env_at 2000) "GET" (Parsed JNull)
              "POST" (Parsed (JObj [])) "abc" (Reference.world Reference.shop_db)
              1 (Cart.mk "abc" false) (Reference.world Reference.shop_db)
              ltac:(discriminate) eq_refl) as (Hsame & Hdone & _).
  split.
  - apply Hsame. vm_compute. reflexivity.
  - destruct (Hdone (snd (checkout Reference.env Reference.checkout_request
                            (Reference.world Reference.shop_db))))
      as (c' & Hne & Hfresh & Hrun).
    + vm_compute. reflexivity.
    + exists c'. split; [exact Hne|]. split; [exact Hfresh|]. rewrite Hrun. reflexivity.
Defined.

Lemma add_to_cart_accumulates_witness :
  exists k line w',
    add_to_cart Reference.runtime Reference.env Reference.number
      (mkRequest "POST" (Parsed (JObj [("product_id", JInt 1); ("quantity", JStr "3")]))
                 (Some "abc"))
      (Reference.world Reference.shop_db)
    = (inr (mkResponse 200 AddDone), w') /\
    cart_items (db w') = <[k := line]> (cart_items (db (Reference.world Reference.shop_db))) /\
    one_line_per_product (cart_items (db w')) /\
    CartItem.cart line = 1 /\ CartItem.product line = 1 /\
    match cart_items (db (Reference.world Reference.shop_db)) !! k with
    | Some old =>
        CartItem.quantity line = CartItem.quantity old + 3 /\
        CartItem.price line = CartItem.price old
    | None =>
        CartItem.quantity line = 3 /\
        CartItem.price line = Product.price (Product.mk "Soap" 1000 5 10)
    end /\
    products (db w') = products (db (Reference.world Reference.shop_db)) /\
    same_ledger (Reference.world Reference.shop_db) w'.
Proof.
  apply (add_to_cart_accumulates Reference.runtime Reference.env Reference.number
           [("product_id", JInt 1); ("quantity", JStr "3")] (Some "abc")
           (Reference.world Reference.shop_db)
           3 (JInt 1) 1 (Product.mk "Soap" 1000 5 10) 1 (Cart.mk "abc" false)
           (Reference.world Reference.shop_db)).
  - vm_compute. reflexivity.
  - vm_compute. reflexivity.
  - discriminate.
  - vm_compute. reflexivity.
  - vm_compute. reflexivity.
  - vm_compute. reflexivity.
  - intros k1 k2 i1 i2 H1 H2 _ _. cbn in H1, H2.
    apply lookup_singleton_Some in H1 as [<- _].
    apply lookup_singleton_Some in H2 as [<- _]. reflexivity.
Defined.

Lemma add_to_cart_unknown_product_witness :
  add_to_cart Reference.runtime Reference.env Reference.number
    (mkRequest "POST" (Parsed (JObj [("product_id", JInt 7)])) None)
    (Reference.world Reference.shop_db)
  = (inr (mkResponse 404 AddNotFound), Reference.world Reference.shop_db).
Proof.
  apply (add_to_cart_unknown_product Reference.runtime Reference.env Reference.number
           [("product_id", JInt 7)] None (Reference.world Reference.shop_db) 1).
  - vm_compute. reflexivity.
  - simpl. exists 7. split; vm_compute; reflexivity.
Defined.

Lemma cart_total_is_the_checkout_total_witness :
  2000 = 2000 /\
  2000 = foldr (fun l acc => line_quantity l * line_price l + acc) 0
               [mkLine 1 "Soap" 1000 2 2000].
Proof.
  apply (cart_total_is_the_checkout_total Reference.env
           (Reference.env_at 2000) "abc" "GET" (Parsed JNull) []
           (Reference.world Reference.shop_db) [mkLine 1 "Soap" 1000 2 2000] 2000 200
           (Reference.world Reference.shop_db) 1 2000 200
           (snd (checkout (Reference.env_at 2000)
                   (mkRequest "POST" (Parsed (JObj [])) (Some "abc"))
                   (Reference.world Reference.shop_db)))).
  - discriminate.
  - vm_compute. reflexivity.
  - vm_compute. reflexivity.
Defined.

Lemma remove_from_cart_own_lines_only_witness :
  exists w',
    remove_from_cart Reference.env (mkRequest "POST" (Parsed JNull) (Some "abc")) 1
                     (Reference.world Reference.shop_db)
    = (inr (mkResponse 200 true), w') /\
    (forall k item, cart_items (db w') !! k = Some item ->
                    cart_items (db (Reference.world Reference.shop_db)) !! k = Some item) /\
    (forall k item, cart_items (db (Reference.world Reference.shop_db)) !! k = Some item ->
                    cart_items (db w') !! k = None ->
                    k = 1 /\ CartItem.cart item = 1) /\
    (forall item, cart_items (db (Reference.world Reference.shop_db)) !! 1 = Some item ->
                  CartItem.cart item = 1 ->
                  cart_items (db w') !! 1 = None) /\
    products (db w') = products (db (Reference.world Reference.shop_db)) /\
    same_ledger (Reference.world Reference.shop_db) w'.
Proof.
  apply (remove_from_cart_own_lines_only Reference.env
           (mkRequest "POST" (Parsed JNull) (Some "abc")) 1
           (Reference.world Reference.shop_db) 1 (Cart.mk "abc" false)
           (Reference.world Reference.shop_db)).
  vm_compute. reflexivity.
Defined.
